(** * sagemaker-python-sdk: debugger rule configuration and JumpStart data holders

    A shallow embedding of [src/sagemaker/debugger/debugger.py] and
    [src/sagemaker/jumpstart/types.py].

    Python dictionaries are insertion-ordered association lists with pairwise
    distinct keys.  The dictionaries that the debugger classes keep as
    attributes ([rule_parameters], [hook_parameters], a collection's
    [parameters]) are objects with an identity: they live in a store and are
    passed around by reference, because one serializer writes through such a
    reference.  Numbers are integers; floating point values are not modelled. *)

From stdpp Require Import gmap strings list sorting pretty.

Open Scope string_scope.
Open Scope list_scope.

(** ** Exceptions and results *)

Inductive exn : Type :=
  | ValueError
  | RuntimeError
  | TypeError
  | KeyError
  | AttributeError
  | DanglingRef.   (* a reference outside the store: cannot happen in Python,
                      the model's answer to an ill-formed store *)

Inductive result (A : Type) : Type :=
  | Ok (a : A)
  | Raise (e : exn).
Arguments Ok {A} a.
Arguments Raise {A} e.

Definition is_Ok {A} (r : result A) : bool :=
  match r with Ok _ => true | Raise _ => false end.

(** ** Scalars *)

Inductive scalar : Type :=
  | SNone
  | SBool (b : bool)
  | SInt (n : Z)
  | SStr (s : string).

Global Instance scalar_eq_dec : EqDecision scalar.
Proof. solve_decision. Defined.

(** [bool(x)] *)
Definition scalar_truthy (x : scalar) : bool :=
  match x with
  | SNone => false
  | SBool b => b
  | SInt n => negb (n =? 0)%Z
  | SStr s => negb (String.eqb s "")
  end.

(** [x == y]: booleans are integers ([True == 1]), nothing else mixes. *)
Definition scalar_eqb (x y : scalar) : bool :=
  match x, y with
  | SNone, SNone => true
  | SBool a, SBool b => Bool.eqb a b
  | SBool a, SInt n | SInt n, SBool a => (Z.b2z a =? n)%Z
  | SInt m, SInt n => (m =? n)%Z
  | SStr s, SStr t => String.eqb s t
  | _, _ => false
  end.

(** [x or y] *)
Definition scalar_or (x y : scalar) : scalar :=
  if scalar_truthy x then x else y.

(** [str(x)] *)
Definition py_str (x : scalar) : string :=
  match x with
  | SNone => "None"
  | SBool true => "True"
  | SBool false => "False"
  | SInt n => pretty n
  | SStr s => s
  end.

(** ** Dictionaries *)

Module Dict.

Definition keys {A} (d : list (string * A)) : list string := d.*1.

(** The keys of a Python dictionary are pairwise distinct. *)
Definition wf {A} (d : list (string * A)) : Prop := NoDup (keys d).

(** [d.get(k)] *)
Fixpoint get {A} (k : string) (d : list (string * A)) : option A :=
  match d with
  | [] => None
  | (k', v) :: d' => if decide (k = k') then Some v else get k d'
  end.

(** [d[k] = v]: an existing key keeps its place, a new key goes last. *)
Fixpoint set {A} (k : string) (v : A) (d : list (string * A)) : list (string * A) :=
  match d with
  | [] => [(k, v)]
  | (k', v') :: d' =>
      if decide (k = k') then (k', v) :: d' else (k', v') :: set k v d'
  end.

(** [d.update(other)] *)
Definition update {A} (d other : list (string * A)) : list (string * A) :=
  foldl (λ acc kv, set kv.1 kv.2 acc) d other.

(** [d1 == d2]: same size, and every entry of [d1] is matched in [d2]. *)
Definition eqb {A} (veqb : A → A → bool) (d1 d2 : list (string * A)) : bool :=
  (length d1 =? length d2)%nat &&
  forallb (λ kv, match get kv.1 d2 with
                 | Some v2 => veqb kv.2 v2
                 | None => false
                 end) d1.

End Dict.

(** ** The store of parameter dictionaries *)

Definition loc : Type := positive.

Abbreviation store := (gmap loc (list (string * scalar))).

(** A Python value as it occurs in a request dictionary.  A request dictionary
    is built by a serializer and handed to its caller: it is given by value.
    A parameter dictionary it shares with the receiver occurs in it as a
    reference into the store. *)
#[warnings="-register-all"]
Inductive value : Type :=
  | VScalar (s : scalar)
  | VRef (l : loc)
  | VDict (d : list (string * value))
  | VList (vs : list value).

Definition VNone : value := VScalar SNone.

(** An attribute that holds a dictionary or [None]. *)
Definition ref_value (r : option loc) : value :=
  match r with Some l => VRef l | None => VNone end.

(** [bool(v)]; the truth of a dictionary is read from the store. *)
Definition truthy (h : store) (v : value) : bool :=
  match v with
  | VScalar s => scalar_truthy s
  | VRef l => match h !! l with Some [] | None => false | Some _ => true end
  | VDict d => match d with [] => false | _ => true end
  | VList vs => match vs with [] => false | _ => true end
  end.

(** The entries of a dictionary of scalars, if it is one. *)
Definition scalars (d : list (string * value)) : option (list (string * scalar)) :=
  mapM (λ kv, match kv.2 with VScalar s => Some (kv.1, s) | _ => None end) d.

(** ** Computations: a store is threaded, an exception ends the call *)

Definition M (A : Type) : Type := store → result A * store.

Global Instance M_ret : MRet M := λ A a h, (Ok a, h).

Global Instance M_bind : MBind M := λ A B f m h,
  match m h with
  | (Ok a, h') => f a h'
  | (Raise e, h') => (Raise e, h')
  end.

Definition raise {A} (e : exn) : M A := λ h, (Raise e, h).

Definition get_store : M store := λ h, (Ok h, h).

(** [{...}]: a new dictionary object *)
Definition new_dict (d : list (string * scalar)) : M loc := λ h,
  let l := fresh (dom h) in (Ok l, <[l := d]> h).

(** the entries of the dictionary at [l] *)
Definition items (l : loc) : M (list (string * scalar)) := λ h,
  match h !! l with
  | Some d => (Ok d, h)
  | None => (Raise DanglingRef, h)
  end.

(** [x or {}] for [x] a dictionary or [None], read *)
Definition items_or_empty (r : option loc) : M (list (string * scalar)) :=
  match r with
  | Some l => items l
  | None => mret []
  end.

(** [l[k] = v] *)
Definition setitem (l : loc) (k : string) (v : scalar) : M unit := λ h,
  match h !! l with
  | Some d => (Ok (), <[l := Dict.set k v d]> h)
  | None => (Raise DanglingRef, h)
  end.

(** [l[k]] *)
Definition getitem (l : loc) (k : string) : M scalar :=
  d ← items l;
  match Dict.get k d with
  | Some v => mret v
  | None => raise KeyError
  end.

(** [l.update(other)] for the entries [other] *)
Definition update (l : loc) (other : list (string * scalar)) : M unit := λ h,
  match h !! l with
  | Some d => (Ok (), <[l := Dict.update d other]> h)
  | None => (Raise DanglingRef, h)
  end.

(** [l.update(other)] for a dictionary just built from values: a parameter
    dictionary holds scalars. *)
Definition update_values (l : loc) (other : list (string * value)) : M unit :=
  match scalars other with
  | Some d => update l d
  | None => raise TypeError
  end.

(** [for x in xs: body(x)] *)
Fixpoint for_each {A} (xs : list A) (body : A → M unit) : M unit :=
  match xs with
  | [] => mret ()
  | x :: xs' => body x;; for_each xs' body
  end.

(** [[f(x) for x in xs]] *)
Fixpoint comprehension {A B} (f : A → M B) (xs : list A) : M (list B) :=
  match xs with
  | [] => mret []
  | x :: xs' => y ← f x; ys ← comprehension f xs'; mret (y :: ys)
  end.

(** [enumerate(xs)] *)
Definition enumerate {A} (xs : list A) : list (nat * A) :=
  imap (λ i x, (i, x)) xs.

(** Every dictionary of the store has pairwise distinct keys. *)
Definition store_wf (h : store) : Prop :=
  ∀ l d, h !! l = Some d → Dict.wf d.

(** What [x or {}] reads for an attribute [x]. *)
Definition contents (h : store) (r : option loc) : option (list (string * scalar)) :=
  match r with
  | Some l => h !! l
  | None => Some []
  end.

(** ** [sagemaker.utils] *)

(** Modelled from the spec: [sagemaker.utils.build_dict] is imported by
    debugger.py and its source is not at hand.  The serializers include an
    optional key "only if its source attribute is non-absent", and the merge
    helper adds [source_s3_uri] "if source given".  The interface keeps what
    these sentences fix: the helper returns the one-entry dictionary
    [{key: value}] or the empty one, the empty one for [None], and the entry
    for every value that passes Python's truth test.  What it returns for a
    value that is neither [None] nor true (an empty string, an empty
    dictionary, zero) is left open. *)
Class Utils : Type := {
  build_dict : store → string → value → list (string * value);
  build_dict_shape h key v :
    build_dict h key v = [] ∨ build_dict h key v = [(key, v)];
  build_dict_None h key : build_dict h key VNone = [];
  build_dict_truthy h key v :
    truthy h v = true → build_dict h key v = [(key, v)];
}.

(** [build_dict(key, value)], called in the current store *)
Definition call_build_dict `{!Utils} (key : string) (v : value)
  : M (list (string * value)) :=
  λ h, (Ok (build_dict h key v), h).

(** Modelled from the spec: an implementation of [build_dict] that includes
    the key exactly when the value is not [None]. *)
Definition build_dict_not_None (h : store) (key : string) (v : value)
  : list (string * value) :=
  match v with
  | VScalar SNone => []
  | _ => [(key, v)]
  end.

(** It implements the interface. *)
Definition utils_not_None : Utils.
Proof.
  refine {| build_dict := build_dict_not_None |}.
  - intros h key [[]| | |]; simpl; auto.
  - done.
  - intros h key [[]| | |]; simpl; auto. discriminate.
Defined.

(** ** debugger.py *)

(** *** [CollectionConfig] *)

Module CollectionConfig.

Record t : Type := {
  name : scalar;
  parameters : option loc;
}.

(** The argument of a comparison: another [CollectionConfig], or any other
    Python object. *)
Inductive operand : Type :=
  | Config (c : t)
  | Other (v : value).

(** [self.parameters == other.parameters] *)
Definition parameters_eqb (h : store) (p1 p2 : option loc) : result bool :=
  match p1, p2 with
  | None, None => Ok true
  | Some l1, Some l2 =>
      match h !! l1, h !! l2 with
      | Some d1, Some d2 => Ok (Dict.eqb scalar_eqb d1 d2)
      | _, _ => Raise DanglingRef
      end
  | _, _ => Ok false
  end.

Definition __eq__ (self : t) (other : operand) : M bool :=
  match other with
  | Other _ => raise TypeError
  | Config other =>
      if scalar_eqb (name self) (name other) then
        λ h, (parameters_eqb h (parameters self) (parameters other), h)
      else mret false
  end.

Definition __ne__ (self : t) (other : operand) : M bool :=
  match other with
  | Other _ => raise TypeError
  | Config other =>
      if negb (scalar_eqb (name self) (name other)) then mret true
      else
        λ h, (match parameters_eqb h (parameters self) (parameters other) with
              | Ok b => Ok (negb b)
              | Raise e => Raise e
              end, h)
  end.

(** The order [sorted] puts the items of a dictionary in.  Items are
    [(key, value)] tuples and compare on the key first; the keys of a
    dictionary are pairwise distinct, so the values are never compared. *)
Definition item_le (x y : string * scalar) : Prop := String.le x.1 y.1.

Global Instance item_le_dec : RelDecision item_le.
Proof. intros x y. unfold item_le. apply _. Defined.

(** [sorted(items)] *)
Definition sorted (d : list (string * scalar)) : list (string * scalar) :=
  merge_sort item_le d.

(** [hash((self.name, tuple(sorted((self.parameters or {}).items()))))], for
    Python's [hash] on such a tuple. *)
Definition __hash__ (hash : scalar * list (string * scalar) → Z) (self : t)
  : M Z :=
  d ← items_or_empty (parameters self);
  mret (hash (name self, sorted d)).

Definition _to_request_dict (self : t) : M (list (string * value)) :=
  let collection_config_request := [("CollectionName", VScalar (name self))] in
  mret (match parameters self with
        | Some l =>
            Dict.set "CollectionParameters" (VRef l) collection_config_request
        | None => collection_config_request
        end).

End CollectionConfig.

(** Two dictionaries are the same mapping: every key has the same value (or
    none) in both, whatever the order of the entries. *)
Definition same_mapping {A} (d1 d2 : list (string * A)) : Prop :=
  ∀ k, Dict.get k d1 = Dict.get k d2.

(** The [parameters] of two configurations are equal: both [None], or
    dictionaries that are the same mapping. *)
Definition same_parameters (h : store) (p1 p2 : option loc) : Prop :=
  match p1, p2 with
  | None, None => True
  | Some l1, Some l2 =>
      ∃ d1 d2, h !! l1 = Some d1 ∧ h !! l2 = Some d2 ∧ same_mapping d1 d2
  | _, _ => False
  end.

(** *** [RuleBase] *)

Module RuleBase.

Definition _set_rule_parameters `{!Utils}
    (source rule_to_invoke : scalar) (rule_parameters : option loc) : M loc :=
  if xorb (scalar_truthy source) (scalar_truthy rule_to_invoke) then
    raise ValueError
  else
    merged_rule_params ← new_dict [];
    d ← call_build_dict "source_s3_uri" (VScalar source);
    update_values merged_rule_params d;;
    d ← call_build_dict "rule_to_invoke" (VScalar rule_to_invoke);
    update_values merged_rule_params d;;
    d ← items_or_empty rule_parameters;
    update merged_rule_params d;;
    mret merged_rule_params.

End RuleBase.

(** The base configuration of a built-in rule, as [rule_configs] returns it: a
    dictionary with the key [DebugRuleConfiguration] and, optionally,
    [CollectionConfigurations].  A key that may be missing is an option. *)
Module BaseConfig.

Record rule_configuration : Type := {
  RuleConfigurationName : option scalar;
  RuleParameters : option loc;
}.

Record collection_configuration : Type := {
  CollectionName : option scalar;
  CollectionParameters : option loc;
}.

Record t : Type := {
  DebugRuleConfiguration : option rule_configuration;
  CollectionConfigurations : option (list collection_configuration);
}.

End BaseConfig.

(** The key of the [index]-th other trial. *)
Definition other_trial_key (index : nat) : string :=
  "other_trial_" +:+ pretty index.

(** [merged_rule_params["other_trial_{}".format(str(index))] = s3_input_path]
    for every path of the list, if there is one *)
Definition set_other_trials (merged_rule_params : loc)
    (other_trials_s3_input_paths : option (list scalar)) : M unit :=
  match other_trials_s3_input_paths with
  | None => mret ()
  | Some paths =>
      for_each (enumerate paths) (λ ix,
        setitem merged_rule_params (other_trial_key ix.1) ix.2)
  end.

(** What the loop over the other trials leaves in a dictionary [d]. *)
Definition with_other_trials (d : list (string * scalar))
    (paths : list (nat * scalar)) : list (string * scalar) :=
  foldl (λ acc ix, Dict.set (other_trial_key ix.1) ix.2 acc) d paths.

(** The [CollectionConfig] that [Rule.sagemaker] builds for an entry of the
    [CollectionConfigurations] of a base configuration. *)
Definition base_collection (config : BaseConfig.collection_configuration)
  : M CollectionConfig.t :=
  collection_parameters ← new_dict [];
  mret {| CollectionConfig.name := default SNone (BaseConfig.CollectionName config);
          CollectionConfig.parameters :=
            Some (default collection_parameters
                    (BaseConfig.CollectionParameters config)) |}.

(** The value the conflict check of [Rule.sagemaker] looks at. *)
Definition given_rule_to_invoke (user : list (string * scalar)) : scalar :=
  default SNone (Dict.get "rule_to_invoke" user).

(** *** [Rule] *)

Module Rule.

Record t : Type := {
  name : scalar;
  image_uri : scalar;
  instance_type : scalar;
  container_local_output_path : scalar;
  s3_output_path : scalar;
  volume_size_in_gb : scalar;
  rule_parameters : option loc;
  collection_configs : list CollectionConfig.t;
}.

(** [collections_to_save or default] *)
Definition collections_or (collections_to_save : option (list CollectionConfig.t))
    (default : list CollectionConfig.t) : list CollectionConfig.t :=
  match collections_to_save with
  | Some (c :: cs) => c :: cs
  | Some [] | None => default
  end.

Definition sagemaker (base_config : BaseConfig.t)
    (name container_local_output_path s3_output_path : scalar)
    (other_trials_s3_input_paths : option (list scalar))
    (rule_parameters : option loc)
    (collections_to_save : option (list CollectionConfig.t)) : M t :=
  merged_rule_params ← new_dict [];
  given ← match rule_parameters with
          | Some l => d ← items l; mret (given_rule_to_invoke d)
          | None => mret SNone
          end;
  if negb (bool_decide (given = SNone)) then raise RuntimeError
  else
    set_other_trials merged_rule_params other_trials_s3_input_paths;;
    match BaseConfig.DebugRuleConfiguration base_config with
    | None => raise KeyError
    | Some rule_configuration =>
        default_rule_params ←
          items_or_empty (BaseConfig.RuleParameters rule_configuration);
        update merged_rule_params default_rule_params;;
        d ← items_or_empty rule_parameters;
        update merged_rule_params d;;
        base_config_collections ←
          comprehension base_collection
            (default [] (BaseConfig.CollectionConfigurations base_config));
        mret {| name := scalar_or name
                  (default SNone
                     (BaseConfig.RuleConfigurationName rule_configuration));
                image_uri := SStr "DEFAULT_RULE_EVALUATOR_IMAGE";
                instance_type := SNone;
                container_local_output_path := container_local_output_path;
                s3_output_path := s3_output_path;
                volume_size_in_gb := SNone;
                rule_parameters := Some merged_rule_params;
                collection_configs :=
                  collections_or collections_to_save base_config_collections |}
    end.

Definition _set_rule_parameters `{!Utils}
    (source rule_to_invoke : scalar)
    (other_trials_s3_input_paths : option (list scalar))
    (rule_parameters : option loc) : M loc :=
  merged_rule_params ← new_dict [];
  set_other_trials merged_rule_params other_trials_s3_input_paths;;
  shared ← RuleBase._set_rule_parameters source rule_to_invoke rule_parameters;
  d ← items shared;
  update merged_rule_params d;;
  mret merged_rule_params.

Definition custom `{!Utils}
    (name image_uri instance_type volume_size_in_gb : scalar)
    (source rule_to_invoke : scalar)
    (container_local_output_path s3_output_path : scalar)
    (other_trials_s3_input_paths : option (list scalar))
    (rule_parameters : option loc)
    (collections_to_save : option (list CollectionConfig.t)) : M t :=
  merged_rule_params ←
    _set_rule_parameters source rule_to_invoke other_trials_s3_input_paths
      rule_parameters;
  mret {| name := name;
          image_uri := image_uri;
          instance_type := instance_type;
          container_local_output_path := container_local_output_path;
          s3_output_path := s3_output_path;
          volume_size_in_gb := volume_size_in_gb;
          rule_parameters := Some merged_rule_params;
          collection_configs := collections_or collections_to_save [] |}.

Definition to_debugger_rule_config_dict `{!Utils} (self : t)
  : M (list (string * value)) :=
  let debugger_rule_config_request :=
    [("RuleConfigurationName", VScalar (name self));
     ("RuleEvaluatorImage", VScalar (image_uri self))] in
  d ← call_build_dict "InstanceType" (VScalar (instance_type self));
  let debugger_rule_config_request := Dict.update debugger_rule_config_request d in
  d ← call_build_dict "VolumeSizeInGB" (VScalar (volume_size_in_gb self));
  let debugger_rule_config_request := Dict.update debugger_rule_config_request d in
  d ← call_build_dict "LocalPath" (VScalar (container_local_output_path self));
  let debugger_rule_config_request := Dict.update debugger_rule_config_request d in
  d ← call_build_dict "S3OutputPath" (VScalar (s3_output_path self));
  let debugger_rule_config_request := Dict.update debugger_rule_config_request d in
  d ← call_build_dict "RuleParameters" (ref_value (rule_parameters self));
  let debugger_rule_config_request := Dict.update debugger_rule_config_request d in
  mret debugger_rule_config_request.

End Rule.

(** Every value replaced by its string rendering, keys and order kept. *)
Definition stringified (d : list (string * scalar)) : list (string * scalar) :=
  (λ kv, (kv.1, SStr (py_str kv.2))) <$> d.

(** *** [ProfilerRule] *)

Module ProfilerRule.

Record t : Type := {
  name : scalar;
  image_uri : scalar;
  instance_type : scalar;
  container_local_output_path : scalar;
  s3_output_path : scalar;
  volume_size_in_gb : scalar;
  rule_parameters : option loc;
}.

(** The built-in profiler rule object a [base_config] is. *)
Record base : Type := {
  rule_name : scalar;
  base_rule_parameters : option loc;
}.

Definition sagemaker (base_config : base)
    (name container_local_output_path s3_output_path : scalar) : M t :=
  mret {| name := scalar_or name (rule_name base_config);
          image_uri := SStr "DEFAULT_RULE_EVALUATOR_IMAGE";
          instance_type := SNone;
          container_local_output_path := container_local_output_path;
          s3_output_path := s3_output_path;
          volume_size_in_gb := SNone;
          rule_parameters := base_rule_parameters base_config |}.

Definition custom `{!Utils}
    (name image_uri instance_type volume_size_in_gb : scalar)
    (source rule_to_invoke : scalar)
    (container_local_output_path s3_output_path : scalar)
    (rule_parameters : option loc) : M t :=
  merged_rule_params ←
    RuleBase._set_rule_parameters source rule_to_invoke rule_parameters;
  mret {| name := name;
          image_uri := image_uri;
          instance_type := instance_type;
          container_local_output_path := container_local_output_path;
          s3_output_path := s3_output_path;
          volume_size_in_gb := volume_size_in_gb;
          rule_parameters := Some merged_rule_params |}.

(** [for k, v in d.items(): d[k] = str(v)] on the dictionary at [l]: the loop
    walks the keys, which it does not change, and reads each value as it is
    when the key is reached. *)
Definition stringify_values (l : loc) : M unit :=
  d ← items l;
  for_each (Dict.keys d) (λ k,
    v ← getitem l k;
    setitem l k (SStr (py_str v))).

Definition to_profiler_rule_config_dict `{!Utils} (self : t)
  : M (list (string * value)) :=
  let profiler_rule_config_request :=
    [("RuleConfigurationName", VScalar (name self));
     ("RuleEvaluatorImage", VScalar (image_uri self))] in
  d ← call_build_dict "InstanceType" (VScalar (instance_type self));
  let profiler_rule_config_request := Dict.update profiler_rule_config_request d in
  d ← call_build_dict "VolumeSizeInGB" (VScalar (volume_size_in_gb self));
  let profiler_rule_config_request := Dict.update profiler_rule_config_request d in
  d ← call_build_dict "LocalPath" (VScalar (container_local_output_path self));
  let profiler_rule_config_request := Dict.update profiler_rule_config_request d in
  d ← call_build_dict "S3OutputPath" (VScalar (s3_output_path self));
  let profiler_rule_config_request := Dict.update profiler_rule_config_request d in
  h ← get_store;
  match rule_parameters self with
  | Some l =>
      if truthy h (VRef l) then
        (* the request and the rule now share the dictionary at [l] *)
        let profiler_rule_config_request :=
          Dict.set "RuleParameters" (VRef l) profiler_rule_config_request in
        stringify_values l;;
        mret profiler_rule_config_request
      else mret profiler_rule_config_request
  | None => mret profiler_rule_config_request
  end.

End ProfilerRule.

(** *** [DebuggerHookConfig] *)

Module DebuggerHookConfig.

Record t : Type := {
  s3_output_path : scalar;
  container_local_output_path : scalar;
  hook_parameters : option loc;
  collection_configs : option (list CollectionConfig.t);
}.

Definition _to_request_dict (self : t) : M (list (string * value)) :=
  let debugger_hook_config_request :=
    [("S3OutputPath", VScalar (s3_output_path self))] in
  let debugger_hook_config_request :=
    if bool_decide (container_local_output_path self = SNone)
    then debugger_hook_config_request
    else Dict.set "LocalPath" (VScalar (container_local_output_path self))
           debugger_hook_config_request in
  let debugger_hook_config_request :=
    match hook_parameters self with
    | Some l => Dict.set "HookParameters" (VRef l) debugger_hook_config_request
    | None => debugger_hook_config_request
    end in
  match collection_configs self with
  | Some configs =>
      requests ← comprehension CollectionConfig._to_request_dict configs;
      mret (Dict.set "CollectionConfigurations" (VList (VDict <$> requests))
              debugger_hook_config_request)
  | None => mret debugger_hook_config_request
  end.

End DebuggerHookConfig.

(** *** [TensorBoardOutputConfig] *)

Module TensorBoardOutputConfig.

Record t : Type := {
  s3_output_path : scalar;
  container_local_output_path : scalar;
}.

Definition _to_request_dict (self : t) : M (list (string * value)) :=
  let tensorboard_output_config_request :=
    [("S3OutputPath", VScalar (s3_output_path self))] in
  mret (if bool_decide (container_local_output_path self = SNone)
        then tensorboard_output_config_request
        else Dict.set "LocalPath" (VScalar (container_local_output_path self))
               tensorboard_output_config_request).

End TensorBoardOutputConfig.

(** ** jumpstart/types.py *)

Global Instance result_ret : MRet result := λ A a, Ok a.

Global Instance result_bind : MBind result := λ A B f r,
  match r with
  | Ok a => f a
  | Raise e => Raise e
  end.

(** The order in which Python walks a set of strings.  It follows the hashes
    of the strings, which change from one process to the next: within a
    process a set written with the names [names] is walked in one order,
    which has each member once, and nothing more is known of it. *)
Class SetOrder : Type := {
  set_order : list string → list string;
  set_order_NoDup names : NoDup (set_order names);
  set_order_elem_of names x : x ∈ set_order names ↔ x ∈ names;
}.

(** Two orders: the one the set is written in, and the reverse of it. *)
Definition set_order_written : SetOrder.
Proof.
  refine {| set_order := remove_dups |}.
  - apply NoDup_remove_dups.
  - intros names x. apply elem_of_remove_dups.
Defined.

Definition set_order_reversed : SetOrder.
Proof.
  refine {| set_order names := reverse (remove_dups names) |}.
  - intros names. rewrite (reverse_Permutation (remove_dups names)).
    apply NoDup_remove_dups.
  - intros names x. rewrite elem_of_reverse. apply elem_of_remove_dups.
Defined.

Module JumpStart.

(** A [__slots__] declaration is a list or, for [JumpStartECRSpecs], a set. *)
Inductive slots : Type :=
  | SlotList (names : list string)
  | SlotSet (names : list string).

Global Instance slots_eq_dec : EqDecision slots.
Proof. solve_decision. Defined.

(** The classes of the module that derive from [JumpStartDataHolderType],
    and that class itself; [CJumpStartModelHeader] names the class
    [JumpStartModelHeader].  The classes are open to subclassing:
    [CSubclass name base own_slots] is a class [name] derived from [base]
    elsewhere, which declares the [__slots__] [own_slots] or none, and keeps
    the methods it inherits. *)
Inductive class : Type :=
  | CJumpStartDataHolderType
  | CJumpStartLaunchedRegionInfo
  | CJumpStartModelHeader
  | CJumpStartECRSpecs
  | CJumpStartModelSpecs
  | CJumpStartVersionedModelId
  | CJumpStartCachedS3ContentKey
  | CJumpStartCachedS3ContentValue
  | CSubclass (name : string) (base : class) (own_slots : option slots).

Global Instance class_eq_dec : EqDecision class.
Proof. solve_decision. Defined.

(** [issubclass(c, base)]: a class is a subclass of itself and of every
    class its base is a subclass of; every class of the module has
    [JumpStartDataHolderType] as its only base. *)
Fixpoint issubclass (c base : class) : bool :=
  bool_decide (c = base) ||
  match c with
  | CSubclass _ c_base _ => issubclass c_base base
  | CJumpStartDataHolderType => false
  | _ => bool_decide (base = CJumpStartDataHolderType)
  end.

(** The length of the chain of bases of a class. *)
Fixpoint depth (c : class) : nat :=
  match c with
  | CJumpStartDataHolderType => 0
  | CSubclass _ base _ => S (depth base)
  | _ => 1
  end.

(** The classes that types.py itself defines. *)
Definition in_module (c : class) : bool :=
  match c with
  | CSubclass _ _ _ => false
  | _ => true
  end.

(** [c.__slots__]: the declaration of the class, or the one it inherits. *)
Fixpoint __slots__ (c : class) : slots :=
  match c with
  | CJumpStartDataHolderType => SlotList []
  | CJumpStartLaunchedRegionInfo => SlotList ["content_bucket"; "region_name"]
  | CJumpStartModelHeader =>
      SlotList ["model_id"; "version"; "min_version"; "spec_key"]
  | CJumpStartECRSpecs => SlotSet ["framework"; "framework_version"; "py_version"]
  | CJumpStartModelSpecs =>
      SlotList ["model_id"; "version"; "min_sdk_version";
                "incremental_training_supported"; "hosting_ecr_specs";
                "hosting_artifact_key"; "hosting_script_key";
                "training_supported"; "training_ecr_specs";
                "training_artifact_key"; "training_script_key";
                "hyperparameters"]
  | CJumpStartVersionedModelId => SlotList ["model_id"; "version"]
  | CJumpStartCachedS3ContentKey => SlotList ["file_type"; "s3_key"]
  | CJumpStartCachedS3ContentValue => SlotList ["formatted_content"; "md5_hash"]
  | CSubclass _ _ (Some own_slots) => own_slots
  | CSubclass _ base None => __slots__ base
  end.

(** The names of a declaration, as they are written. *)
Definition written (s : slots) : list string :=
  match s with SlotList names | SlotSet names => names end.

(** [for attribute in slots]: a list is walked in its order, a set in the
    order of the process. *)
Definition slot_names `{!SetOrder} (s : slots) : list string :=
  match s with
  | SlotList names => names
  | SlotSet names => set_order names
  end.

(** [s1 != s2]: a list and a set are never equal, two sets are equal when
    they have the same members. *)
Definition slots_neb (s1 s2 : slots) : bool :=
  match s1, s2 with
  | SlotList l1, SlotList l2 => negb (bool_decide (l1 = l2))
  | SlotSet l1, SlotSet l2 =>
      negb (bool_decide (l1 ⊆ l2) && bool_decide (l2 ⊆ l1))
  | _, _ => true
  end.

(** Python values of this module: JSON data, and instances of the classes
    above with the attributes that are set on them. *)
#[warnings="-register-all"]
Inductive jvalue : Type :=
  | JNone
  | JBool (b : bool)
  | JInt (n : Z)
  | JStr (s : string)
  | JList (vs : list jvalue)
  | JDict (d : list (string * jvalue))
  | JObj (c : class) (attrs : list (string * jvalue)).

Record instance : Type := Instance_ {
  cls : class;
  attrs : list (string * jvalue);
}.

Definition obj (x : instance) : jvalue := JObj (cls x) (attrs x).

(** [bool(v)] *)
Definition truthy (v : jvalue) : bool :=
  match v with
  | JNone => false
  | JBool b => b
  | JInt n => negb (n =? 0)%Z
  | JStr s => negb (String.eqb s "")
  | JList vs => match vs with [] => false | _ => true end
  | JDict d => match d with [] => false | _ => true end
  | JObj _ _ => true
  end.

(** [isinstance(v, c)] *)
Definition isinstance (v : jvalue) (c : class) : bool :=
  match v with
  | JObj c' _ => issubclass c' c
  | _ => false
  end.

(** [getattr(x, attribute)] *)
Definition getattr (attrs : list (string * jvalue)) (attribute : string)
  : result jvalue :=
  match Dict.get attribute attrs with
  | Some v => Ok v
  | None => Raise AttributeError
  end.

(** [json_obj[key]] *)
Definition subscript (json_obj : jvalue) (key : string) : result jvalue :=
  match json_obj with
  | JDict d =>
      match Dict.get key d with
      | Some v => Ok v
      | None => Raise KeyError
      end
  | _ => Raise TypeError
  end.

(** [json_obj.get(key)] *)
Definition dict_get (json_obj : jvalue) (key : string) : result jvalue :=
  match json_obj with
  | JDict d => Ok (default JNone (Dict.get key d))
  | _ => Raise AttributeError
  end.

(** The loop of [__eq__] over the attribute names. *)
Definition eq_loop (ne : jvalue → jvalue → result bool)
    (self_attrs other_attrs : list (string * jvalue))
  : list string → result bool :=
  fix loop names :=
    match names with
    | [] => Ok true
    | attribute :: names' =>
        x ← getattr self_attrs attribute;
        y ← getattr other_attrs attribute;
        differ ← ne x y;
        if differ : bool then Ok false else loop names'
    end.

(** [JumpStartDataHolderType.__eq__], for [ne] the [!=] of attribute values.
    Every class derived from [JumpStartDataHolderType] has [__slots__], its
    own or the ones it inherits, so the second test of the source, that
    [other] has none, never fires and is left out. *)
Definition __eq__ `{!SetOrder} (ne : jvalue → jvalue → result bool)
    (self : instance) (other : jvalue) : result bool :=
  match other with
  | JObj other_cls other_attrs =>
      if negb (issubclass other_cls (cls self)) then Ok false
      else if slots_neb (__slots__ (cls self)) (__slots__ other_cls) then Ok false
      else
        eq_loop ne (attrs self) other_attrs (slot_names (__slots__ (cls self)))
  | _ => Ok false
  end.

(** [a == b].  Scalars compare as in Python, lists item by item, dictionaries
    entry by entry whatever the order.  Two instances compare by [__eq__];
    Python asks the [__eq__] of [b] first when the class of [b] is a subclass
    of the class of [a] and not that class, and the [__eq__] of [a]
    otherwise, and takes the answer as it is, since [__eq__] never returns
    [NotImplemented].  The [__eq__] of [b] then stops at its first test: [a]
    is no instance of a proper subclass of its class.  [__eq__] is written
    out here a second time in the shape structural recursion asks for
    ([py_eq_obj] below relates the two). *)
Fixpoint py_eq `{!SetOrder} (a b : jvalue) {struct a} : result bool :=
  match a with
  | JNone => Ok (match b with JNone => true | _ => false end)
  | JBool x =>
      Ok (match b with
          | JBool y => Bool.eqb x y
          | JInt n => (Z.b2z x =? n)%Z
          | _ => false
          end)
  | JInt m =>
      Ok (match b with
          | JBool y => (m =? Z.b2z y)%Z
          | JInt n => (m =? n)%Z
          | _ => false
          end)
  | JStr s => Ok (match b with JStr t => String.eqb s t | _ => false end)
  | JList xs =>
      match b with
      | JList ys =>
          if negb (length xs =? length ys)%nat then Ok false
          else
            (fix go (xs ys : list jvalue) : result bool :=
               match xs, ys with
               | x :: xs', y :: ys' =>
                   same ← py_eq x y;
                   if same : bool then go xs' ys' else Ok false
               | _, _ => Ok true
               end) xs ys
      | _ => Ok false
      end
  | JDict d1 =>
      match b with
      | JDict d2 =>
          if negb (length d1 =? length d2)%nat then Ok false
          else
            (fix go (d : list (string * jvalue)) : result bool :=
               match d with
               | [] => Ok true
               | (k, v) :: d' =>
                   match Dict.get k d2 with
                   | None => Ok false
                   | Some v2 =>
                       same ← py_eq v v2;
                       if same : bool then go d' else Ok false
                   end
               end) d1
      | _ => Ok false
      end
  | JObj c attrs =>
      match b with
      | JObj other_cls other_attrs =>
          if negb (bool_decide (other_cls = c)) && issubclass other_cls c then
            Ok false
          else if negb (issubclass other_cls c) then Ok false
          else if slots_neb (__slots__ c) (__slots__ other_cls) then Ok false
          else
            (fix loop (names : list string) : result bool :=
               match names with
               | [] => Ok true
               | attribute :: names' =>
                   differ ←
                     (fix find (d : list (string * jvalue)) : result bool :=
                        match d with
                        | [] => Raise AttributeError
                        | (k, x) :: d' =>
                            if decide (attribute = k) then
                              y ← getattr other_attrs attribute;
                              same ← py_eq x y;
                              Ok (negb same)
                            else find d'
                        end) attrs;
                   if differ : bool then Ok false else loop names'
               end) (slot_names (__slots__ c))
      | _ => Ok false
      end
  end.

(** [a != b]: no class here defines [__ne__], so it is the opposite of what
    [a == b] gives. *)
Definition py_ne `{!SetOrder} (a b : jvalue) : result bool :=
  same ← py_eq a b; Ok (negb same).

(** [a == b] for two instances, as Python finds it from the [__eq__] of
    their classes: the [__eq__] of [b] when the class of [b] is a subclass of
    the class of [a] and not that class, the [__eq__] of [a] otherwise. *)
Definition obj_eq (eq : instance → jvalue → result bool) (a b : instance)
  : result bool :=
  if negb (bool_decide (cls b = cls a)) && issubclass (cls b) (cls a)
  then eq b (obj a)
  else eq a (obj b).

(** The loops of [==] on lists and dictionaries. *)
Definition list_eq_loop `{!SetOrder}
  : list jvalue → list jvalue → result bool :=
  fix go xs ys :=
    match xs, ys with
    | x :: xs', y :: ys' =>
        same ← py_eq x y;
        if same : bool then go xs' ys' else Ok false
    | _, _ => Ok true
    end.

Definition dict_eq_loop `{!SetOrder} (d2 : list (string * jvalue))
  : list (string * jvalue) → result bool :=
  fix go d :=
    match d with
    | [] => Ok true
    | (k, v) :: d' =>
        match Dict.get k d2 with
        | None => Ok false
        | Some v2 =>
            same ← py_eq v v2;
            if same : bool then go d' else Ok false
        end
    end.

(** [self.attribute = v] *)
Definition setattr (self : instance) (attribute : string) (v : jvalue)
  : instance :=
  {| cls := cls self; attrs := Dict.set attribute v (attrs self) |}.

(** An instance before [__init__] has run: no attribute is set. *)
Definition new (c : class) : instance := {| cls := c; attrs := [] |}.

(** [{att: f(att) for att in names}] *)
Fixpoint dict_comprehension (f : string → result jvalue) (names : list string)
    (acc : list (string * jvalue)) : result (list (string * jvalue)) :=
  match names with
  | [] => Ok acc
  | att :: names' => v ← f att; dict_comprehension f names' (Dict.set att v acc)
  end.

Module JumpStartLaunchedRegionInfo.

Definition __init__ (content_bucket region_name : jvalue) : instance :=
  let self := new CJumpStartLaunchedRegionInfo in
  let self := setattr self "content_bucket" content_bucket in
  let self := setattr self "region_name" region_name in
  self.

End JumpStartLaunchedRegionInfo.

Module JumpStartModelHeader.

Definition from_json (self : instance) (json_obj : jvalue) : result instance :=
  v ← subscript json_obj "model_id";
  let self := setattr self "model_id" v in
  v ← subscript json_obj "version";
  let self := setattr self "version" v in
  v ← subscript json_obj "min_version";
  let self := setattr self "min_version" v in
  v ← subscript json_obj "spec_key";
  let self := setattr self "spec_key" v in
  Ok self.

Definition __init__ (header : jvalue) : result instance :=
  from_json (new CJumpStartModelHeader) header.

Definition to_json `{!SetOrder} (self : instance)
  : result (list (string * jvalue)) :=
  dict_comprehension (getattr (attrs self))
    (slot_names (__slots__ (cls self))) [].

End JumpStartModelHeader.

Module JumpStartECRSpecs.

Definition from_json (self : instance) (json_obj : jvalue) : result instance :=
  v ← subscript json_obj "framework";
  let self := setattr self "framework" v in
  v ← subscript json_obj "framework_version";
  let self := setattr self "framework_version" v in
  v ← subscript json_obj "py_version";
  let self := setattr self "py_version" v in
  Ok self.

Definition __init__ (spec : jvalue) : result instance :=
  from_json (new CJumpStartECRSpecs) spec.

Definition to_json `{!SetOrder} (self : instance)
  : result (list (string * jvalue)) :=
  dict_comprehension (getattr (attrs self))
    (slot_names (__slots__ (cls self))) [].

End JumpStartECRSpecs.

Module JumpStartModelSpecs.

Definition from_json (self : instance) (json_obj : jvalue) : result instance :=
  v ← subscript json_obj "model_id";
  let self := setattr self "model_id" v in
  v ← subscript json_obj "version";
  let self := setattr self "version" v in
  v ← subscript json_obj "min_sdk_version";
  let self := setattr self "min_sdk_version" v in
  v ← subscript json_obj "incremental_training_supported";
  let self := setattr self "incremental_training_supported" (JBool (truthy v)) in
  v ← subscript json_obj "hosting_ecr_specs";
  specs ← JumpStartECRSpecs.__init__ v;
  let self := setattr self "hosting_ecr_specs" (obj specs) in
  v ← subscript json_obj "hosting_artifact_key";
  let self := setattr self "hosting_artifact_key" v in
  v ← subscript json_obj "hosting_script_key";
  let self := setattr self "hosting_script_key" v in
  v ← subscript json_obj "training_supported";
  let training_supported := truthy v in
  let self := setattr self "training_supported" (JBool training_supported) in
  if training_supported then
    v ← subscript json_obj "training_ecr_specs";
    specs ← JumpStartECRSpecs.__init__ v;
    let self := setattr self "training_ecr_specs" (obj specs) in
    v ← subscript json_obj "training_artifact_key";
    let self := setattr self "training_artifact_key" v in
    v ← subscript json_obj "training_script_key";
    let self := setattr self "training_script_key" v in
    v ← dict_get json_obj "hyperparameters";
    let self := setattr self "hyperparameters" v in
    Ok self
  else
    let self := setattr self "training_ecr_specs" JNone in
    let self := setattr self "training_artifact_key" JNone in
    let self := setattr self "training_script_key" JNone in
    let self := setattr self "hyperparameters" JNone in
    Ok self.

Definition __init__ (spec : jvalue) : result instance :=
  from_json (new CJumpStartModelSpecs) spec.

(** What [to_json] stores for an attribute that holds [cur_val]. *)
Definition to_json_value `{!SetOrder} (cur_val : jvalue) : result jvalue :=
  match cur_val with
  | JObj c cur_attrs =>
      if isinstance cur_val CJumpStartECRSpecs then
        d ← JumpStartECRSpecs.to_json {| cls := c; attrs := cur_attrs |};
        Ok (JDict d)
      else Ok cur_val
  | _ => Ok cur_val
  end.

Definition to_json `{!SetOrder} (self : instance)
  : result (list (string * jvalue)) :=
  dict_comprehension
    (λ att, cur_val ← getattr (attrs self) att; to_json_value cur_val)
    (slot_names (__slots__ (cls self))) [].

End JumpStartModelSpecs.

Module JumpStartVersionedModelId.

Definition __init__ (model_id version : jvalue) : instance :=
  let self := new CJumpStartVersionedModelId in
  let self := setattr self "model_id" model_id in
  let self := setattr self "version" version in
  self.

End JumpStartVersionedModelId.

Module JumpStartCachedS3ContentKey.

Definition __init__ (file_type s3_key : jvalue) : instance :=
  let self := new CJumpStartCachedS3ContentKey in
  let self := setattr self "file_type" file_type in
  let self := setattr self "s3_key" s3_key in
  self.

End JumpStartCachedS3ContentKey.

Module JumpStartCachedS3ContentValue.

Definition __init__ (formatted_content md5_hash : jvalue) : instance :=
  let self := new CJumpStartCachedS3ContentValue in
  let self := setattr self "formatted_content" formatted_content in
  let self := setattr self "md5_hash" md5_hash in
  self.

End JumpStartCachedS3ContentValue.

(** JSON data as [json.loads] gives it: no instance of a class inside, and
    the keys of every dictionary pairwise distinct. *)
Fixpoint is_json (v : jvalue) : bool :=
  match v with
  | JList vs => forallb is_json vs
  | JDict d =>
      bool_decide (NoDup d.*1) && forallb (λ kv, is_json kv.2) d
  | JObj _ _ => false
  | _ => true
  end.

(** A value as Python builds it: the keys of every dictionary are pairwise
    distinct and every instance has all the attributes of its class set. *)
Fixpoint complete (v : jvalue) : bool :=
  match v with
  | JList vs => forallb complete vs
  | JDict d => bool_decide (NoDup d.*1) && forallb (λ kv, complete kv.2) d
  | JObj c attrs =>
      bool_decide (written (__slots__ c) ⊆ attrs.*1) &&
      forallb (λ kv, complete kv.2) attrs
  | _ => true
  end.

Section hash.
Context `{!SetOrder}.

(** Python's [hash]: what it gives for [None], a number or a string, for a
    class, and how the hash of a tuple is computed from the hashes of its
    items. *)
Variable hash_scalar : jvalue → Z.
Variable hash_type : class → Z.
Variable hash_tuple : list Z → Z.

(** [JumpStartDataHolderType.__hash__], for [hash] the hash of attribute
    values: the attributes are read first, then the tuple of the class and
    the values is hashed, item by item. *)
Definition __hash__ (hash : jvalue → result Z) (self : instance) : result Z :=
  values ← mapM (getattr (attrs self)) (slot_names (__slots__ (cls self)));
  hashes ← mapM hash values;
  Ok (hash_tuple (hash_type (cls self) :: hashes)).

(** [hash(v)].  A list or a dictionary has no hash; an instance of a class
    above answers with the [__hash__] of the class, which is written out here
    a second time in the shape structural recursion asks for ([py_hash_obj]
    below relates the two). *)
Fixpoint py_hash (v : jvalue) : result Z :=
  match v with
  | JNone | JBool _ | JInt _ | JStr _ => Ok (hash_scalar v)
  | JList _ | JDict _ => Raise TypeError
  | JObj c attrs =>
      _ ← mapM (getattr attrs) (slot_names (__slots__ c));
      hashes ←
        (fix loop (names : list string) : result (list Z) :=
           match names with
           | [] => Ok []
           | attribute :: names' =>
               h ← (fix find (d : list (string * jvalue)) : result Z :=
                      match d with
                      | [] => Raise AttributeError
                      | (k, x) :: d' =>
                          if decide (attribute = k) then py_hash x else find d'
                      end) attrs;
               hs ← loop names';
               Ok (h :: hs)
           end) (slot_names (__slots__ c));
      Ok (hash_tuple (hash_type c :: hashes))
  end.

End hash.

End JumpStart.

(** How a [CollectionConfig] of the rule answers an entry of the base
    configuration, between the stores [h] before and [h'] after the call: the
    name of the entry or [None], the parameters of the entry or a new empty
    dictionary. *)
Definition collection_from (h h' : store)
    (config : BaseConfig.collection_configuration) (c : CollectionConfig.t) : Prop :=
  CollectionConfig.name c = default SNone (BaseConfig.CollectionName config) ∧
  match BaseConfig.CollectionParameters config with
  | Some l => CollectionConfig.parameters c = Some l
  | None =>
      ∃ l, CollectionConfig.parameters c = Some l ∧
           h !! l = None ∧ h' !! l = Some []
  end.

(** What a request says about an optional attribute with the value [v] under
    [key]: no key for [None], the value for a true [v], and never another
    value. *)
Definition optional_entry (h : store) (request : list (string * value))
    (key : string) (v : value) : Prop :=
  (v = VNone → Dict.get key request = None) ∧
  (truthy h v = true → Dict.get key request = Some v) ∧
  (∀ v', Dict.get key request = Some v' → v' = v).

(** * Properties *)

(** ** Dictionaries *)

Section dict_facts.
Context {A : Type}.
Implicit Types (d other : list (string * A)) (k : string) (v : A).

Lemma get_set k k' v d :
  Dict.get k' (Dict.set k v d) = if decide (k' = k) then Some v else Dict.get k' d.
Proof.
  induction d as [|[k0 v0] d IH]; simpl.
  - repeat case_decide; congruence.
  - destruct (decide (k = k0)) as [->|Hne]; simpl.
    + repeat case_decide; congruence.
    + rewrite IH. repeat case_decide; congruence.
Qed.

Lemma get_set_eq k v d : Dict.get k (Dict.set k v d) = Some v.
Proof. rewrite get_set. by case_decide. Qed.

Lemma get_set_ne k k' v d :
  k' ≠ k → Dict.get k' (Dict.set k v d) = Dict.get k' d.
Proof. intros. rewrite get_set. by case_decide. Qed.

Lemma keys_set k v d :
  Dict.keys (Dict.set k v d) =
    if decide (k ∈ Dict.keys d) then Dict.keys d else Dict.keys d ++ [k].
Proof.
  unfold Dict.keys. induction d as [|[k0 v0] d IH]; csimpl.
  - destruct (decide (k ∈ [])) as [H|_]; [by apply not_elem_of_nil in H | done].
  - destruct (decide (k = k0)) as [->|Hne]; csimpl.
    + rewrite decide_True by left. done.
    + rewrite IH. destruct (decide (k ∈ d.*1)) as [Hin|Hout].
      * rewrite decide_True by (by right). done.
      * rewrite decide_False; [done|]. rewrite elem_of_cons. tauto.
Qed.

Lemma length_set_present k v d :
  k ∈ Dict.keys d → length (Dict.set k v d) = length d.
Proof.
  intros Hk. rewrite <-!(length_fmap fst). fold (Dict.keys (Dict.set k v d)).
  rewrite keys_set. by rewrite decide_True.
Qed.

Lemma wf_set k v d : Dict.wf d → Dict.wf (Dict.set k v d).
Proof.
  unfold Dict.wf. rewrite keys_set. case_decide as H; [done|].
  intros Hd. apply NoDup_app. split_and!; [done| |apply NoDup_singleton].
  intros x Hx Hx'. apply list_elem_of_singleton in Hx'. by subst.
Qed.

Lemma wf_update d other : Dict.wf d → Dict.wf (Dict.update d other).
Proof.
  unfold Dict.update. revert d.
  induction other as [|[k v] o IH]; intros d Hd; simpl; [done|].
  apply IH, wf_set, Hd.
Qed.

Lemma get_None k d : Dict.get k d = None ↔ k ∉ Dict.keys d.
Proof.
  unfold Dict.keys. induction d as [|[k0 v0] d IH]; csimpl.
  - split; [intros _; apply not_elem_of_nil | done].
  - rewrite not_elem_of_cons. case_decide as Hk.
    + split; [done | by intros []].
    + rewrite IH. tauto.
Qed.

Lemma get_is_Some k d : is_Some (Dict.get k d) ↔ k ∈ Dict.keys d.
Proof.
  rewrite <-not_eq_None_Some, get_None.
  destruct (decide (k ∈ Dict.keys d)); tauto.
Qed.

Lemma get_Some_elem_of k v d : Dict.get k d = Some v → (k, v) ∈ d.
Proof.
  induction d as [|[k0 v0] d IH]; simpl; [done|].
  case_decide; intros; simplify_eq; [left | right; auto].
Qed.

Lemma elem_of_get k v d : Dict.wf d → (k, v) ∈ d → Dict.get k d = Some v.
Proof.
  unfold Dict.wf, Dict.keys. induction d as [|[k0 v0] d IH]; csimpl.
  - intros _ H. by apply not_elem_of_nil in H.
  - intros [Hk0 Hd]%NoDup_cons [Heq|Hin]%elem_of_cons.
    + simplify_eq. by rewrite decide_True.
    + rewrite decide_False; [by apply IH|].
      intros ->. apply Hk0. by apply (list_elem_of_fmap_2 fst _ (k0, v)).
Qed.

(** Later entries of [other] win; on a well-formed [other] that is the entry
    [Dict.get] finds. *)
Lemma get_update k d other :
  Dict.wf other →
  Dict.get k (Dict.update d other) =
    match Dict.get k other with Some v => Some v | None => Dict.get k d end.
Proof.
  unfold Dict.update, Dict.wf, Dict.keys. revert d.
  induction other as [|[k0 v0] o IH]; intros d Hwf; csimpl; [done|].
  apply NoDup_cons in Hwf as [Hk0 Ho]. simpl in Hk0.
  rewrite IH by done. case_decide as Hk.
  - subst k0. apply get_None in Hk0. rewrite Hk0. apply get_set_eq.
  - destruct (Dict.get k o); [done|]. by apply get_set_ne.
Qed.

End dict_facts.

(** ** The store *)

Lemma fresh_None (h : store) : h !! fresh (dom h) = None.
Proof. apply not_elem_of_dom, is_fresh. Qed.

Lemma fresh_ne (h : store) l d : h !! l = Some d → l ≠ fresh (dom h).
Proof. intros Hl ->. by rewrite fresh_None in Hl. Qed.

Lemma items_or_empty_run h r d :
  contents h r = Some d → items_or_empty r h = (Ok d, h).
Proof.
  destruct r as [l|]; simpl; [|by intros [= <-]].
  unfold items. by intros ->.
Qed.

Lemma contents_insert_fresh h r d d' :
  contents h r = Some d → contents (<[fresh (dom h) := d']> h) r = Some d.
Proof.
  destruct r as [l|]; simpl; [|done].
  intros Hl. rewrite lookup_insert_ne; [done|].
  intros Heq. by rewrite <-Heq, fresh_None in Hl.
Qed.

Lemma contents_wf h r d : store_wf h → contents h r = Some d → Dict.wf d.
Proof.
  intros Hwf. destruct r as [l|]; simpl; [apply Hwf|].
  intros [= <-]. apply NoDup_nil_2.
Qed.

Lemma update_run h l d other :
  h !! l = Some d → update l other h = (Ok (), <[l := Dict.update d other]> h).
Proof. unfold update. by intros ->. Qed.

Lemma setitem_run h l d k v :
  h !! l = Some d → setitem l k v h = (Ok (), <[l := Dict.set k v d]> h).
Proof. unfold setitem. by intros ->. Qed.

(** ** [sagemaker.utils.build_dict] on a scalar *)

Lemma build_dict_scalar `{!Utils} h key s :
  ∃ d, scalars (build_dict h key (VScalar s)) = Some d ∧
       (d = [] ∨ d = [(key, s)]) ∧
       (s = SNone → d = []) ∧
       (scalar_truthy s = true → d = [(key, s)]).
Proof.
  destruct (decide (s = SNone)) as [->|Hs].
  { exists []. fold VNone. rewrite build_dict_None.
    split_and!; auto. discriminate. }
  destruct (build_dict_shape h key (VScalar s)) as [E|E]; rewrite E.
  - exists []. split_and!; auto.
    intros Ht. rewrite build_dict_truthy in E by done. done.
  - exists [(key, s)]. split_and!; auto. done.
Qed.

(** ** C1: [RuleBase._set_rule_parameters] *)

(** The merged dictionary of a call that passes the check, as a function of
    what [build_dict] returned. *)
Lemma set_rule_parameters_run `{!Utils} source rule_to_invoke rule_parameters h d :
  xorb (scalar_truthy source) (scalar_truthy rule_to_invoke) = false →
  contents h rule_parameters = Some d →
  ∃ d1 d2,
    RuleBase._set_rule_parameters source rule_to_invoke rule_parameters h =
      (Ok (fresh (dom h)),
       <[fresh (dom h) := Dict.update (Dict.update (Dict.update [] d1) d2) d]> h) ∧
    (d1 = [] ∨ d1 = [("source_s3_uri", source)]) ∧
    (source = SNone → d1 = []) ∧
    (scalar_truthy source = true → d1 = [("source_s3_uri", source)]) ∧
    (d2 = [] ∨ d2 = [("rule_to_invoke", rule_to_invoke)]) ∧
    (rule_to_invoke = SNone → d2 = []) ∧
    (scalar_truthy rule_to_invoke = true → d2 = [("rule_to_invoke", rule_to_invoke)]).
Proof.
  intros Hx Hd. unfold RuleBase._set_rule_parameters. rewrite Hx.
  set (l := fresh (dom h)).
  set (h1 := <[l := []]> h).
  destruct (build_dict_scalar h1 "source_s3_uri" source) as (d1 & E1 & S1 & N1 & T1).
  set (h2 := <[l := Dict.update [] d1]> h1).
  destruct (build_dict_scalar h2 "rule_to_invoke" rule_to_invoke)
    as (d2 & E2 & S2 & N2 & T2).
  exists d1, d2. split; [|by auto].
  unfold mbind, M_bind, new_dict, call_build_dict, update_values. fold l h1.
  rewrite E1. rewrite (update_run h1 l []) by apply lookup_insert_eq. fold h2.
  rewrite E2. rewrite (update_run h2 l (Dict.update [] d1)) by apply lookup_insert_eq.
  set (h3 := <[l := _]> h2).
  assert (contents h3 rule_parameters = Some d) as Hd3.
  { destruct rule_parameters as [l'|]; simpl in *; [|done].
    assert (l' ≠ l) by (by apply (fresh_ne h l' d)).
    unfold h3, h2, h1. by rewrite !lookup_insert_ne. }
  rewrite (items_or_empty_run h3 _ d) by done.
  rewrite (update_run h3 l (Dict.update (Dict.update [] d1) d2))
    by apply lookup_insert_eq.
  unfold mret, M_ret, h3, h2, h1. by rewrite !insert_insert_eq.
Qed.

(** C1 as stated fails: with an empty string for [source] and a rule to
    invoke, both arguments are present and the call raises [ValueError]. *)
Lemma set_rule_parameters_both_present_fails :
  SStr "" ≠ SNone ∧ SStr "MyRule" ≠ SNone ∧
  (@RuleBase._set_rule_parameters utils_not_None
     (SStr "") (SStr "MyRule") None ∅).1 = Raise ValueError.
Proof. split_and!; [discriminate..|reflexivity]. Qed.

(** C1 (amended): [RuleBase._set_rule_parameters] raises [ValueError] exactly
    when one of [source] and [rule_to_invoke] passes Python's truth test and
    the other does not (an absent or an empty value does not pass).
    Otherwise it returns a dictionary that was not in the store before and
    leaves every other dictionary as it was; the new dictionary has every
    entry of [rule_parameters], then [rule_to_invoke] and [source_s3_uri]
    for a true [rule_to_invoke] and [source] unless [rule_parameters] has
    the key, and no key from elsewhere. *)
Theorem set_rule_parameters_merge `{!Utils}
    source rule_to_invoke rule_parameters h d :
  store_wf h →
  contents h rule_parameters = Some d →
  let exactly_one :=
    xorb (scalar_truthy source) (scalar_truthy rule_to_invoke) in
  let call :=
    RuleBase._set_rule_parameters source rule_to_invoke rule_parameters h in
  (is_Ok call.1 = false ↔ exactly_one = true) ∧
  (exactly_one = true → call = (Raise ValueError, h)) ∧
  (exactly_one = false →
   ∃ l merged,
     call = (Ok l, <[l := merged]> h) ∧ h !! l = None ∧
     (∀ k v, Dict.get k d = Some v → Dict.get k merged = Some v) ∧
     (Dict.get "rule_to_invoke" d = None →
      scalar_truthy rule_to_invoke = true →
      Dict.get "rule_to_invoke" merged = Some rule_to_invoke) ∧
     (Dict.get "source_s3_uri" d = None →
      scalar_truthy source = true →
      Dict.get "source_s3_uri" merged = Some source) ∧
     (∀ k, is_Some (Dict.get k merged) →
           is_Some (Dict.get k d) ∨
           (k = "rule_to_invoke" ∧ rule_to_invoke ≠ SNone) ∨
           (k = "source_s3_uri" ∧ source ≠ SNone))).
Proof.
  intros Hwf Hd exactly_one call.
  assert (exactly_one = true → call = (Raise ValueError, h)) as Hfail.
  { intros Hx. unfold call, RuleBase._set_rule_parameters.
    fold exactly_one. by rewrite Hx. }
  assert (exactly_one = false →
          ∃ d1 d2, call = (Ok (fresh (dom h)),
            <[fresh (dom h) := Dict.update (Dict.update (Dict.update [] d1) d2) d]> h) ∧
            (d1 = [] ∨ d1 = [("source_s3_uri", source)]) ∧
            (source = SNone → d1 = []) ∧
            (scalar_truthy source = true → d1 = [("source_s3_uri", source)]) ∧
            (d2 = [] ∨ d2 = [("rule_to_invoke", rule_to_invoke)]) ∧
            (rule_to_invoke = SNone → d2 = []) ∧
            (scalar_truthy rule_to_invoke = true →
             d2 = [("rule_to_invoke", rule_to_invoke)])) as Hrun.
  { intros Hx. by apply set_rule_parameters_run. }
  split_and!; [|done|].
  - destruct exactly_one.
    + by rewrite Hfail.
    + destruct Hrun as (d1 & d2 & -> & _); [done|]. done.
  - intros Hx. destruct (Hrun Hx) as (d1 & d2 & Hcall & S1 & N1 & T1 & S2 & N2 & T2).
    eexists _, _. split; [exact Hcall|]. split; [apply fresh_None|].
    pose proof (contents_wf _ _ _ Hwf Hd) as Hdwf.
    split_and!.
    + intros k v Hk. rewrite get_update by done. by rewrite Hk.
    + intros Hk Ht. rewrite get_update, Hk, (T2 Ht) by done.
      destruct S1 as [-> | ->]; reflexivity.
    + intros Hk Ht. rewrite get_update, Hk, (T1 Ht) by done.
      destruct S2 as [-> | ->]; reflexivity.
    + intros k. rewrite get_update by done.
      destruct (Dict.get k d) as [v|]; [by left; eexists|].
      intros Hk. right.
      assert (source = SNone → d1 ≠ [("source_s3_uri", source)]) as N1'.
      { intros Hs. by rewrite N1. }
      assert (rule_to_invoke = SNone → d2 ≠ [("rule_to_invoke", rule_to_invoke)])
        as N2'.
      { intros Hs. by rewrite N2. }
      destruct S1 as [-> | ->], S2 as [-> | ->]; simpl in Hk;
        repeat (case_decide; simplify_eq/=);
        try (by destruct Hk);
        first [ left; split; [done|]; intros Hs; by apply N2'
              | right; split; [done|]; intros Hs; by apply N1' ].
Qed.

Lemma set_rule_parameters_merge_witness :
  let h : store := {[ 1%positive := [("threshold", SInt 5)] ]} in
  store_wf h ∧
  ∃ merged,
    @RuleBase._set_rule_parameters utils_not_None
      (SStr "s3://bucket/rules.py") (SStr "MyRule") (Some 1%positive) h =
      (Ok 2%positive, <[2%positive := merged]> h) ∧
    Dict.get "threshold" merged = Some (SInt 5) ∧
    Dict.get "rule_to_invoke" merged = Some (SStr "MyRule") ∧
    Dict.get "source_s3_uri" merged = Some (SStr "s3://bucket/rules.py").
Proof.
  intros h.
  assert (store_wf h) as Hwf.
  { intros l d [_ <-]%lookup_singleton_Some.
    unfold Dict.wf. apply (bool_decide_unpack _). reflexivity. }
  split; [exact Hwf|].
  destruct (@set_rule_parameters_merge utils_not_None
              (SStr "s3://bucket/rules.py") (SStr "MyRule") (Some 1%positive) h
              [("threshold", SInt 5)] Hwf eq_refl)
    as (_ & _ & Hok).
  destruct (Hok eq_refl) as (l & merged & Hcall & _ & Hd & Hr & Hs & _).
  exists merged. split_and!; [|by apply Hd|by apply Hr|by apply Hs].
  rewrite Hcall. f_equal.
  - by injection Hcall as <- _.
  - by injection Hcall as <- _.
Defined.
(** ** C2, C3: [Rule.sagemaker] *)

Lemma other_trial_key_inj i j : other_trial_key i = other_trial_key j → i = j.
Proof.
  unfold other_trial_key. intros Heq.
  apply (inj (String.append "other_trial_")) in Heq.
  by apply (inj pretty) in Heq.
Qed.

Lemma for_each_setitem_run h l d (paths : list (nat * scalar)) :
  h !! l = Some d →
  for_each paths (λ ix, setitem l (other_trial_key ix.1) ix.2) h =
    (Ok (), <[l := with_other_trials d paths]> h).
Proof.
  revert h d. induction paths as [|[i p] paths IH]; intros h d Hl; simpl.
  - unfold mret, M_ret. by rewrite insert_id.
  - unfold mbind, M_bind. rewrite (setitem_run h l d) by done. simpl.
    rewrite (IH _ (Dict.set (other_trial_key i) p d)) by apply lookup_insert_eq.
    by rewrite insert_insert_eq.
Qed.

Lemma set_other_trials_run h l d paths :
  h !! l = Some d →
  set_other_trials l paths h =
    (Ok (), <[l := with_other_trials d (enumerate (default [] paths))]> h).
Proof.
  intros Hl. destruct paths as [paths|]; simpl.
  - by apply for_each_setitem_run.
  - unfold mret, M_ret. by rewrite insert_id.
Qed.

Lemma with_other_trials_wf d paths :
  Dict.wf d → Dict.wf (with_other_trials d paths).
Proof.
  revert d. induction paths as [|[i p] paths IH]; intros d Hd; simpl; [done|].
  by apply IH, wf_set.
Qed.

Lemma imap_pair_shift n (paths : list scalar) :
  imap ((λ i x, (n + i, x)) ∘ S) paths = imap (λ i x, (S n + i, x)) paths.
Proof. apply imap_ext. intros i x _. simpl. f_equal. lia. Qed.

Lemma with_other_trials_cons d ix paths :
  with_other_trials d (ix :: paths) =
    with_other_trials (Dict.set (other_trial_key ix.1) ix.2 d) paths.
Proof. done. Qed.

(** After the loop a key that is no other-trial key is as before, *)
Lemma get_with_other_trials_miss n d (paths : list scalar) k :
  (∀ i, i < length paths → k ≠ other_trial_key (n + i)) →
  Dict.get k (with_other_trials d (imap (λ i x, (n + i, x)) paths)) =
    Dict.get k d.
Proof.
  revert n d. induction paths as [|p paths IH]; intros n d Hk; [done|].
  rewrite imap_cons, imap_pair_shift, with_other_trials_cons, IH.
  - apply get_set_ne. cbn [fst]. apply Hk. simpl. lia.
  - intros i Hi. replace (S n + i) with (n + S i) by lia. apply Hk. simpl. lia.
Qed.

(** and the key of the [i]-th path has that path. *)
Lemma get_with_other_trials_hit n d (paths : list scalar) i p :
  paths !! i = Some p →
  Dict.get (other_trial_key (n + i))
    (with_other_trials d (imap (λ i x, (n + i, x)) paths)) = Some p.
Proof.
  revert n d i. induction paths as [|p0 paths IH]; intros n d i Hi; [done|].
  rewrite imap_cons, imap_pair_shift, with_other_trials_cons.
  destruct i as [|i]; simpl in Hi.
  - injection Hi as ->. rewrite get_with_other_trials_miss.
    + apply get_set_eq.
    + intros j _ Heq%other_trial_key_inj. lia.
  - replace (n + S i) with (S n + i) by lia. by apply IH.
Qed.

Lemma get_other_trials_Some (paths : list scalar) i p :
  paths !! i = Some p →
  Dict.get (other_trial_key i) (with_other_trials [] (enumerate paths)) = Some p.
Proof. apply (get_with_other_trials_hit 0). Qed.

Lemma get_other_trials_is_Some (paths : list scalar) k :
  is_Some (Dict.get k (with_other_trials [] (enumerate paths))) →
  ∃ i, k = other_trial_key i ∧ i < length paths.
Proof.
  intros Hk.
  destruct (decide (Exists (λ i, k = other_trial_key i) (seq 0 (length paths))))
    as [Hex|Hnex].
  - apply Exists_exists in Hex as (i & Hi%elem_of_seq & ->). exists i. split; [done|lia].
  - assert (Dict.get k (with_other_trials [] (enumerate paths)) = None) as E.
    { apply (get_with_other_trials_miss 0 []).
      intros i Hi ->. apply Hnex, Exists_exists. exists i. split; [|done].
      apply elem_of_seq. lia. }
    rewrite E in Hk. by destruct Hk.
Qed.

(** The loop over the collections of the base configuration only adds new
    dictionaries. *)
Lemma base_collections_run configs h :
  ∃ collections h',
    comprehension base_collection configs h = (Ok collections, h') ∧
    ∀ l d, h !! l = Some d → h' !! l = Some d.
Proof.
  revert h. induction configs as [|config configs IH]; intros h; simpl.
  - by exists [], h.
  - unfold mbind, M_bind, base_collection at 1, new_dict. simpl.
    destruct (IH (<[fresh (dom h) := []]> h)) as (cs & h' & -> & Hframe).
    eexists _, _. split; [done|].
    intros l d Hl. apply Hframe. rewrite lookup_insert_ne; [done|].
    intros Heq. by rewrite <-Heq, fresh_None in Hl.
Qed.

(** [Rule.sagemaker], path by path, for a [rule_parameters] argument that is
    [None] or a dictionary of the store. *)
Lemma sagemaker_cases base_config name container_local_output_path s3_output_path
    other_trials_s3_input_paths rule_parameters collections_to_save h user :
  contents h rule_parameters = Some user →
  let call :=
    Rule.sagemaker base_config name container_local_output_path s3_output_path
      other_trials_s3_input_paths rule_parameters collections_to_save h in
  let l := fresh (dom h) in
  if decide (given_rule_to_invoke user = SNone) then
    match BaseConfig.DebugRuleConfiguration base_config with
    | None => call.1 = Raise KeyError
    | Some rule_configuration =>
        ∀ defaults,
          contents h (BaseConfig.RuleParameters rule_configuration) = Some defaults →
          ∃ rule,
            call.1 = Ok rule ∧
            Rule.rule_parameters rule = Some l ∧
            call.2 !! l =
              Some (Dict.update
                      (Dict.update
                         (with_other_trials []
                            (enumerate (default [] other_trials_s3_input_paths)))
                         defaults)
                      user) ∧
            ∀ l' d, h !! l' = Some d → call.2 !! l' = Some d
    end
  else call.1 = Raise RuntimeError.
Proof.
  intros Huser call l. destruct call as [r hr] eqn:Hcall. simpl.
  unfold call, Rule.sagemaker in Hcall. clear call.
  unfold mbind at 1 in Hcall. unfold M_bind at 1 in Hcall.
  unfold new_dict at 1 in Hcall. fold l in Hcall.
  set (h1 := <[l := []]> h) in *.
  pose proof (contents_insert_fresh h _ _ [] Huser) as Huser1. fold l h1 in Huser1.
  assert ((match rule_parameters with
           | Some lp => d ← items lp; mret (given_rule_to_invoke d)
           | None => mret SNone
           end : M scalar) h1 = (Ok (given_rule_to_invoke user), h1)) as Hgiven.
  { destruct rule_parameters as [lp|]; simpl in *.
    - unfold mbind, M_bind, items. by rewrite Huser1.
    - by injection Huser as <-. }
  unfold mbind at 1 in Hcall. unfold M_bind at 1 in Hcall. rewrite Hgiven in Hcall.
  destruct (decide (given_rule_to_invoke user = SNone)) as [Hnone|Hsome].
  2:{ rewrite bool_decide_eq_false_2 in Hcall by done. by injection Hcall as <- _. }
  rewrite bool_decide_eq_true_2 in Hcall by done.
  change (negb true) with false in Hcall. cbv beta iota in Hcall.
  unfold mbind at 1 in Hcall. unfold M_bind at 1 in Hcall.
  rewrite (set_other_trials_run h1 l []) in Hcall by apply lookup_insert_eq.
  set (trials := with_other_trials [] _) in *.
  set (h2 := <[l := trials]> h1) in *.
  assert (∀ r d, contents h r = Some d → contents h2 r = Some d) as Hframe2.
  { intros r' d Hr. unfold h2, h1. rewrite insert_insert_eq.
    by apply contents_insert_fresh. }
  destruct (BaseConfig.DebugRuleConfiguration base_config) as [rc|].
  2:{ by injection Hcall as <- _. }
  intros defaults Hdef.
  unfold mbind at 1 in Hcall. unfold M_bind at 1 in Hcall.
  rewrite (items_or_empty_run h2 _ defaults) in Hcall by auto.
  unfold mbind at 1 in Hcall. unfold M_bind at 1 in Hcall.
  rewrite (update_run h2 l trials) in Hcall by apply lookup_insert_eq.
  set (h3 := <[l := Dict.update trials defaults]> h2) in *.
  assert (contents h3 rule_parameters = Some user) as Huser3.
  { unfold h3, h2, h1. rewrite !insert_insert_eq. by apply contents_insert_fresh. }
  unfold mbind at 1 in Hcall. unfold M_bind at 1 in Hcall.
  rewrite (items_or_empty_run h3 _ user) in Hcall by done.
  unfold mbind at 1 in Hcall. unfold M_bind at 1 in Hcall.
  rewrite (update_run h3 l (Dict.update trials defaults)) in Hcall
    by apply lookup_insert_eq.
  set (h4 := <[l := Dict.update (Dict.update trials defaults) user]> h3) in *.
  unfold mbind at 1 in Hcall. unfold M_bind at 1 in Hcall.
  destruct (base_collections_run
              (default [] (BaseConfig.CollectionConfigurations base_config)) h4)
    as (collections & h' & Hrun & Hframe).
  rewrite Hrun in Hcall.
  injection Hcall as <- <-.
  eexists. split_and!; [done|done| |].
  - apply Hframe, lookup_insert_eq.
  - intros l' d Hl'. apply Hframe. unfold h4, h3, h2, h1.
    rewrite !insert_insert_eq. rewrite lookup_insert_ne; [done|].
    symmetry. by apply (fresh_ne h l' d).
Qed.

(** C2: a call to [Rule.sagemaker] that succeeds gives the rule a dictionary
    that was not in the store before, in which the caller's
    [rule_parameters] come first, then the [RuleParameters] of the base
    configuration, then the entry [other_trial_i] for the [i]-th path of
    [other_trials_s3_input_paths]; it has no other key. *)
Theorem sagemaker_rule_parameters_precedence
    base_config name container_local_output_path s3_output_path
    other_trials_s3_input_paths rule_parameters collections_to_save
    h rule_configuration defaults user rule h' :
  store_wf h →
  BaseConfig.DebugRuleConfiguration base_config = Some rule_configuration →
  contents h (BaseConfig.RuleParameters rule_configuration) = Some defaults →
  contents h rule_parameters = Some user →
  Rule.sagemaker base_config name container_local_output_path s3_output_path
    other_trials_s3_input_paths rule_parameters collections_to_save h =
    (Ok rule, h') →
  let paths := default [] other_trials_s3_input_paths in
  ∃ l merged,
    Rule.rule_parameters rule = Some l ∧ h !! l = None ∧ h' !! l = Some merged ∧
    (∀ k v, Dict.get k user = Some v → Dict.get k merged = Some v) ∧
    (∀ k v, Dict.get k user = None → Dict.get k defaults = Some v →
            Dict.get k merged = Some v) ∧
    (∀ i p, paths !! i = Some p →
            Dict.get (other_trial_key i) user = None →
            Dict.get (other_trial_key i) defaults = None →
            Dict.get (other_trial_key i) merged = Some p) ∧
    (∀ k, is_Some (Dict.get k merged) →
          is_Some (Dict.get k user) ∨ is_Some (Dict.get k defaults) ∨
          ∃ i, k = other_trial_key i ∧ i < length paths).
Proof.
  intros Hwf Hrc Hdef Huser Hcall paths.
  pose proof (sagemaker_cases base_config name container_local_output_path
                s3_output_path other_trials_s3_input_paths rule_parameters
                collections_to_save h user Huser) as Hcases.
  rewrite Hcall, Hrc in Hcases. simpl in Hcases.
  destruct (decide _) as [_|_]; [|done].
  destruct (Hcases defaults Hdef) as (rule' & [= <-] & Hl & Hmerged & _).
  eexists _, _. split_and!; [done|apply fresh_None|done|..].
  all: pose proof (contents_wf _ _ _ Hwf Huser) as Huwf.
  all: pose proof (contents_wf _ _ _ Hwf Hdef) as Hdwf.
  - intros k v Hk. by rewrite get_update, Hk.
  - intros k v Hk Hk'. by rewrite get_update, Hk, get_update, Hk'.
  - intros i p Hi Hk Hk'. rewrite get_update, Hk, get_update, Hk' by done.
    by apply get_other_trials_Some.
  - intros k. rewrite get_update by done.
    destruct (Dict.get k user); [by left|].
    rewrite get_update by done.
    destruct (Dict.get k defaults); [by right; left|].
    intros Hk. right; right. by apply get_other_trials_is_Some.
Qed.

Lemma sagemaker_rule_parameters_precedence_witness :
  let h : store :=
    {[ 1%positive := [("threshold", SInt 5); ("other_trial_1", SStr "mine")];
       2%positive := [("threshold", SInt 1); ("mode", SStr "TRAIN")] ]} in
  let base_config :=
    {| BaseConfig.DebugRuleConfiguration :=
         Some {| BaseConfig.RuleConfigurationName := Some (SStr "DeadRelu");
                 BaseConfig.RuleParameters := Some 2%positive |};
       BaseConfig.CollectionConfigurations := None |} in
  ∃ rule h' l merged,
    Rule.sagemaker base_config SNone SNone SNone
      (Some [SStr "p0"; SStr "p1"]) (Some 1%positive) None h = (Ok rule, h') ∧
    Rule.rule_parameters rule = Some l ∧ h' !! l = Some merged ∧
    Dict.get "threshold" merged = Some (SInt 5) ∧
    Dict.get "mode" merged = Some (SStr "TRAIN") ∧
    Dict.get "other_trial_0" merged = Some (SStr "p0") ∧
    Dict.get "other_trial_1" merged = Some (SStr "mine").
Proof.
  intros h base_config.
  assert (store_wf h) as Hwf.
  { intros l d Hl. unfold Dict.wf. apply (bool_decide_unpack _).
    apply lookup_insert_Some in Hl as [[_ <-]|[_ [_ <-]%lookup_singleton_Some]];
      reflexivity. }
  destruct (Rule.sagemaker base_config SNone SNone SNone
              (Some [SStr "p0"; SStr "p1"]) (Some 1%positive) None h)
    as [[rule|e] h'] eqn:Hcall; [|by vm_compute in Hcall].
  destruct (sagemaker_rule_parameters_precedence base_config SNone SNone SNone
              (Some [SStr "p0"; SStr "p1"]) (Some 1%positive) None h
              _ _ _ rule h' Hwf eq_refl eq_refl eq_refl Hcall)
    as (l & merged & Hl & _ & Hm & Huser & Hdef & Htrial & _).
  exists rule, h', l, merged. split_and!; [done..| | | |].
  - by apply Huser.
  - by apply Hdef.
  - by apply (Htrial 0).
  - by apply Huser.
Defined.

(** C3 as stated fails: a [rule_parameters] dictionary can have the key
    [rule_to_invoke] with the value [None], and the call then succeeds. *)
Lemma sagemaker_rule_to_invoke_None_accepted :
  let h : store := {[ 1%positive := [("rule_to_invoke", SNone)] ]} in
  let base_config :=
    {| BaseConfig.DebugRuleConfiguration :=
         Some {| BaseConfig.RuleConfigurationName := Some (SStr "DeadRelu");
                 BaseConfig.RuleParameters := None |};
       BaseConfig.CollectionConfigurations := None |} in
  "rule_to_invoke" ∈ Dict.keys (h !!! 1%positive) ∧
  is_Ok (Rule.sagemaker base_config SNone SNone SNone None (Some 1%positive)
           None h).1 = true.
Proof. split; [|reflexivity]. vm_compute. left. Qed.

(** C3 (amended): for allocated arguments, [Rule.sagemaker] raises
    [RuntimeError] exactly when the caller's [rule_parameters] has a
    [rule_to_invoke] entry whose value is not [None]. *)
Theorem sagemaker_rule_to_invoke_conflict
    base_config name container_local_output_path s3_output_path
    other_trials_s3_input_paths rule_parameters collections_to_save h user :
  contents h rule_parameters = Some user →
  (∀ rule_configuration,
     BaseConfig.DebugRuleConfiguration base_config = Some rule_configuration →
     is_Some (contents h (BaseConfig.RuleParameters rule_configuration))) →
  (Rule.sagemaker base_config name container_local_output_path s3_output_path
     other_trials_s3_input_paths rule_parameters collections_to_save h).1 =
    Raise RuntimeError ↔
  ∃ v, Dict.get "rule_to_invoke" user = Some v ∧ v ≠ SNone.
Proof.
  intros Huser Hbase.
  pose proof (sagemaker_cases base_config name container_local_output_path
                s3_output_path other_trials_s3_input_paths rule_parameters
                collections_to_save h user Huser) as Hcases.
  simpl in Hcases. unfold given_rule_to_invoke in Hcases.
  destruct (decide _) as [Hnone|Hsome].
  - split.
    + intros Hraise. rewrite Hraise in Hcases.
      destruct (BaseConfig.DebugRuleConfiguration base_config) as [rc|]; [|done].
      destruct (Hbase rc eq_refl) as [defaults Hdef].
      by destruct (Hcases defaults Hdef) as (rule' & ? & _).
    + intros (v & Hv & Hne). by rewrite Hv in Hnone.
  - split; [intros _|done].
    destruct (Dict.get "rule_to_invoke" user) as [v|]; [|done]. by exists v.
Qed.

Lemma sagemaker_rule_to_invoke_conflict_witness :
  let h : store := {[ 1%positive := [("rule_to_invoke", SStr "x")] ]} in
  let base_config :=
    {| BaseConfig.DebugRuleConfiguration :=
         Some {| BaseConfig.RuleConfigurationName := Some (SStr "DeadRelu");
                 BaseConfig.RuleParameters := None |};
       BaseConfig.CollectionConfigurations := None |} in
  (Rule.sagemaker base_config SNone SNone SNone None (Some 1%positive) None h).1 =
    Raise RuntimeError.
Proof.
  intros h base_config.
  apply (sagemaker_rule_to_invoke_conflict base_config SNone SNone SNone None
           (Some 1%positive) None h [("rule_to_invoke", SStr "x")] eq_refl).
  - intros rc [= <-]. by eexists.
  - by exists (SStr "x").
Defined.
(** ** C4, C6: the rule serializers *)

Lemma get_app_r {A} k (pre d : list (string * A)) :
  k ∉ Dict.keys pre → Dict.get k (pre ++ d) = Dict.get k d.
Proof.
  unfold Dict.keys. induction pre as [|[k0 v0] pre IH]; csimpl; [done|].
  intros [Hne Hk]%not_elem_of_cons. rewrite decide_False by done. by apply IH.
Qed.

Lemma set_app_r {A} k (v : A) (pre d : list (string * A)) :
  k ∉ Dict.keys pre → Dict.set k v (pre ++ d) = pre ++ Dict.set k v d.
Proof.
  unfold Dict.keys. induction pre as [|[k0 v0] pre IH]; csimpl; [done|].
  intros [Hne Hk]%not_elem_of_cons. rewrite decide_False by done.
  f_equal. by apply IH.
Qed.

Lemma stringify_loop_run h l (pre d : list (string * scalar)) :
  Dict.wf (pre ++ d) →
  h !! l = Some (pre ++ d) →
  for_each (Dict.keys d)
    (λ k, v ← getitem l k; setitem l k (SStr (py_str v))) h =
    (Ok (), <[l := pre ++ stringified d]> h).
Proof.
  revert h pre. induction d as [|[k v] d IH]; intros h pre Hwf Hl; csimpl.
  - unfold mret, M_ret. by rewrite insert_id.
  - assert (k ∉ Dict.keys pre) as Hk.
    { unfold Dict.wf, Dict.keys in *. rewrite fmap_app in Hwf.
      apply NoDup_app in Hwf as (_ & Hdisj & _).
      intros Hin. apply (Hdisj _ Hin). csimpl. left. }
    unfold mbind at 1. unfold M_bind at 1.
    unfold mbind at 1. unfold M_bind at 1.
    unfold getitem. unfold mbind at 1. unfold M_bind at 1. unfold items at 1.
    rewrite Hl. rewrite get_app_r by done. simpl. rewrite decide_True by done.
    unfold mret at 1. unfold M_ret at 1.
    rewrite (setitem_run h l (pre ++ (k, v) :: d)) by done.
    rewrite set_app_r by done. simpl. rewrite decide_True by done.
    rewrite (IH _ (pre ++ [(k, SStr (py_str v))])).
    + rewrite insert_insert_eq. by rewrite <-app_assoc.
    + unfold Dict.wf, Dict.keys in *. rewrite <-app_assoc. simpl.
      by rewrite !fmap_app in *.
    + rewrite lookup_insert_eq. by rewrite <-app_assoc.
Qed.

Lemma stringify_values_run h l d :
  Dict.wf d → h !! l = Some d →
  ProfilerRule.stringify_values l h = (Ok (), <[l := stringified d]> h).
Proof.
  intros Hwf Hl. unfold ProfilerRule.stringify_values.
  unfold mbind, M_bind, items. rewrite Hl.
  by apply (stringify_loop_run h l []).
Qed.

Lemma to_profiler_rule_config_dict_run `{!Utils} self h l d :
  ProfilerRule.rule_parameters self = Some l →
  h !! l = Some d → d ≠ [] → Dict.wf d →
  ∃ request,
    ProfilerRule.to_profiler_rule_config_dict self h =
      (Ok request, <[l := stringified d]> h) ∧
    Dict.get "RuleParameters" request = Some (VRef l).
Proof.
  intros Hrp Hl Hne Hwf. unfold ProfilerRule.to_profiler_rule_config_dict.
  unfold mbind, M_bind, call_build_dict, get_store. rewrite Hrp.
  assert (truthy h (VRef l) = true) as ->.
  { simpl. rewrite Hl. by destruct d. }
  rewrite (stringify_values_run h l d) by done.
  eexists. split; [done|]. apply get_set_eq.
Qed.

Lemma to_debugger_rule_config_dict_run `{!Utils} self h :
  ∃ request,
    Rule.to_debugger_rule_config_dict self h = (Ok request, h) ∧
    (∀ v, Dict.get "RuleParameters" request = Some v →
          v = ref_value (Rule.rule_parameters self)) ∧
    (truthy h (ref_value (Rule.rule_parameters self)) = true →
     Dict.get "RuleParameters" request =
       Some (ref_value (Rule.rule_parameters self))).
Proof.
  unfold Rule.to_debugger_rule_config_dict.
  unfold mbind, M_bind, call_build_dict, mret, M_ret.
  eexists. split; [done|].
  pose proof (build_dict_truthy h "RuleParameters"
                (ref_value (Rule.rule_parameters self))) as Htrue.
  destruct (build_dict_shape h "InstanceType" (VScalar (Rule.instance_type self)))
    as [-> | ->];
  destruct (build_dict_shape h "VolumeSizeInGB"
              (VScalar (Rule.volume_size_in_gb self))) as [-> | ->];
  destruct (build_dict_shape h "LocalPath"
              (VScalar (Rule.container_local_output_path self))) as [-> | ->];
  destruct (build_dict_shape h "S3OutputPath"
              (VScalar (Rule.s3_output_path self))) as [-> | ->];
  destruct (build_dict_shape h "RuleParameters"
              (ref_value (Rule.rule_parameters self))) as [E | E];
  rewrite E in *; (split; [by intros v [= <-] | intros Ht; by specialize (Htrue Ht)]).
Qed.

(** C4: for a [ProfilerRule] whose [rule_parameters] is a non-empty
    dictionary, [to_profiler_rule_config_dict] returns a request whose
    [RuleParameters] entry is that dictionary with every value replaced by
    its string rendering; for a [Rule], [to_debugger_rule_config_dict]
    changes no dictionary, a [RuleParameters] entry of its request is the
    [rule_parameters] of the rule as it is stored, and the entry is there
    when the dictionary is not empty. *)
Theorem rule_parameters_serialized `{!Utils} :
  (∀ (self : ProfilerRule.t) h l d,
     ProfilerRule.rule_parameters self = Some l →
     h !! l = Some d → d ≠ [] → Dict.wf d →
     ∃ request h',
       ProfilerRule.to_profiler_rule_config_dict self h = (Ok request, h') ∧
       Dict.get "RuleParameters" request = Some (VRef l) ∧
       h' !! l = Some ((λ kv, (kv.1, SStr (py_str kv.2))) <$> d)) ∧
  (∀ (self : Rule.t) h,
     ∃ request,
       Rule.to_debugger_rule_config_dict self h = (Ok request, h) ∧
       (∀ v, Dict.get "RuleParameters" request = Some v →
             v = ref_value (Rule.rule_parameters self)) ∧
       (∀ l d, Rule.rule_parameters self = Some l → h !! l = Some d → d ≠ [] →
               Dict.get "RuleParameters" request = Some (VRef l))).
Proof.
  split.
  - intros self h l d Hrp Hl Hne Hwf.
    destruct (to_profiler_rule_config_dict_run self h l d)
      as (request & Hrun & Hget); [done..|].
    eexists _, _. split_and!; [done..|]. apply lookup_insert_eq.
  - intros self h.
    destruct (to_debugger_rule_config_dict_run self h) as (request & Hrun & Hv & Ht).
    exists request. split_and!; [done..|].
    intros l d Hrp Hl Hne. rewrite Hrp in Ht. apply Ht.
    simpl. rewrite Hl. by destruct d.
Qed.

Lemma rule_parameters_serialized_witness :
  let h : store := {[ 1%positive := [("k", SInt 5)] ]} in
  let profiler_rule :=
    {| ProfilerRule.name := SStr "ProfilerReport";
       ProfilerRule.image_uri := SStr "DEFAULT_RULE_EVALUATOR_IMAGE";
       ProfilerRule.instance_type := SNone;
       ProfilerRule.container_local_output_path := SNone;
       ProfilerRule.s3_output_path := SNone;
       ProfilerRule.volume_size_in_gb := SNone;
       ProfilerRule.rule_parameters := Some 1%positive |} in
  let rule :=
    {| Rule.name := SStr "DeadRelu";
       Rule.image_uri := SStr "DEFAULT_RULE_EVALUATOR_IMAGE";
       Rule.instance_type := SNone;
       Rule.container_local_output_path := SNone;
       Rule.s3_output_path := SNone;
       Rule.volume_size_in_gb := SNone;
       Rule.rule_parameters := Some 1%positive;
       Rule.collection_configs := [] |} in
  (∃ request h',
     @ProfilerRule.to_profiler_rule_config_dict utils_not_None profiler_rule h =
       (Ok request, h') ∧
     Dict.get "RuleParameters" request = Some (VRef 1%positive) ∧
     h' !! 1%positive = Some [("k", SStr "5")]) ∧
  (∃ request,
     @Rule.to_debugger_rule_config_dict utils_not_None rule h = (Ok request, h) ∧
     Dict.get "RuleParameters" request = Some (VRef 1%positive) ∧
     h !! 1%positive = Some [("k", SInt 5)]).
Proof.
  intros h profiler_rule rule.
  destruct (@rule_parameters_serialized utils_not_None) as [Hprofiler Hdebugger].
  split.
  - apply (Hprofiler profiler_rule h 1%positive [("k", SInt 5)]);
      [reflexivity|reflexivity|discriminate|].
    unfold Dict.wf. apply (bool_decide_unpack _). reflexivity.
  - destruct (Hdebugger rule h) as (request & Hrun & _ & Hget).
    exists request. split_and!; [done| |reflexivity].
    apply (Hget 1%positive [("k", SInt 5)]); [reflexivity|reflexivity|discriminate].
Defined.

(** C6 fails on the code: [to_profiler_rule_config_dict] puts the rule's own
    [rule_parameters] dictionary into the request and then overwrites every
    value in it, so after the call the rule holds ["5"] where it held [5]. *)
Theorem to_profiler_rule_config_dict_writes_receiver `{!Utils} :
  let h : store := {[ 1%positive := [("k", SInt 5)] ]} in
  let self :=
    {| ProfilerRule.name := SStr "ProfilerReport";
       ProfilerRule.image_uri := SStr "DEFAULT_RULE_EVALUATOR_IMAGE";
       ProfilerRule.instance_type := SNone;
       ProfilerRule.container_local_output_path := SNone;
       ProfilerRule.s3_output_path := SNone;
       ProfilerRule.volume_size_in_gb := SNone;
       ProfilerRule.rule_parameters := Some 1%positive |} in
  h !! 1%positive = Some [("k", SInt 5)] ∧
  is_Ok (ProfilerRule.to_profiler_rule_config_dict self h).1 = true ∧
  (ProfilerRule.to_profiler_rule_config_dict self h).2 !! 1%positive =
    Some [("k", SStr "5")].
Proof.
  intros h self. split; [reflexivity|].
  destruct (to_profiler_rule_config_dict_run self h 1%positive [("k", SInt 5)])
    as (request & -> & _); [reflexivity|reflexivity|discriminate| |].
  { unfold Dict.wf. apply (bool_decide_unpack _). reflexivity. }
  split; [reflexivity|]. simpl. by rewrite lookup_insert_eq.
Qed.
(** ** C5: the request dictionaries of the hook and TensorBoard configurations *)

Lemma collection_requests_run configs h :
  ∃ requests,
    comprehension CollectionConfig._to_request_dict configs h = (Ok requests, h).
Proof.
  induction configs as [|config configs [requests IH]]; simpl.
  - by exists [].
  - unfold mbind, M_bind. unfold CollectionConfig._to_request_dict at 1.
    unfold mret at 1. unfold M_ret at 1. rewrite IH. by eexists.
Qed.

(** One conjunct about the keys of a request that is written out. *)
Ltac request_key :=
  match goal with
  | |- Some _ = Some _ => reflexivity
  | |- is_Some None ↔ _ => split; [by intros [? [=]] | intros ?; congruence]
  | |- is_Some (Some _) ↔ _ =>
      split; [intros _; first [done | discriminate] | intros _; by eexists]
  | |- ∀ k, is_Some _ → _ =>
      let k := fresh "k" in
      intros k; repeat case_decide; subst;
      first [by intros [? [=]] | intros _; set_solver]
  end.

(** C5 as stated fails: a [DebuggerHookConfig] built with no argument has no
    [s3_output_path], and its request still has the key [S3OutputPath], with
    the value [None]. *)
Lemma hook_request_has_absent_S3OutputPath :
  let self :=
    {| DebuggerHookConfig.s3_output_path := SNone;
       DebuggerHookConfig.container_local_output_path := SNone;
       DebuggerHookConfig.hook_parameters := None;
       DebuggerHookConfig.collection_configs := None |} in
  DebuggerHookConfig.s3_output_path self = SNone ∧
  DebuggerHookConfig._to_request_dict self ∅ = (Ok [("S3OutputPath", VNone)], ∅).
Proof. split; reflexivity. Qed.

(** C5 (amended): the request of a [DebuggerHookConfig] and of a
    [TensorBoardOutputConfig] always has the key [S3OutputPath], with the
    value of the attribute whatever it is; each of [LocalPath],
    [HookParameters] and [CollectionConfigurations] is a key of the request
    exactly when its attribute is not [None]; the request has no other key,
    and no dictionary of the store is changed. *)
Theorem request_dict_keys :
  (∀ (self : DebuggerHookConfig.t) h,
     ∃ request,
       DebuggerHookConfig._to_request_dict self h = (Ok request, h) ∧
       Dict.get "S3OutputPath" request =
         Some (VScalar (DebuggerHookConfig.s3_output_path self)) ∧
       (is_Some (Dict.get "LocalPath" request) ↔
        DebuggerHookConfig.container_local_output_path self ≠ SNone) ∧
       (is_Some (Dict.get "HookParameters" request) ↔
        DebuggerHookConfig.hook_parameters self ≠ None) ∧
       (is_Some (Dict.get "CollectionConfigurations" request) ↔
        DebuggerHookConfig.collection_configs self ≠ None) ∧
       (∀ k, is_Some (Dict.get k request) →
             k ∈ ["S3OutputPath"; "LocalPath"; "HookParameters";
                  "CollectionConfigurations"])) ∧
  (∀ (self : TensorBoardOutputConfig.t) h,
     ∃ request,
       TensorBoardOutputConfig._to_request_dict self h = (Ok request, h) ∧
       Dict.get "S3OutputPath" request =
         Some (VScalar (TensorBoardOutputConfig.s3_output_path self)) ∧
       (is_Some (Dict.get "LocalPath" request) ↔
        TensorBoardOutputConfig.container_local_output_path self ≠ SNone) ∧
       (∀ k, is_Some (Dict.get k request) → k ∈ ["S3OutputPath"; "LocalPath"])).
Proof.
  split.
  - intros [s3 local hook configs] h. unfold DebuggerHookConfig._to_request_dict.
    simpl.
    destruct configs as [configs|].
    + destruct (collection_requests_run configs h) as [requests Hrun].
      unfold mbind, M_bind. rewrite Hrun. eexists. split; [done|].
      destruct (bool_decide_reflect (local = SNone)) as [->|Hlocal],
        hook as [l|]; simpl; split_and!; request_key.
    + eexists. split; [done|].
      destruct (bool_decide_reflect (local = SNone)) as [->|Hlocal],
        hook as [l|]; simpl; split_and!; request_key.
  - intros [s3 local] h. unfold TensorBoardOutputConfig._to_request_dict. simpl.
    eexists. split; [done|].
    destruct (bool_decide_reflect (local = SNone)) as [->|Hlocal]; simpl;
      split_and!; request_key.
Qed.
Lemma request_dict_keys_witness :
  let self :=
    {| DebuggerHookConfig.s3_output_path := SStr "s3://bucket/debug-output";
       DebuggerHookConfig.container_local_output_path := SNone;
       DebuggerHookConfig.hook_parameters := Some 1%positive;
       DebuggerHookConfig.collection_configs := None |} in
  let h : store := {[ 1%positive := [("save_interval", SStr "100")] ]} in
  ∃ request,
    DebuggerHookConfig._to_request_dict self h = (Ok request, h) ∧
    Dict.get "S3OutputPath" request = Some (VScalar (SStr "s3://bucket/debug-output")) ∧
    Dict.get "LocalPath" request = None ∧
    is_Some (Dict.get "HookParameters" request) ∧
    Dict.get "CollectionConfigurations" request = None.
Proof.
  intros self h. destruct request_dict_keys as [Hhook _].
  destruct (Hhook self h) as (request & Hrun & Hs3 & Hlocal & Hparams & Hconfigs & _).
  exists request. split_and!; [done..| |by apply Hparams|].
  - apply eq_None_not_Some. by intros ?%Hlocal.
  - apply eq_None_not_Some. by intros ?%Hconfigs.
Defined.

(** ** C7: [CollectionConfig] equality and hash *)

Lemma scalar_eqb_refl x : scalar_eqb x x = true.
Proof.
  destruct x as [|b|n|s]; simpl; auto.
  - by destruct b.
  - apply Z.eqb_refl.
  - apply String.eqb_refl.
Qed.

Lemma same_mapping_Permutation {A} (d1 d2 : list (string * A)) :
  Dict.wf d1 → Dict.wf d2 → same_mapping d1 d2 → d1 ≡ₚ d2.
Proof.
  intros Hwf1 Hwf2 Hsame.
  assert (∀ d : list (string * A), Dict.wf d → NoDup d) as Hnodup.
  { intros d Hd. by apply (NoDup_fmap_1 fst). }
  apply NoDup_Permutation; [by apply Hnodup..|].
  intros [k v]. split; intros Hin.
  - apply get_Some_elem_of. rewrite <-Hsame. by apply elem_of_get.
  - apply get_Some_elem_of. rewrite Hsame. by apply elem_of_get.
Qed.

Lemma dict_eqb_same_mapping (d1 d2 : list (string * scalar)) :
  Dict.wf d1 → Dict.wf d2 → same_mapping d1 d2 →
  Dict.eqb scalar_eqb d1 d2 = true.
Proof.
  intros Hwf1 Hwf2 Hsame. unfold Dict.eqb. apply andb_true_intro. split.
  - apply Nat.eqb_eq, Permutation_length. by apply same_mapping_Permutation.
  - apply forallb_forall. intros [k v] Hin%list_elem_of_In. simpl.
    rewrite <-Hsame, (elem_of_get k v d1) by done. apply scalar_eqb_refl.
Qed.

Global Instance item_le_trans : Transitive CollectionConfig.item_le.
Proof. intros x y z. unfold CollectionConfig.item_le. apply transitivity. Qed.

Global Instance item_le_total : Total CollectionConfig.item_le.
Proof. intros x y. unfold CollectionConfig.item_le. apply total, _. Qed.

Lemma sorted_Sorted d :
  Sorted CollectionConfig.item_le (CollectionConfig.sorted d).
Proof. apply Sorted_merge_sort, _. Qed.

Lemma sorted_Permutation d : CollectionConfig.sorted d ≡ₚ d.
Proof. apply merge_sort_Permutation. Qed.

(** Sorting forgets the insertion order. *)
Lemma sorted_same_mapping d1 d2 :
  Dict.wf d1 → Dict.wf d2 → same_mapping d1 d2 →
  CollectionConfig.sorted d1 = CollectionConfig.sorted d2.
Proof.
  intros Hwf1 Hwf2 Hsame.
  pose proof (same_mapping_Permutation d1 d2 Hwf1 Hwf2 Hsame) as Hperm.
  apply (Sorted_unique_strong CollectionConfig.item_le);
    [|apply sorted_Sorted..|by rewrite !sorted_Permutation].
  intros [k1 v1] [k2 v2] Hin1 Hin2 Hle1 Hle2.
  rewrite sorted_Permutation in Hin1. rewrite sorted_Permutation, <-Hperm in Hin2.
  unfold CollectionConfig.item_le in *. simpl in *.
  assert (k1 = k2) as <- by (by apply (anti_symm String.le)).
  f_equal. apply (elem_of_get _ _ _ Hwf1) in Hin1, Hin2. congruence.
Qed.

(** C7: two [CollectionConfig] objects with the same name and with
    parameters that are both [None] or the same mapping, whatever the order
    of the entries, are equal for [__eq__] and have the same [__hash__]; the
    hash is Python's hash of the name paired with the items of the
    parameters sorted by key. *)
Theorem collection_config_eq_hash
    (hash : scalar * list (string * scalar) → Z) h (c1 c2 : CollectionConfig.t) :
  store_wf h →
  CollectionConfig.name c1 = CollectionConfig.name c2 →
  same_parameters h (CollectionConfig.parameters c1) (CollectionConfig.parameters c2) →
  CollectionConfig.__eq__ c1 (CollectionConfig.Config c2) h = (Ok true, h) ∧
  CollectionConfig.__hash__ hash c1 h = CollectionConfig.__hash__ hash c2 h ∧
  ∃ d items,
    contents h (CollectionConfig.parameters c1) = Some d ∧
    CollectionConfig.__hash__ hash c1 h =
      (Ok (hash (CollectionConfig.name c1, items)), h) ∧
    Sorted CollectionConfig.item_le items ∧ items ≡ₚ d.
Proof.
  intros Hwf Hname Hparams.
  destruct c1 as [n1 p1], c2 as [n2 p2]. simpl in *. subst n2.
  unfold CollectionConfig.__eq__, CollectionConfig.__hash__. simpl.
  rewrite scalar_eqb_refl. unfold mbind, M_bind.
  destruct p1 as [l1|], p2 as [l2|]; simpl in Hparams; try done.
  - destruct Hparams as (d1 & d2 & Hl1 & Hl2 & Hsame).
    pose proof (Hwf _ _ Hl1) as Hwf1. pose proof (Hwf _ _ Hl2) as Hwf2.
    simpl. unfold items. rewrite Hl1, Hl2. split_and!.
    + by rewrite dict_eqb_same_mapping.
    + unfold mret, M_ret. by rewrite (sorted_same_mapping d1 d2).
    + exists d1, (CollectionConfig.sorted d1).
      split_and!; [done..|apply sorted_Sorted|apply sorted_Permutation].
  - split_and!; [done..|]. exists [], []. split_and!; [done..|constructor|done].
Qed.

Lemma collection_config_eq_hash_witness :
  let h : store :=
    {[ 1%positive := [("train.save_interval", SStr "100");
                      ("eval.save_interval", SStr "10")];
       2%positive := [("eval.save_interval", SStr "10");
                      ("train.save_interval", SStr "100")] ]} in
  let c1 := {| CollectionConfig.name := SStr "losses";
               CollectionConfig.parameters := Some 1%positive |} in
  let c2 := {| CollectionConfig.name := SStr "losses";
               CollectionConfig.parameters := Some 2%positive |} in
  let hash (t : scalar * list (string * scalar)) : Z :=
    Z.of_nat (String.length (py_str t.1) +
              String.length (default "" (fst <$> head t.2))) in
  h !! 1%positive ≠ h !! 2%positive ∧
  CollectionConfig.__eq__ c1 (CollectionConfig.Config c2) h = (Ok true, h) ∧
  CollectionConfig.__hash__ hash c1 h = CollectionConfig.__hash__ hash c2 h.
Proof.
  intros h c1 c2 hash. split; [discriminate|].
  assert (store_wf h) as Hwf.
  { intros l d Hl. unfold Dict.wf. apply (bool_decide_unpack _).
    apply lookup_insert_Some in Hl as [[_ <-]|[_ [_ <-]%lookup_singleton_Some]];
      reflexivity. }
  destruct (collection_config_eq_hash hash h c1 c2 Hwf eq_refl) as (Heq & Hhash & _);
    [|done].
  eexists _, _. split_and!; [reflexivity..|].
  intros k. simpl. repeat case_decide; congruence.
Defined.

(** ** [Rule.custom] *)

Lemma other_trial_key_not_reserved i :
  other_trial_key i ≠ "rule_to_invoke" ∧ other_trial_key i ≠ "source_s3_uri".
Proof. unfold other_trial_key. split; discriminate. Qed.

(** Lookups in the dictionary the shared helper builds. *)
Lemma shared_merge_get (d d1 d2 : list (string * scalar)) source rule_to_invoke k :
  Dict.wf d →
  (d1 = [] ∨ d1 = [("source_s3_uri", source)]) →
  (d2 = [] ∨ d2 = [("rule_to_invoke", rule_to_invoke)]) →
  Dict.get k (Dict.update (Dict.update (Dict.update [] d1) d2) d) =
    match Dict.get k d with
    | Some v => Some v
    | None =>
        match Dict.get k d2 with
        | Some v => Some v
        | None => Dict.get k d1
        end
    end.
Proof.
  intros Hwf S1 S2. rewrite get_update by done.
  destruct (Dict.get k d); [done|].
  destruct S1 as [-> | ->], S2 as [-> | ->]; simpl;
    repeat case_decide; simplify_eq; done.
Qed.

Lemma rule_set_rule_parameters_run `{!Utils}
    source rule_to_invoke paths rule_parameters h d :
  contents h rule_parameters = Some d →
  let l := fresh (dom h) in
  let trials := with_other_trials [] (enumerate (default [] paths)) in
  let call := Rule._set_rule_parameters source rule_to_invoke paths rule_parameters h in
  if xorb (scalar_truthy source) (scalar_truthy rule_to_invoke) then
    call = (Raise ValueError, <[l := trials]> h)
  else
    ∃ d1 d2 shared,
      call = (Ok l,
              <[l := Dict.update trials
                       (Dict.update (Dict.update (Dict.update [] d1) d2) d)]>
                (<[shared := Dict.update (Dict.update (Dict.update [] d1) d2) d]> h)) ∧
      shared ≠ l ∧ h !! shared = None ∧
      (d1 = [] ∨ d1 = [("source_s3_uri", source)]) ∧
      (source = SNone → d1 = []) ∧
      (scalar_truthy source = true → d1 = [("source_s3_uri", source)]) ∧
      (d2 = [] ∨ d2 = [("rule_to_invoke", rule_to_invoke)]) ∧
      (rule_to_invoke = SNone → d2 = []) ∧
      (scalar_truthy rule_to_invoke = true →
       d2 = [("rule_to_invoke", rule_to_invoke)]).
Proof.
  intros Hd l trials call.
  set (h2 := <[l := trials]> h).
  assert (call =
            (shared ← RuleBase._set_rule_parameters source rule_to_invoke
                         rule_parameters;
             d ← items shared; update l d;; mret l) h2) as ->.
  { unfold call, Rule._set_rule_parameters.
    unfold mbind at 1. unfold M_bind at 1. unfold new_dict at 1. fold l.
    unfold mbind at 1. unfold M_bind at 1.
    rewrite (set_other_trials_run _ l []) by apply lookup_insert_eq.
    fold trials. by rewrite insert_insert_eq. }
  assert (contents h2 rule_parameters = Some d) as Hd2.
  { by apply contents_insert_fresh. }
  destruct (xorb _ _) eqn:Hx.
  - unfold mbind, M_bind, RuleBase._set_rule_parameters. by rewrite Hx.
  - destruct (set_rule_parameters_run source rule_to_invoke rule_parameters h2 d Hx Hd2)
      as (d1 & d2 & Hrun & Hrest).
    set (shared := fresh (dom h2)) in *.
    assert (shared ≠ l) as Hne.
    { symmetry. apply (fresh_ne h2 l trials), lookup_insert_eq. }
    exists d1, d2, shared.
    unfold mbind at 1. unfold M_bind at 1. rewrite Hrun.
    unfold mbind at 1. unfold M_bind at 1. unfold items at 1.
    rewrite lookup_insert_eq.
    unfold mbind at 1. unfold M_bind at 1.
    rewrite (update_run _ l trials)
      by (rewrite lookup_insert_ne by done; apply lookup_insert_eq).
    unfold mret, M_ret. split_and!; try tauto.
    + f_equal. unfold h2. rewrite (insert_insert_ne _ shared l) by done.
      by rewrite insert_insert_eq.
    + pose proof (fresh_None h2) as Hf. fold shared in Hf.
      unfold h2 in Hf. by rewrite lookup_insert_ne in Hf.
Qed.

(** X1: [Rule.custom] raises [ValueError] exactly when one of [source] and
    [rule_to_invoke] passes the truth test and the other does not.
    Otherwise the rule carries the arguments as given and a new dictionary
    in which [rule_parameters] come first, then [rule_to_invoke] and
    [source_s3_uri], then the entries [other_trial_i]; the dictionary has no
    other key.  Whether it fails or not, the call changes no dictionary that
    was in the store. *)
Theorem rule_custom_parameters `{!Utils}
    name image_uri instance_type volume_size_in_gb source rule_to_invoke
    container_local_output_path s3_output_path other_trials_s3_input_paths
    rule_parameters collections_to_save h d :
  store_wf h →
  contents h rule_parameters = Some d →
  let exactly_one :=
    xorb (scalar_truthy source) (scalar_truthy rule_to_invoke) in
  let paths := default [] other_trials_s3_input_paths in
  let call :=
    Rule.custom name image_uri instance_type volume_size_in_gb source
      rule_to_invoke container_local_output_path s3_output_path
      other_trials_s3_input_paths rule_parameters collections_to_save h in
  (∀ l' d', h !! l' = Some d' → call.2 !! l' = Some d') ∧
  (exactly_one = true → call.1 = Raise ValueError) ∧
  (exactly_one = false →
   ∃ l merged,
     call.1 =
       Ok {| Rule.name := name;
             Rule.image_uri := image_uri;
             Rule.instance_type := instance_type;
             Rule.container_local_output_path := container_local_output_path;
             Rule.s3_output_path := s3_output_path;
             Rule.volume_size_in_gb := volume_size_in_gb;
             Rule.rule_parameters := Some l;
             Rule.collection_configs :=
               Rule.collections_or collections_to_save [] |} ∧
     h !! l = None ∧ call.2 !! l = Some merged ∧
     (∀ k v, Dict.get k d = Some v → Dict.get k merged = Some v) ∧
     (Dict.get "rule_to_invoke" d = None →
      scalar_truthy rule_to_invoke = true →
      Dict.get "rule_to_invoke" merged = Some rule_to_invoke) ∧
     (Dict.get "source_s3_uri" d = None →
      scalar_truthy source = true →
      Dict.get "source_s3_uri" merged = Some source) ∧
     (∀ i p, paths !! i = Some p →
             Dict.get (other_trial_key i) d = None →
             Dict.get (other_trial_key i) merged = Some p) ∧
     (∀ k, is_Some (Dict.get k merged) →
           is_Some (Dict.get k d) ∨
           (k = "rule_to_invoke" ∧ rule_to_invoke ≠ SNone) ∨
           (k = "source_s3_uri" ∧ source ≠ SNone) ∨
           ∃ i, k = other_trial_key i ∧ i < length paths)).
Proof.
  intros Hwf Hd exactly_one paths call.
  pose proof (rule_set_rule_parameters_run source rule_to_invoke
                other_trials_s3_input_paths rule_parameters h d Hd) as Hrun.
  simpl in Hrun. fold exactly_one paths in Hrun.
  unfold call, Rule.custom. unfold mbind, M_bind.
  destruct exactly_one.
  - rewrite Hrun. simpl. split_and!; [|done..].
    intros l' d' Hl'. rewrite lookup_insert_ne; [done|].
    symmetry. by apply (fresh_ne h l' d').
  - destruct Hrun as (d1 & d2 & shared & -> & Hne & Hshared & S1 & N1 & T1 & S2 & N2 & T2).
    simpl. split_and!; [|done|].
    + intros l' d' Hl'. rewrite !lookup_insert_ne; [done|..].
      * intros <-. by rewrite Hshared in Hl'.
      * symmetry. by apply (fresh_ne h l' d').
    + intros _. eexists _, _. split_and!; [done|apply fresh_None|apply lookup_insert_eq|..].
      all: pose proof (contents_wf _ _ _ Hwf Hd) as Hdwf.
      all: assert (Dict.wf (Dict.update (Dict.update (Dict.update [] d1) d2) d))
             as Hmwf by (do 3 apply wf_update; apply NoDup_nil_2).
      * intros k v Hk. by rewrite get_update, (shared_merge_get d d1 d2 source rule_to_invoke), Hk.
      * intros Hk Ht.
        rewrite get_update, (shared_merge_get d d1 d2 source rule_to_invoke), Hk,
          (T2 Ht) by done.
        reflexivity.
      * intros Hk Ht.
        rewrite get_update, (shared_merge_get d d1 d2 source rule_to_invoke), Hk,
          (T1 Ht) by done.
        destruct S2 as [-> | ->]; reflexivity.
      * intros i p Hi Hk.
        rewrite get_update, (shared_merge_get d d1 d2 source rule_to_invoke), Hk
          by done.
        destruct (other_trial_key_not_reserved i) as [Hr Hs].
        assert (Dict.get (other_trial_key i) d2 = None) as ->.
        { destruct S2 as [-> | ->]; [done|].
          unfold Dict.get. by destruct (decide _). }
        assert (Dict.get (other_trial_key i) d1 = None) as ->.
        { destruct S1 as [-> | ->]; [done|].
          unfold Dict.get. by destruct (decide _). }
        by apply get_other_trials_Some.
      * intros k. rewrite get_update, (shared_merge_get d d1 d2 source rule_to_invoke) by done.
        destruct (Dict.get k d); [by left|].
        assert (source = SNone → d1 ≠ [("source_s3_uri", source)]) as N1'.
        { intros Hs. by rewrite N1. }
        assert (rule_to_invoke = SNone → d2 ≠ [("rule_to_invoke", rule_to_invoke)])
          as N2'.
        { intros Hs. by rewrite N2. }
        destruct (Dict.get k d2) as [v2|] eqn:Hk2.
        { intros _. right; left. destruct S2 as [-> | ->]; [done|].
          simpl in Hk2. case_decide; [|done]. split; [done|]. intros Hs.
          by apply N2'. }
        destruct (Dict.get k d1) as [v1|] eqn:Hk1.
        { intros _. right; right; left. destruct S1 as [-> | ->]; [done|].
          simpl in Hk1. case_decide; [|done]. split; [done|]. intros Hs.
          by apply N1'. }
        intros Hk. right; right; right. by apply get_other_trials_is_Some.
Qed.

Lemma rule_custom_parameters_witness :
  let h : store := {[ 1%positive := [("threshold", SInt 5)] ]} in
  ∃ rule h' l merged,
    @Rule.custom utils_not_None (SStr "my-rule") (SStr "image") (SStr "ml.c4.xlarge")
      (SInt 10) (SStr "s3://bucket/rules.py") (SStr "MyRule") SNone SNone
      (Some [SStr "p0"]) (Some 1%positive) None h = (Ok rule, h') ∧
    Rule.rule_parameters rule = Some l ∧ h' !! l = Some merged ∧
    h' !! 1%positive = Some [("threshold", SInt 5)] ∧
    Dict.get "threshold" merged = Some (SInt 5) ∧
    Dict.get "rule_to_invoke" merged = Some (SStr "MyRule") ∧
    Dict.get "source_s3_uri" merged = Some (SStr "s3://bucket/rules.py") ∧
    Dict.get "other_trial_0" merged = Some (SStr "p0").
Proof.
  intros h.
  assert (store_wf h) as Hwf.
  { intros l d [_ <-]%lookup_singleton_Some.
    unfold Dict.wf. apply (bool_decide_unpack _). reflexivity. }
  destruct (@rule_custom_parameters utils_not_None (SStr "my-rule") (SStr "image")
              (SStr "ml.c4.xlarge") (SInt 10) (SStr "s3://bucket/rules.py")
              (SStr "MyRule") SNone SNone (Some [SStr "p0"]) (Some 1%positive) None
              h [("threshold", SInt 5)] Hwf eq_refl)
    as (Hframe & _ & Hok).
  destruct (Hok eq_refl) as (l & merged & Hcall & _ & Hm & Hd & Hr & Hs & Ht & _).
  destruct (Rule.custom _ _ _ _ _ _ _ _ _ _ _ h) as [r h'] eqn:Hrun.
  simpl in *. subst r.
  eexists _, h', l, merged. split_and!; [done|done|done|by apply Hframe|..].
  - by apply Hd.
  - by apply Hr.
  - by apply Hs.
  - by apply (Ht 0).
Defined.

(** ** [Rule.sagemaker]: the rule it returns *)

Lemma base_collections_spec configs h :
  ∃ collections h',
    comprehension base_collection configs h = (Ok collections, h') ∧
    (∀ l d, h !! l = Some d → h' !! l = Some d) ∧
    Forall2 (collection_from h h') configs collections.
Proof.
  revert h. induction configs as [|config configs IH]; intros h; simpl.
  - exists [], h. split_and!; [done..|constructor].
  - unfold mbind, M_bind, base_collection at 1, new_dict. simpl.
    set (l := fresh (dom h)).
    destruct (IH (<[l := []]> h)) as (cs & h' & -> & Hframe & Hall).
    assert (∀ l' d, h !! l' = Some d → <[l := []]> h !! l' = Some d) as Hstep.
    { intros l' d Hl'. rewrite lookup_insert_ne; [done|].
      symmetry. by apply (fresh_ne h l' d). }
    eexists _, _. split_and!; [done|by auto|].
    constructor.
    + split; [done|]. simpl.
      destruct (BaseConfig.CollectionParameters config); [done|].
      exists l. split_and!; [done|apply fresh_None|].
      apply Hframe, lookup_insert_eq.
    + eapply Forall2_impl; [exact Hall|].
      intros config' c [Hname Hparams]. split; [done|].
      destruct (BaseConfig.CollectionParameters config'); [done|].
      destruct Hparams as (l' & Hc & Hnew & Hempty). exists l'. split_and!; [done| |done].
      destruct (h !! l') as [d|] eqn:Hl'; [|done].
      by rewrite (Hstep _ _ Hl') in Hnew.
Qed.

Lemma sagemaker_success base_config name container_local_output_path s3_output_path
    other_trials_s3_input_paths rule_parameters collections_to_save h user
    rule_configuration defaults :
  contents h rule_parameters = Some user →
  given_rule_to_invoke user = SNone →
  BaseConfig.DebugRuleConfiguration base_config = Some rule_configuration →
  contents h (BaseConfig.RuleParameters rule_configuration) = Some defaults →
  ∃ collections h',
    Rule.sagemaker base_config name container_local_output_path s3_output_path
      other_trials_s3_input_paths rule_parameters collections_to_save h =
      (Ok {| Rule.name :=
               scalar_or name
                 (default SNone
                    (BaseConfig.RuleConfigurationName rule_configuration));
             Rule.image_uri := SStr "DEFAULT_RULE_EVALUATOR_IMAGE";
             Rule.instance_type := SNone;
             Rule.container_local_output_path := container_local_output_path;
             Rule.s3_output_path := s3_output_path;
             Rule.volume_size_in_gb := SNone;
             Rule.rule_parameters := Some (fresh (dom h));
             Rule.collection_configs :=
               Rule.collections_or collections_to_save collections |}, h') ∧
    (∀ l d, h !! l = Some d → h' !! l = Some d) ∧
    Forall2 (collection_from h h')
      (default [] (BaseConfig.CollectionConfigurations base_config)) collections.
Proof.
  intros Huser Hnone Hrc Hdef. set (l := fresh (dom h)).
  unfold Rule.sagemaker.
  unfold mbind at 1. unfold M_bind at 1. unfold new_dict at 1. fold l.
  set (h1 := <[l := []]> h).
  pose proof (contents_insert_fresh h _ _ [] Huser) as Huser1. fold l h1 in Huser1.
  assert ((match rule_parameters with
           | Some lp => d ← items lp; mret (given_rule_to_invoke d)
           | None => mret SNone
           end : M scalar) h1 = (Ok SNone, h1)) as Hgiven.
  { destruct rule_parameters as [lp|]; simpl in *; [|done].
    unfold mbind, M_bind, items. by rewrite Huser1, Hnone. }
  unfold mbind at 1. unfold M_bind at 1. rewrite Hgiven.
  rewrite bool_decide_eq_true_2 by done.
  change (negb true) with false. cbv beta iota.
  unfold mbind at 1. unfold M_bind at 1.
  rewrite (set_other_trials_run h1 l []) by apply lookup_insert_eq.
  set (trials := with_other_trials [] _).
  set (h2 := <[l := trials]> h1).
  assert (∀ r d, contents h r = Some d → contents h2 r = Some d) as Hframe2.
  { intros r' d Hr. unfold h2, h1. rewrite insert_insert_eq.
    by apply contents_insert_fresh. }
  rewrite Hrc.
  unfold mbind at 1. unfold M_bind at 1.
  rewrite (items_or_empty_run h2 _ defaults) by auto.
  unfold mbind at 1. unfold M_bind at 1.
  rewrite (update_run h2 l trials) by apply lookup_insert_eq.
  set (h3 := <[l := Dict.update trials defaults]> h2).
  assert (contents h3 rule_parameters = Some user) as Huser3.
  { unfold h3, h2, h1. rewrite !insert_insert_eq. by apply contents_insert_fresh. }
  unfold mbind at 1. unfold M_bind at 1.
  rewrite (items_or_empty_run h3 _ user) by done.
  unfold mbind at 1. unfold M_bind at 1.
  rewrite (update_run h3 l (Dict.update trials defaults)) by apply lookup_insert_eq.
  set (h4 := <[l := Dict.update (Dict.update trials defaults) user]> h3).
  unfold mbind at 1. unfold M_bind at 1.
  destruct (base_collections_spec
              (default [] (BaseConfig.CollectionConfigurations base_config)) h4)
    as (collections & h' & Hrun & Hframe & Hall).
  rewrite Hrun. exists collections, h'.
  assert (∀ l' d, h !! l' = Some d → h4 !! l' = Some d) as Hframe4.
  { intros l' d Hl'. unfold h4, h3, h2, h1.
    rewrite !insert_insert_eq. rewrite lookup_insert_ne; [done|].
    symmetry. by apply (fresh_ne h l' d). }
  split_and!; [done|by auto|].
  eapply Forall2_impl; [exact Hall|].
  intros config c [Hname Hparams]. split; [done|].
  destruct (BaseConfig.CollectionParameters config); [done|].
  destruct Hparams as (l' & Hc & Hnew & Hempty). exists l'. split_and!; [done| |done].
  destruct (h !! l') as [d|] eqn:Hl'; [|done].
  by rewrite (Hframe4 _ _ Hl') in Hnew.
Qed.

(** X2: a call to [Rule.sagemaker] that passes the conflict check on a base
    configuration with a [DebugRuleConfiguration] returns a rule named by the
    [name] argument, or by [RuleConfigurationName] ([None] if there is none)
    when [name] is absent or empty; its image is the default evaluator
    image, its instance type and volume size are [None], the two output
    paths are the arguments.  Its collections are [collections_to_save] when
    that is a non-empty list, and else one [CollectionConfig] per entry of
    [CollectionConfigurations], in order.  No dictionary of the store is
    changed. *)
Theorem sagemaker_rule_fields
    base_config name container_local_output_path s3_output_path
    other_trials_s3_input_paths rule_parameters collections_to_save h user
    rule_configuration defaults :
  contents h rule_parameters = Some user →
  default SNone (Dict.get "rule_to_invoke" user) = SNone →
  BaseConfig.DebugRuleConfiguration base_config = Some rule_configuration →
  contents h (BaseConfig.RuleParameters rule_configuration) = Some defaults →
  ∃ rule h',
    Rule.sagemaker base_config name container_local_output_path s3_output_path
      other_trials_s3_input_paths rule_parameters collections_to_save h =
      (Ok rule, h') ∧
    Rule.name rule =
      (if scalar_truthy name then name
       else default SNone (BaseConfig.RuleConfigurationName rule_configuration)) ∧
    Rule.image_uri rule = SStr "DEFAULT_RULE_EVALUATOR_IMAGE" ∧
    Rule.instance_type rule = SNone ∧
    Rule.volume_size_in_gb rule = SNone ∧
    Rule.container_local_output_path rule = container_local_output_path ∧
    Rule.s3_output_path rule = s3_output_path ∧
    match collections_to_save with
    | Some (c :: cs) => Rule.collection_configs rule = c :: cs
    | Some [] | None =>
        Forall2 (collection_from h h')
          (default [] (BaseConfig.CollectionConfigurations base_config))
          (Rule.collection_configs rule)
    end ∧
    (∀ l d, h !! l = Some d → h' !! l = Some d).
Proof.
  intros Huser Hnone Hrc Hdef.
  destruct (sagemaker_success base_config name container_local_output_path
              s3_output_path other_trials_s3_input_paths rule_parameters
              collections_to_save h user rule_configuration defaults
              Huser Hnone Hrc Hdef) as (collections & h' & Hrun & Hframe & Hall).
  eexists _, h'. split; [exact Hrun|]. simpl.
  split_and!; try done.
  by destruct collections_to_save as [[|c cs]|].
Qed.

Lemma sagemaker_rule_fields_witness :
  let h : store := {[ 1%positive := [("save_interval", SStr "10")] ]} in
  let base_config :=
    {| BaseConfig.DebugRuleConfiguration :=
         Some {| BaseConfig.RuleConfigurationName := Some (SStr "DeadRelu");
                 BaseConfig.RuleParameters := None |};
       BaseConfig.CollectionConfigurations :=
         Some [ {| BaseConfig.CollectionName := Some (SStr "relu_output");
                   BaseConfig.CollectionParameters := Some 1%positive |};
                {| BaseConfig.CollectionName := None;
                   BaseConfig.CollectionParameters := None |} ] |} in
  ∃ rule h' c1 c2,
    Rule.sagemaker base_config (SStr "") SNone SNone None None (Some []) h =
      (Ok rule, h') ∧
    Rule.name rule = SStr "DeadRelu" ∧
    Rule.collection_configs rule = [c1; c2] ∧
    CollectionConfig.name c1 = SStr "relu_output" ∧
    CollectionConfig.parameters c1 = Some 1%positive ∧
    CollectionConfig.name c2 = SNone.
Proof.
  intros h base_config.
  destruct (sagemaker_rule_fields base_config (SStr "") SNone SNone None None (Some [])
              h [] _ [] eq_refl eq_refl eq_refl eq_refl)
    as (rule & h' & Hrun & Hname & _ & _ & _ & _ & _ & Hcs & _).
  simpl in Hcs.
  apply Forall2_cons_inv_l in Hcs as (c1 & cs & [Hn1 Hp1] & Hcs & Hrule).
  apply Forall2_cons_inv_l in Hcs as (c2 & cs' & [Hn2 _] & ->%Forall2_nil_inv_l & ->).
  exists rule, h', c1, c2. by split_and!.
Defined.

(** X3: for allocated arguments, [Rule.sagemaker] raises [KeyError] exactly
    when the base configuration has no [DebugRuleConfiguration] and the
    conflict check passes: the conflict check comes first, so a conflicting
    [rule_to_invoke] is reported as [RuntimeError] even then. *)
Theorem sagemaker_missing_rule_configuration
    base_config name container_local_output_path s3_output_path
    other_trials_s3_input_paths rule_parameters collections_to_save h user :
  contents h rule_parameters = Some user →
  (∀ rule_configuration,
     BaseConfig.DebugRuleConfiguration base_config = Some rule_configuration →
     is_Some (contents h (BaseConfig.RuleParameters rule_configuration))) →
  let call :=
    Rule.sagemaker base_config name container_local_output_path s3_output_path
      other_trials_s3_input_paths rule_parameters collections_to_save h in
  (call.1 = Raise KeyError ↔
   BaseConfig.DebugRuleConfiguration base_config = None ∧
   default SNone (Dict.get "rule_to_invoke" user) = SNone) ∧
  (BaseConfig.DebugRuleConfiguration base_config = None →
   default SNone (Dict.get "rule_to_invoke" user) ≠ SNone →
   call.1 = Raise RuntimeError).
Proof.
  intros Huser Hbase call.
  pose proof (sagemaker_cases base_config name container_local_output_path
                s3_output_path other_trials_s3_input_paths rule_parameters
                collections_to_save h user Huser) as Hcases.
  simpl in Hcases. fold call in Hcases. unfold given_rule_to_invoke in Hcases.
  destruct (decide _) as [Hnone|Hsome].
  - split; [|done].
    destruct (BaseConfig.DebugRuleConfiguration base_config) as [rc|] eqn:Hrc.
    + destruct (Hbase rc eq_refl) as [defaults Hdef].
      destruct (Hcases defaults Hdef) as (rule & Hok & _).
      rewrite Hok. split; [done|]. by intros [? _].
    + by rewrite Hcases.
  - rewrite Hcases. split; [|done]. split; [done|]. by intros [_ ?].
Qed.

Lemma sagemaker_missing_rule_configuration_witness :
  let base_config :=
    {| BaseConfig.DebugRuleConfiguration := None;
       BaseConfig.CollectionConfigurations := None |} in
  let h : store := {[ 1%positive := [("rule_to_invoke", SStr "x")] ]} in
  (Rule.sagemaker base_config SNone SNone SNone None None None h).1 =
    Raise KeyError ∧
  (Rule.sagemaker base_config SNone SNone SNone None (Some 1%positive) None h).1 =
    Raise RuntimeError.
Proof.
  intros base_config h. split.
  - apply (sagemaker_missing_rule_configuration base_config SNone SNone SNone
             None None None h [] eq_refl); [by intros rc [=]|done].
  - apply (sagemaker_missing_rule_configuration base_config SNone SNone SNone
             None (Some 1%positive) None h [("rule_to_invoke", SStr "x")] eq_refl);
      [by intros rc [=]|done|done].
Defined.

(** ** The rule serializers: which keys a request has *)

Lemma build_dict_cases `{!Utils} h key v :
  ∃ d, build_dict h key v = d ∧
       (d = [] ∨ d = [(key, v)]) ∧
       (v = VNone → d ≠ [(key, v)]) ∧
       (truthy h v = true → d ≠ []).
Proof.
  exists (build_dict h key v). split_and!; [done|apply build_dict_shape|..].
  - intros ->. by rewrite build_dict_None.
  - intros Ht. by rewrite build_dict_truthy.
Qed.


Lemma get_update_optional {A} k key (v : A) acc d :
  d = [] ∨ d = [(key, v)] → k ≠ key →
  Dict.get k (Dict.update acc d) = Dict.get k acc.
Proof. intros [-> | ->] Hk; [done|]. by apply get_set_ne. Qed.

Lemma get_update_optional_eq {A} key (v : A) acc d :
  d = [] ∨ d = [(key, v)] →
  Dict.get key (Dict.update acc d) =
    match d with [] => Dict.get key acc | _ => Some v end.
Proof. intros [-> | ->]; [done|]. apply get_set_eq. Qed.

Lemma get_update_optional_is_Some {A} k key (v : A) acc d :
  d = [] ∨ d = [(key, v)] →
  is_Some (Dict.get k (Dict.update acc d)) → k = key ∨ is_Some (Dict.get k acc).
Proof.
  intros Hd Hk. destruct (decide (k = key)) as [|Hne]; [by left|right].
  by rewrite (get_update_optional k key v acc d Hd Hne) in Hk.
Qed.

(** Look a key up through the optional updates of a request. *)
Ltac through_updates :=
  repeat match goal with
         | S : ?d = [] ∨ ?d = [(?key, ?v)]
           |- context [Dict.get ?k (Dict.update ?acc ?d)] =>
             first [ rewrite (get_update_optional k key v acc d S) by discriminate
                   | rewrite (get_update_optional_eq key v acc d S) ]
         end.

(** A string literal is in a list of literals. *)
Ltac here := clear; rewrite !elem_of_cons; repeat first [by left | right].

(** The three facts about one optional key. *)
Ltac optional_entry_of S N T :=
  unfold optional_entry; rewrite ?get_set_ne by discriminate; through_updates;
  destruct S as [-> | ->]; simpl;
  (split_and!;
   [ first [done | by intros ?%N]
   | first [done | by intros ?%T]
   | first [done | by intros ? [= <-]] ]).

(** X4: the request of [to_debugger_rule_config_dict] always has
    [RuleConfigurationName] and [RuleEvaluatorImage], with the name and the
    image of the rule; each of [InstanceType], [VolumeSizeInGB], [LocalPath],
    [S3OutputPath] and [RuleParameters] is missing when its attribute is
    [None], holds the attribute when that is true, and never holds anything
    else; there is no other key, and no dictionary of the store is changed. *)
Theorem debugger_rule_request_keys `{!Utils} (self : Rule.t) h :
  ∃ request,
    Rule.to_debugger_rule_config_dict self h = (Ok request, h) ∧
    Dict.get "RuleConfigurationName" request = Some (VScalar (Rule.name self)) ∧
    Dict.get "RuleEvaluatorImage" request = Some (VScalar (Rule.image_uri self)) ∧
    optional_entry h request "InstanceType" (VScalar (Rule.instance_type self)) ∧
    optional_entry h request "VolumeSizeInGB"
      (VScalar (Rule.volume_size_in_gb self)) ∧
    optional_entry h request "LocalPath"
      (VScalar (Rule.container_local_output_path self)) ∧
    optional_entry h request "S3OutputPath" (VScalar (Rule.s3_output_path self)) ∧
    optional_entry h request "RuleParameters"
      (ref_value (Rule.rule_parameters self)) ∧
    (∀ k, is_Some (Dict.get k request) →
          k ∈ ["RuleConfigurationName"; "RuleEvaluatorImage"; "InstanceType";
               "VolumeSizeInGB"; "LocalPath"; "S3OutputPath"; "RuleParameters"]).
Proof.
  unfold Rule.to_debugger_rule_config_dict.
  unfold mbind, M_bind, call_build_dict, mret, M_ret.
  eexists. split; [done|].
  destruct (build_dict_cases h "InstanceType" (VScalar (Rule.instance_type self)))
    as (d1 & -> & S1 & N1 & T1).
  destruct (build_dict_cases h "VolumeSizeInGB"
              (VScalar (Rule.volume_size_in_gb self))) as (d2 & -> & S2 & N2 & T2).
  destruct (build_dict_cases h "LocalPath"
              (VScalar (Rule.container_local_output_path self)))
    as (d3 & -> & S3 & N3 & T3).
  destruct (build_dict_cases h "S3OutputPath" (VScalar (Rule.s3_output_path self)))
    as (d4 & -> & S4 & N4 & T4).
  destruct (build_dict_cases h "RuleParameters"
              (ref_value (Rule.rule_parameters self))) as (d5 & -> & S5 & N5 & T5).
  split_and!.
  - by through_updates.
  - by through_updates.
  - optional_entry_of S1 N1 T1.
  - optional_entry_of S2 N2 T2.
  - optional_entry_of S3 N3 T3.
  - optional_entry_of S4 N4 T4.
  - optional_entry_of S5 N5 T5.
  - intros k Hk.
    apply (get_update_optional_is_Some _ _ _ _ _ S5) in Hk as [->|Hk]; [here|].
    apply (get_update_optional_is_Some _ _ _ _ _ S4) in Hk as [->|Hk]; [here|].
    apply (get_update_optional_is_Some _ _ _ _ _ S3) in Hk as [->|Hk]; [here|].
    apply (get_update_optional_is_Some _ _ _ _ _ S2) in Hk as [->|Hk]; [here|].
    apply (get_update_optional_is_Some _ _ _ _ _ S1) in Hk as [->|Hk]; [here|].
    apply get_is_Some in Hk. clear -Hk. set_solver.
Qed.

(** ** [ProfilerRule.to_profiler_rule_config_dict] *)

Lemma stringified_keys d : Dict.keys (stringified d) = Dict.keys d.
Proof.
  unfold stringified, Dict.keys. rewrite <-list_fmap_compose.
  by apply list_fmap_ext.
Qed.

Lemma stringified_wf d : Dict.wf d → Dict.wf (stringified d).
Proof. unfold Dict.wf. by rewrite stringified_keys. Qed.

Lemma stringified_idemp d : stringified (stringified d) = stringified d.
Proof.
  unfold stringified. rewrite <-list_fmap_compose.
  by apply list_fmap_ext.
Qed.

(** The run of the profiler serializer on an allocated rule: the request
    before the [RuleParameters] key, and the store it leaves. *)
Lemma to_profiler_rule_config_dict_cases `{!Utils} (self : ProfilerRule.t) h d :
  contents h (ProfilerRule.rule_parameters self) = Some d → Dict.wf d →
  ∃ d1 d2 d3 d4,
    let request :=
      Dict.update (Dict.update (Dict.update (Dict.update
        [("RuleConfigurationName", VScalar (ProfilerRule.name self));
         ("RuleEvaluatorImage", VScalar (ProfilerRule.image_uri self))]
        d1) d2) d3) d4 in
    d1 = build_dict h "InstanceType" (VScalar (ProfilerRule.instance_type self)) ∧
    d2 = build_dict h "VolumeSizeInGB"
           (VScalar (ProfilerRule.volume_size_in_gb self)) ∧
    d3 = build_dict h "LocalPath"
           (VScalar (ProfilerRule.container_local_output_path self)) ∧
    d4 = build_dict h "S3OutputPath" (VScalar (ProfilerRule.s3_output_path self)) ∧
    ProfilerRule.to_profiler_rule_config_dict self h =
      match ProfilerRule.rule_parameters self, d with
      | Some l, _ :: _ =>
          (Ok (Dict.set "RuleParameters" (VRef l) request),
           <[l := stringified d]> h)
      | _, _ => (Ok request, h)
      end.
Proof.
  intros Hd Hwf. eexists _, _, _, _. split_and!; [reflexivity..|].
  unfold ProfilerRule.to_profiler_rule_config_dict.
  unfold mbind, M_bind, call_build_dict, get_store.
  destruct (ProfilerRule.rule_parameters self) as [l|]; simpl in *; [|done].
  rewrite Hd. destruct d as [|kv d]; [done|].
  by rewrite (stringify_values_run h l (kv :: d)).
Qed.

(** X5: for a [ProfilerRule] whose [rule_parameters] is [None] or an
    allocated dictionary [d], [to_profiler_rule_config_dict] returns a request
    with the name and the image of the rule and the four optional keys as the
    debugger serializer has them; the request has [RuleParameters] exactly
    when [d] is not empty, and then it is the rule's own dictionary; after
    the call that dictionary holds the string renderings of its values, and
    every other dictionary of the store is as before. *)
Theorem profiler_rule_request_keys `{!Utils} (self : ProfilerRule.t) h d :
  contents h (ProfilerRule.rule_parameters self) = Some d → Dict.wf d →
  ∃ request h',
    ProfilerRule.to_profiler_rule_config_dict self h = (Ok request, h') ∧
    Dict.get "RuleConfigurationName" request =
      Some (VScalar (ProfilerRule.name self)) ∧
    Dict.get "RuleEvaluatorImage" request =
      Some (VScalar (ProfilerRule.image_uri self)) ∧
    optional_entry h request "InstanceType"
      (VScalar (ProfilerRule.instance_type self)) ∧
    optional_entry h request "VolumeSizeInGB"
      (VScalar (ProfilerRule.volume_size_in_gb self)) ∧
    optional_entry h request "LocalPath"
      (VScalar (ProfilerRule.container_local_output_path self)) ∧
    optional_entry h request "S3OutputPath"
      (VScalar (ProfilerRule.s3_output_path self)) ∧
    (d = [] → Dict.get "RuleParameters" request = None) ∧
    (d ≠ [] →
     Dict.get "RuleParameters" request =
       Some (ref_value (ProfilerRule.rule_parameters self))) ∧
    contents h' (ProfilerRule.rule_parameters self) = Some (stringified d) ∧
    (∀ l, ProfilerRule.rule_parameters self ≠ Some l → h' !! l = h !! l) ∧
    (∀ k, is_Some (Dict.get k request) →
          k ∈ ["RuleConfigurationName"; "RuleEvaluatorImage"; "InstanceType";
               "VolumeSizeInGB"; "LocalPath"; "S3OutputPath"; "RuleParameters"]).
Proof.
  intros Hd Hwf.
  destruct (to_profiler_rule_config_dict_cases self h d Hd Hwf)
    as (d1 & d2 & d3 & d4 & E1 & E2 & E3 & E4 & Hrun).
  rewrite Hrun. clear Hrun. subst d1 d2 d3 d4.
  destruct (build_dict_cases h "InstanceType"
              (VScalar (ProfilerRule.instance_type self)))
    as (d1 & -> & S1 & N1 & T1).
  destruct (build_dict_cases h "VolumeSizeInGB"
              (VScalar (ProfilerRule.volume_size_in_gb self)))
    as (d2 & -> & S2 & N2 & T2).
  destruct (build_dict_cases h "LocalPath"
              (VScalar (ProfilerRule.container_local_output_path self)))
    as (d3 & -> & S3 & N3 & T3).
  destruct (build_dict_cases h "S3OutputPath"
              (VScalar (ProfilerRule.s3_output_path self)))
    as (d4 & -> & S4 & N4 & T4).
  assert (∀ request,
            (request =
               Dict.update (Dict.update (Dict.update (Dict.update
                 [("RuleConfigurationName", VScalar (ProfilerRule.name self));
                  ("RuleEvaluatorImage", VScalar (ProfilerRule.image_uri self))]
                 d1) d2) d3) d4 ∨
             ∃ l, request =
               Dict.set "RuleParameters" (VRef l)
                 (Dict.update (Dict.update (Dict.update (Dict.update
                   [("RuleConfigurationName", VScalar (ProfilerRule.name self));
                    ("RuleEvaluatorImage", VScalar (ProfilerRule.image_uri self))]
                   d1) d2) d3) d4)) →
            ∀ k, is_Some (Dict.get k request) →
                 k ∈ ["RuleConfigurationName"; "RuleEvaluatorImage"; "InstanceType";
                      "VolumeSizeInGB"; "LocalPath"; "S3OutputPath";
                      "RuleParameters"]) as Hkeys.
  { intros request Hrequest k Hk.
    assert (k = "RuleParameters" ∨
            is_Some (Dict.get k
              (Dict.update (Dict.update (Dict.update (Dict.update
                 [("RuleConfigurationName", VScalar (ProfilerRule.name self));
                  ("RuleEvaluatorImage", VScalar (ProfilerRule.image_uri self))]
                 d1) d2) d3) d4))) as [->|Hk'].
    { destruct Hrequest as [->|[l ->]]; [by right|].
      destruct (decide (k = "RuleParameters")) as [|Hne]; [by left|right].
      by rewrite get_set_ne in Hk. }
    { here. }
    clear Hk Hrequest.
    apply (get_update_optional_is_Some _ _ _ _ _ S4) in Hk' as [->|Hk]; [here|].
    apply (get_update_optional_is_Some _ _ _ _ _ S3) in Hk as [->|Hk]; [here|].
    apply (get_update_optional_is_Some _ _ _ _ _ S2) in Hk as [->|Hk]; [here|].
    apply (get_update_optional_is_Some _ _ _ _ _ S1) in Hk as [->|Hk]; [here|].
    apply get_is_Some in Hk. clear -Hk. set_solver. }
  destruct (ProfilerRule.rule_parameters self) as [l|] eqn:Hrp, d as [|kv d];
    simpl in Hd; eexists _, _; (split; [reflexivity|]).
  all: split_and!.
  all: try (by (rewrite ?get_set_ne by discriminate; through_updates)).
  all: try (by apply Hkeys; eauto).
  all: try (by intros l' _).
  all: try (by intros l' Hl'; apply lookup_insert_ne; congruence).
  all: try (by simpl; rewrite ?lookup_insert_eq).
  all: try (by intros _; apply get_set_eq).
  all: match goal with
       | |- optional_entry _ _ "InstanceType" _ => optional_entry_of S1 N1 T1
       | |- optional_entry _ _ "VolumeSizeInGB" _ => optional_entry_of S2 N2 T2
       | |- optional_entry _ _ "LocalPath" _ => optional_entry_of S3 N3 T3
       | |- optional_entry _ _ "S3OutputPath" _ => optional_entry_of S4 N4 T4
       end.
Qed.

Lemma profiler_rule_request_keys_witness :
  let h : store := {[ 1%positive := [("cpu_threshold", SInt 90)] ]} in
  let self :=
    {| ProfilerRule.name := SStr "ProfilerReport";
       ProfilerRule.image_uri := SStr "DEFAULT_RULE_EVALUATOR_IMAGE";
       ProfilerRule.instance_type := SNone;
       ProfilerRule.container_local_output_path := SNone;
       ProfilerRule.s3_output_path := SStr "s3://bucket/out";
       ProfilerRule.volume_size_in_gb := SNone;
       ProfilerRule.rule_parameters := Some 1%positive |} in
  ∃ request h',
    @ProfilerRule.to_profiler_rule_config_dict utils_not_None self h =
      (Ok request, h') ∧
    Dict.get "InstanceType" request = None ∧
    Dict.get "S3OutputPath" request = Some (VScalar (SStr "s3://bucket/out")) ∧
    Dict.get "RuleParameters" request = Some (VRef 1%positive) ∧
    h' !! 1%positive = Some [("cpu_threshold", SStr "90")].
Proof.
  intros h self.
  destruct (@profiler_rule_request_keys utils_not_None self h
              [("cpu_threshold", SInt 90)] eq_refl)
    as (request & h' & Hrun & _ & _ & (Hi & _) & _ & _ & (_ & Hs & _) & _ & Hp & Hh' & _).
  { unfold Dict.wf. apply (bool_decide_unpack _). reflexivity. }
  exists request, h'. split_and!; [done|by apply Hi|by apply Hs|by apply Hp|done].
Defined.

(** X6: serializing a [ProfilerRule] a second time changes nothing more: the
    second call leaves the store as the first call left it, and its request
    has the same [RuleParameters] entry. *)
Theorem profiler_rule_request_twice `{!Utils} (self : ProfilerRule.t) h d :
  contents h (ProfilerRule.rule_parameters self) = Some d → Dict.wf d →
  ∃ request1 h1 request2,
    ProfilerRule.to_profiler_rule_config_dict self h = (Ok request1, h1) ∧
    ProfilerRule.to_profiler_rule_config_dict self h1 = (Ok request2, h1) ∧
    Dict.get "RuleParameters" request2 = Dict.get "RuleParameters" request1 ∧
    contents h1 (ProfilerRule.rule_parameters self) = Some (stringified d).
Proof.
  intros Hd Hwf.
  destruct (to_profiler_rule_config_dict_cases self h d Hd Hwf)
    as (d1 & d2 & d3 & d4 & _ & _ & _ & _ & Hrun1).
  destruct (ProfilerRule.rule_parameters self) as [l|] eqn:Hrp; simpl in Hd;
    [destruct d as [|kv d]|].
  - by eexists _, h, _.
  - set (h1 := <[l := stringified (kv :: d)]> h).
    destruct (to_profiler_rule_config_dict_cases self h1 (stringified (kv :: d)))
      as (? & ? & ? & ? & _ & _ & _ & _ & Hrun2).
    { rewrite Hrp. apply lookup_insert_eq. }
    { by apply stringified_wf. }
    rewrite Hrp in Hrun2. simpl in Hrun2.
    rewrite stringified_idemp in Hrun2. unfold h1 in Hrun2 at 2.
    rewrite insert_insert_eq in Hrun2. fold h1 in Hrun2.
    eexists _, h1, _. split; [exact Hrun1|]. split; [exact Hrun2|].
    split; [by rewrite !get_set_eq|]. apply lookup_insert_eq.
  - injection Hd as <-. by eexists _, h, _.
Qed.

Lemma profiler_rule_request_twice_witness :
  let h : store := {[ 1%positive := [("cpu_threshold", SInt 90)] ]} in
  let h1 : store := {[ 1%positive := [("cpu_threshold", SStr "90")] ]} in
  let self :=
    {| ProfilerRule.name := SStr "ProfilerReport";
       ProfilerRule.image_uri := SStr "DEFAULT_RULE_EVALUATOR_IMAGE";
       ProfilerRule.instance_type := SNone;
       ProfilerRule.container_local_output_path := SNone;
       ProfilerRule.s3_output_path := SNone;
       ProfilerRule.volume_size_in_gb := SNone;
       ProfilerRule.rule_parameters := Some 1%positive |} in
  ∃ request1 request2,
    @ProfilerRule.to_profiler_rule_config_dict utils_not_None self h =
      (Ok request1, h1) ∧
    @ProfilerRule.to_profiler_rule_config_dict utils_not_None self h1 =
      (Ok request2, h1) ∧
    Dict.get "RuleParameters" request2 = Dict.get "RuleParameters" request1.
Proof.
  intros h h1 self.
  destruct (@profiler_rule_request_twice utils_not_None self h
              [("cpu_threshold", SInt 90)] eq_refl)
    as (request1 & h1' & request2 & Hrun1 & Hrun2 & Hget & _).
  { unfold Dict.wf. apply (bool_decide_unpack _). reflexivity. }
  assert (h1' = h1) as -> by (by injection Hrun1 as _ <-).
  by exists request1, request2.
Defined.

(** ** [ProfilerRule.custom] *)

(** X7: [ProfilerRule.custom] copies the parameters it is given into a
    dictionary of its own, so serializing the rule it returns rewrites that
    copy only: when [source] and [rule_to_invoke] are both true or both not,
    the two calls succeed, every dictionary the store held before the calls
    is as it was, the given [rule_parameters] among them, and the rule's own
    dictionary ends with the string renderings of the merged parameters. *)
Theorem profiler_custom_serialized_copy `{!Utils}
    name image_uri instance_type volume_size_in_gb source rule_to_invoke
    container_local_output_path s3_output_path rule_parameters h user :
  store_wf h →
  contents h rule_parameters = Some user →
  xorb (scalar_truthy source) (scalar_truthy rule_to_invoke) = false →
  ∃ rule h1 request h2 l merged,
    ProfilerRule.custom name image_uri instance_type volume_size_in_gb source
      rule_to_invoke container_local_output_path s3_output_path rule_parameters h =
      (Ok rule, h1) ∧
    ProfilerRule.to_profiler_rule_config_dict rule h1 = (Ok request, h2) ∧
    ProfilerRule.rule_parameters rule = Some l ∧
    h !! l = None ∧
    h1 = <[l := merged]> h ∧
    h2 = <[l := stringified merged]> h ∧
    (∀ k v, Dict.get k user = Some v → Dict.get k merged = Some v) ∧
    contents h2 rule_parameters = Some user ∧
    (∀ l' d, h !! l' = Some d → h2 !! l' = Some d).
Proof.
  intros Hstore Huser Hx. unfold ProfilerRule.custom.
  destruct (set_rule_parameters_run source rule_to_invoke rule_parameters h user
              Hx Huser) as (d1 & d2 & Hrun & _).
  unfold mbind at 1. unfold M_bind at 1. rewrite Hrun.
  pose proof (fresh_None h) as Hnew.
  assert (∀ l' d, h !! l' = Some d → l' ≠ fresh (dom h)) as Hfresh.
  { intros l' d Hl'. by apply (fresh_ne h l' d). }
  assert (Dict.wf (Dict.update (Dict.update (Dict.update [] d1) d2) user)) as Hwf.
  { do 3 apply wf_update. apply NoDup_nil_2. }
  assert (∀ k v, Dict.get k user = Some v →
            Dict.get k (Dict.update (Dict.update (Dict.update [] d1) d2) user) =
              Some v) as Hkeys.
  { intros k v Hk. rewrite get_update by (by apply (contents_wf h rule_parameters)).
    by rewrite Hk. }
  revert Hnew Hfresh Hwf Hkeys.
  generalize (fresh (dom h)) (Dict.update (Dict.update (Dict.update [] d1) d2) user).
  intros l merged Hnew Hfresh Hwf Hkeys.
  unfold mret, M_ret.
  set (rule := ProfilerRule.Build_t _ _ _ _ _ _ _).
  destruct (to_profiler_rule_config_dict_cases rule (<[l := merged]> h) merged)
    as (? & ? & ? & ? & _ & _ & _ & _ & Hser); [apply lookup_insert_eq|done|].
  simpl in Hser.
  assert (∃ request,
            ProfilerRule.to_profiler_rule_config_dict rule (<[l := merged]> h) =
              (Ok request, <[l := stringified merged]> h)) as [request Hser'].
  { rewrite Hser. destruct merged; [by eexists|].
    rewrite insert_insert_eq. by eexists. }
  exists rule, (<[l := merged]> h), request, (<[l := stringified merged]> h),
    l, merged.
  split_and!; [done..|  |].
  - destruct rule_parameters as [l'|]; [|done]. simpl in *.
    rewrite lookup_insert_ne; [done|]. intros <-. by apply (Hfresh _ _ Huser).
  - intros l' d Hl'. rewrite lookup_insert_ne; [done|].
    intros <-. by apply (Hfresh _ _ Hl').
Qed.

Lemma profiler_custom_serialized_copy_witness :
  let h : store := {[ 1%positive := [("threshold", SInt 5)] ]} in
  ∃ rule h1 request h2,
    @ProfilerRule.custom utils_not_None (SStr "MyRule") (SStr "image")
      (SStr "ml.c4.xlarge") (SInt 10) SNone SNone SNone SNone (Some 1%positive) h =
      (Ok rule, h1) ∧
    @ProfilerRule.to_profiler_rule_config_dict utils_not_None rule h1 =
      (Ok request, h2) ∧
    ProfilerRule.rule_parameters rule = Some 2%positive ∧
    h2 !! 1%positive = Some [("threshold", SInt 5)] ∧
    h2 !! 2%positive = Some [("threshold", SStr "5")].
Proof.
  intros h.
  assert (store_wf h) as Hwf.
  { intros l d [_ <-]%lookup_singleton_Some.
    unfold Dict.wf. apply (bool_decide_unpack _). reflexivity. }
  destruct (@profiler_custom_serialized_copy utils_not_None (SStr "MyRule")
              (SStr "image") (SStr "ml.c4.xlarge") (SInt 10) SNone SNone SNone SNone
              (Some 1%positive) h [("threshold", SInt 5)] Hwf eq_refl eq_refl)
    as (rule & h1 & request & h2 & l & merged & Hcustom & Hser & Hrp & _ & _ & _
        & _ & Huser & _).
  exists rule, h1, request, h2. split_and!; [done|done| |done|].
  - by injection Hcustom as <- _.
  - injection Hcustom as <- <-. by injection Hser as _ <-.
Defined.

(** ** [CollectionConfig]: comparison *)

(** X8: [__ne__] answers the opposite of [__eq__]: on any operand and in any
    store it returns the negation of what [__eq__] returns and raises what
    [__eq__] raises, [TypeError] for an operand that is not a
    [CollectionConfig]; neither changes the store. *)
Theorem collection_config_ne_negates_eq
    (self : CollectionConfig.t) (other : CollectionConfig.operand) h :
  CollectionConfig.__ne__ self other h =
    (match (CollectionConfig.__eq__ self other h).1 with
     | Ok b => Ok (negb b)
     | Raise e => Raise e
     end, h) ∧
  (CollectionConfig.__eq__ self other h).2 = h ∧
  (is_Ok (CollectionConfig.__eq__ self other h).1 = false →
   (∃ v, other = CollectionConfig.Other v ∧
         (CollectionConfig.__eq__ self other h).1 = Raise TypeError) ∨
   (∃ c, other = CollectionConfig.Config c ∧
         (CollectionConfig.__eq__ self other h).1 = Raise DanglingRef)).
Proof.
  destruct other as [c|v]; simpl.
  - destruct (scalar_eqb _ _); simpl; [|by split_and!].
    unfold CollectionConfig.parameters_eqb.
    destruct (CollectionConfig.parameters self) as [l1|],
      (CollectionConfig.parameters c) as [l2|]; simpl; try by split_and!.
    destruct (h !! l1), (h !! l2); simpl; split_and!; try done;
      intros _; right; by eexists.
  - split_and!; [done..|]. intros _. left. by eexists.
Qed.

Lemma collection_config_ne_negates_eq_witness :
  let h : store := {[ 1%positive := [("save_interval", SStr "100")] ]} in
  let c := {| CollectionConfig.name := SStr "losses";
              CollectionConfig.parameters := Some 1%positive |} in
  let dangling := {| CollectionConfig.name := SStr "losses";
                     CollectionConfig.parameters := Some 2%positive |} in
  (CollectionConfig.__eq__ c (CollectionConfig.Config dangling) h).1 =
    Raise DanglingRef ∧
  (CollectionConfig.__eq__ c (CollectionConfig.Other (VScalar (SStr "losses"))) h).1 =
    Raise TypeError.
Proof.
  intros h c dangling. split.
  - destruct (collection_config_ne_negates_eq c (CollectionConfig.Config dangling) h)
      as (_ & _ & [(v & [=] & _)|(c' & _ & Hraise)]); [reflexivity|done].
  - destruct (collection_config_ne_negates_eq c
                (CollectionConfig.Other (VScalar (SStr "losses"))) h)
      as (_ & _ & [(v & _ & Hraise)|(c' & [=] & _)]); [reflexivity|done].
Defined.

Lemma scalar_eqb_sym x y : scalar_eqb x y = scalar_eqb y x.
Proof.
  destruct x as [|a|m|s], y as [|b|n|t]; simpl; try done.
  - by destruct a, b.
  - apply Z.eqb_sym.
  - apply String.eqb_sym.
Qed.

Lemma dict_eqb_keys {A} (veqb : A → A → bool) (d1 d2 : list (string * A)) :
  Dict.wf d1 → Dict.eqb veqb d1 d2 = true → Dict.keys d1 ≡ₚ Dict.keys d2.
Proof.
  intros Hwf [Hlen Hall]%andb_true_iff.
  apply Nat.eqb_eq in Hlen. rewrite forallb_forall in Hall.
  apply submseteq_length_Permutation.
  - apply NoDup_submseteq; [done|]. intros k Hk.
    apply get_is_Some in Hk as [v Hk]. apply get_Some_elem_of in Hk.
    apply list_elem_of_In, Hall in Hk. simpl in Hk.
    apply get_is_Some. by destruct (Dict.get k d2).
  - unfold Dict.keys. rewrite !length_fmap. lia.
Qed.

Lemma dict_eqb_sym_true (d1 d2 : list (string * scalar)) :
  Dict.wf d1 → Dict.wf d2 →
  Dict.eqb scalar_eqb d1 d2 = true → Dict.eqb scalar_eqb d2 d1 = true.
Proof.
  intros Hwf1 Hwf2 Heq.
  pose proof (dict_eqb_keys _ _ _ Hwf1 Heq) as Hkeys.
  apply andb_true_iff in Heq as [Hlen Hall].
  apply Nat.eqb_eq in Hlen. rewrite forallb_forall in Hall.
  unfold Dict.eqb. apply andb_true_intro. split; [by apply Nat.eqb_eq|].
  apply forallb_forall. intros [k v2] Hin%list_elem_of_In. simpl.
  assert (k ∈ Dict.keys d1) as Hk.
  { rewrite Hkeys. unfold Dict.keys. apply list_elem_of_fmap. by exists (k, v2). }
  apply get_is_Some in Hk as [v1 Hk]. rewrite Hk.
  pose proof (get_Some_elem_of _ _ _ Hk) as Hin1.
  apply list_elem_of_In, Hall in Hin1. simpl in Hin1.
  rewrite (elem_of_get k v2 d2) in Hin1 by done.
  by rewrite scalar_eqb_sym.
Qed.

Lemma dict_eqb_sym (d1 d2 : list (string * scalar)) :
  Dict.wf d1 → Dict.wf d2 →
  Dict.eqb scalar_eqb d1 d2 = Dict.eqb scalar_eqb d2 d1.
Proof.
  intros Hwf1 Hwf2.
  destruct (Dict.eqb scalar_eqb d1 d2) eqn:H12.
  - symmetry. by apply dict_eqb_sym_true.
  - destruct (Dict.eqb scalar_eqb d2 d1) eqn:H21; [|done].
    apply dict_eqb_sym_true in H21; [congruence|done..].
Qed.

(** X9: [CollectionConfig.__eq__] is symmetric: in a store of well-formed
    dictionaries, comparing [c1] with [c2] gives what comparing [c2] with
    [c1] gives, and so does [__ne__]. *)
Theorem collection_config_eq_sym h (c1 c2 : CollectionConfig.t) :
  store_wf h →
  CollectionConfig.__eq__ c1 (CollectionConfig.Config c2) h =
    CollectionConfig.__eq__ c2 (CollectionConfig.Config c1) h ∧
  CollectionConfig.__ne__ c1 (CollectionConfig.Config c2) h =
    CollectionConfig.__ne__ c2 (CollectionConfig.Config c1) h.
Proof.
  intros Hwf.
  assert (CollectionConfig.parameters_eqb h (CollectionConfig.parameters c1)
            (CollectionConfig.parameters c2) =
          CollectionConfig.parameters_eqb h (CollectionConfig.parameters c2)
            (CollectionConfig.parameters c1)) as Hparams.
  { unfold CollectionConfig.parameters_eqb.
    destruct (CollectionConfig.parameters c1) as [l1|],
      (CollectionConfig.parameters c2) as [l2|]; try done.
    destruct (h !! l1) as [d1|] eqn:Hl1, (h !! l2) as [d2|] eqn:Hl2; try done.
    f_equal. apply dict_eqb_sym; by eapply Hwf. }
  unfold CollectionConfig.__eq__, CollectionConfig.__ne__.
  rewrite (scalar_eqb_sym (CollectionConfig.name c2)).
  destruct (scalar_eqb _ _); simpl; [|done]. by rewrite Hparams.
Qed.

Lemma collection_config_eq_sym_witness :
  let h : store :=
    {[ 1%positive := [("a", SInt 1); ("b", SBool true)];
       2%positive := [("b", SInt 1); ("a", SBool true)] ]} in
  let c1 := {| CollectionConfig.name := SStr "losses";
               CollectionConfig.parameters := Some 1%positive |} in
  let c2 := {| CollectionConfig.name := SStr "losses";
               CollectionConfig.parameters := Some 2%positive |} in
  CollectionConfig.__eq__ c2 (CollectionConfig.Config c1) h = (Ok true, h).
Proof.
  intros h c1 c2.
  assert (store_wf h) as Hwf.
  { intros l d Hl. unfold Dict.wf. apply (bool_decide_unpack _).
    apply lookup_insert_Some in Hl as [[_ <-]|[_ [_ <-]%lookup_singleton_Some]];
      reflexivity. }
  destruct (collection_config_eq_sym h c1 c2 Hwf) as [<- _]. reflexivity.
Defined.

(** X10: the hash of a [CollectionConfig] reads [parameters or {}], its
    comparison reads [parameters]: a configuration without parameters and one
    of the same name with an empty dictionary have the same hash and are not
    equal. *)
Theorem collection_config_None_empty
    (hash : scalar * list (string * scalar) → Z) h (c1 c2 : CollectionConfig.t) l :
  CollectionConfig.name c1 = CollectionConfig.name c2 →
  CollectionConfig.parameters c1 = None →
  CollectionConfig.parameters c2 = Some l →
  h !! l = Some [] →
  CollectionConfig.__hash__ hash c1 h = CollectionConfig.__hash__ hash c2 h ∧
  CollectionConfig.__eq__ c1 (CollectionConfig.Config c2) h = (Ok false, h) ∧
  CollectionConfig.__eq__ c2 (CollectionConfig.Config c1) h = (Ok false, h) ∧
  CollectionConfig.__ne__ c1 (CollectionConfig.Config c2) h = (Ok true, h).
Proof.
  intros Hname Hp1 Hp2 Hl.
  unfold CollectionConfig.__hash__, CollectionConfig.__eq__, CollectionConfig.__ne__.
  rewrite Hname, Hp1, Hp2, scalar_eqb_refl. simpl.
  unfold mbind, M_bind, items, mret, M_ret. by rewrite Hl.
Qed.

Lemma collection_config_None_empty_witness :
  let h : store := {[ 1%positive := [] ]} in
  let c1 := {| CollectionConfig.name := SStr "losses";
               CollectionConfig.parameters := None |} in
  let c2 := {| CollectionConfig.name := SStr "losses";
               CollectionConfig.parameters := Some 1%positive |} in
  CollectionConfig.__hash__ (λ _, 0%Z) c1 h = CollectionConfig.__hash__ (λ _, 0%Z) c2 h ∧
  CollectionConfig.__eq__ c1 (CollectionConfig.Config c2) h = (Ok false, h).
Proof.
  intros h c1 c2.
  destruct (collection_config_None_empty (λ _, 0%Z) h c1 c2 1%positive
              eq_refl eq_refl eq_refl eq_refl) as (Hhash & Heq & _).
  by split.
Defined.

(** ** [DebuggerHookConfig._to_request_dict]: the values of the request *)

Lemma collection_requests_spec configs h :
  ∃ requests,
    comprehension CollectionConfig._to_request_dict configs h = (Ok requests, h) ∧
    Forall2 (λ c request,
               Dict.get "CollectionName" request =
                 Some (VScalar (CollectionConfig.name c)) ∧
               Dict.get "CollectionParameters" request =
                 VRef <$> CollectionConfig.parameters c ∧
               ∀ k, is_Some (Dict.get k request) →
                    k ∈ ["CollectionName"; "CollectionParameters"])
      configs requests.
Proof.
  induction configs as [|config configs (requests & IH & Hall)]; simpl.
  - exists []. by split.
  - unfold mbind, M_bind. unfold CollectionConfig._to_request_dict at 1.
    unfold mret at 1. unfold M_ret at 1. rewrite IH.
    eexists. split; [done|]. constructor; [|done].
    destruct (CollectionConfig.parameters config) as [l|]; simpl;
      (split_and!; [done..|]); intros k; repeat case_decide; subst;
      first [by intros [? [=]] | intros _; here].
Qed.

(** X11: what the request of a [DebuggerHookConfig] holds: the local path
    when there is one, the hook parameters as the object the configuration
    holds, not a copy, and under [CollectionConfigurations] one request for
    each collection configuration, in their order, with the name of the
    collection under [CollectionName], whatever it is, and its parameters,
    again the object itself, under [CollectionParameters] exactly when they
    are not [None]. *)
Theorem hook_request_values (self : DebuggerHookConfig.t) h :
  ∃ request,
    DebuggerHookConfig._to_request_dict self h = (Ok request, h) ∧
    (∀ v, Dict.get "LocalPath" request = Some v →
          v = VScalar (DebuggerHookConfig.container_local_output_path self)) ∧
    Dict.get "HookParameters" request =
      VRef <$> DebuggerHookConfig.hook_parameters self ∧
    match DebuggerHookConfig.collection_configs self with
    | None => Dict.get "CollectionConfigurations" request = None
    | Some configs =>
        ∃ requests,
          Dict.get "CollectionConfigurations" request =
            Some (VList (VDict <$> requests)) ∧
          Forall2 (λ c request,
                     Dict.get "CollectionName" request =
                       Some (VScalar (CollectionConfig.name c)) ∧
                     Dict.get "CollectionParameters" request =
                       VRef <$> CollectionConfig.parameters c ∧
                     ∀ k, is_Some (Dict.get k request) →
                          k ∈ ["CollectionName"; "CollectionParameters"])
            configs requests
    end.
Proof.
  destruct self as [s3 local hook configs].
  unfold DebuggerHookConfig._to_request_dict. simpl.
  destruct configs as [configs|].
  - destruct (collection_requests_spec configs h) as (requests & Hrun & Hall).
    unfold mbind, M_bind. rewrite Hrun. eexists. split; [done|].
    destruct (bool_decide_reflect (local = SNone)) as [->|Hlocal],
      hook as [l|]; simpl; (split_and!; [by intros v [=]|done|by exists requests]).
  - eexists. split; [done|].
    destruct (bool_decide_reflect (local = SNone)) as [->|Hlocal],
      hook as [l|]; simpl; (split_and!; [by intros v [=]|done..]).
Qed.

(** ** [ProfilerRule.sagemaker] *)

(** X12: [ProfilerRule.sagemaker] changes nothing in the store and returns a
    rule with the given name, or the name of the base configuration when the
    given one is not true, with no instance type and no volume size, and
    with the [rule_parameters] of the base configuration, the dictionary
    itself.  So serializing the rule rewrites the dictionary of the base
    configuration, and with it the parameters of every rule built from the
    same base configuration. *)
Theorem profiler_sagemaker_shares_base `{!Utils}
    (base_config : ProfilerRule.base) name container_local_output_path
    s3_output_path name' container_local_output_path' s3_output_path' h l d :
  ProfilerRule.base_rule_parameters base_config = Some l →
  h !! l = Some d → d ≠ [] → Dict.wf d →
  ∃ rule rule' request h',
    ProfilerRule.sagemaker base_config name container_local_output_path
      s3_output_path h = (Ok rule, h) ∧
    ProfilerRule.sagemaker base_config name' container_local_output_path'
      s3_output_path' h = (Ok rule', h) ∧
    ProfilerRule.name rule =
      (if scalar_truthy name then name else ProfilerRule.rule_name base_config) ∧
    ProfilerRule.instance_type rule = SNone ∧
    ProfilerRule.volume_size_in_gb rule = SNone ∧
    ProfilerRule.rule_parameters rule = Some l ∧
    ProfilerRule.rule_parameters rule' = Some l ∧
    ProfilerRule.to_profiler_rule_config_dict rule h = (Ok request, h') ∧
    contents h' (ProfilerRule.base_rule_parameters base_config) =
      Some (stringified d) ∧
    contents h' (ProfilerRule.rule_parameters rule') = Some (stringified d).
Proof.
  intros Hbase Hl Hne Hwf. unfold ProfilerRule.sagemaker, mret, M_ret.
  set (rule := ProfilerRule.Build_t _ _ _ _ _ _ _).
  destruct (to_profiler_rule_config_dict_run rule h l d)
    as (request & Hrun & _); [done..|].
  eexists rule, _, request, _. split_and!; [done..| |]; simpl.
  - rewrite Hbase. simpl. apply lookup_insert_eq.
  - rewrite Hbase. simpl. apply lookup_insert_eq.
Qed.

Lemma profiler_sagemaker_shares_base_witness :
  let h : store := {[ 1%positive := [("cpu_threshold", SInt 90)] ]} in
  let base_config :=
    {| ProfilerRule.rule_name := SStr "ProfilerReport";
       ProfilerRule.base_rule_parameters := Some 1%positive |} in
  ∃ rule rule' request h',
    ProfilerRule.sagemaker base_config SNone SNone SNone h = (Ok rule, h) ∧
    ProfilerRule.sagemaker base_config (SStr "Second") SNone SNone h =
      (Ok rule', h) ∧
    ProfilerRule.name rule = SStr "ProfilerReport" ∧
    @ProfilerRule.to_profiler_rule_config_dict utils_not_None rule h =
      (Ok request, h') ∧
    contents h' (ProfilerRule.rule_parameters rule') =
      Some [("cpu_threshold", SStr "90")].
Proof.
  intros h base_config.
  destruct (@profiler_sagemaker_shares_base utils_not_None base_config
              SNone SNone SNone (SStr "Second") SNone SNone h 1%positive
              [("cpu_threshold", SInt 90)] eq_refl eq_refl)
    as (rule & rule' & request & h' & Hrule & Hrule' & Hname & _ & _ & _ & _ &
        Hrun & _ & Hshared); [done| |].
  { unfold Dict.wf. apply (bool_decide_unpack _). reflexivity. }
  by exists rule, rule', request, h'.
Defined.

(** ** jumpstart/types.py *)

Import JumpStart.

Lemma eq_unfold `{!SetOrder} ne self other_cls other_attrs :
  __eq__ ne self (JObj other_cls other_attrs) =
    if negb (issubclass other_cls (cls self)) then Ok false
    else if slots_neb (__slots__ (cls self)) (__slots__ other_cls) then Ok false
    else eq_loop ne (attrs self) other_attrs (slot_names (__slots__ (cls self))).
Proof. done. Qed.

Lemma issubclass_refl c : issubclass c c = true.
Proof.
  destruct c; try done.
  cbn [issubclass]. by rewrite bool_decide_eq_true_2.
Qed.

(** A class is above a subclass of it in the chain of bases. *)
Lemma issubclass_depth c base :
  issubclass c base = true → c = base ∨ depth base < depth c.
Proof.
  induction c as [| | | | | | | |name c_base IH own_slots]; simpl;
    intros [Heq%bool_decide_eq_true|Hsub]%orb_prop; try (by left); try done;
    try (apply bool_decide_eq_true in Hsub as ->; right; simpl; lia).
  destruct (IH Hsub) as [->|Hlt]; right; lia.
Qed.

(** A class is no subclass of a proper subclass of it. *)
Lemma issubclass_proper c base :
  c ≠ base → issubclass c base = true → issubclass base c = false.
Proof.
  intros Hne Hsub. destruct (issubclass base c) eqn:Hsup; [|done].
  apply issubclass_depth in Hsub as [->|Hlt]; [done|].
  apply issubclass_depth in Hsup as [->|Hgt]; [done|lia].
Qed.


(** The loop of [__eq__] in [py_eq] is the loop of the definition. *)
Lemma py_eq_loop `{!SetOrder} c self_attrs other_cls other_attrs :
  py_eq (JObj c self_attrs) (JObj other_cls other_attrs) =
    if negb (bool_decide (other_cls = c)) && issubclass other_cls c then Ok false
    else __eq__ py_ne {| cls := c; attrs := self_attrs |}
           (JObj other_cls other_attrs).
Proof.
  rewrite eq_unfold. simpl.
  destruct (negb (bool_decide (other_cls = c)) && issubclass other_cls c); [done|].
  destruct (negb (issubclass other_cls c)); [done|].
  destruct (slots_neb (__slots__ c) (__slots__ other_cls)); [done|].
  induction (slot_names (__slots__ c)) as [|attribute names IH]; [done|].
  simpl. rewrite <-IH. clear IH.
  match goal with
  | |- mbind ?K (?find self_attrs) = _ =>
      assert (find self_attrs =
                (x ← getattr self_attrs attribute;
                 y ← getattr other_attrs attribute;
                 py_ne x y)) as ->
  end.
  { induction self_attrs as [|[k x] self_attrs IH]; [done|].
    rewrite IH. unfold getattr. simpl. case_decide; [|done]. simpl.
    by destruct (Dict.get attribute other_attrs). }
  destruct (getattr self_attrs attribute); simpl; [|done].
  destruct (getattr other_attrs attribute); simpl; [|done].
  done.
Qed.

(** The [==] of two instances is what Python finds from the [__eq__] of
    their classes. *)
Lemma py_eq_obj `{!SetOrder} (a b : instance) :
  py_eq (obj a) (obj b) = obj_eq (__eq__ py_ne) a b.
Proof.
  destruct a as [c self_attrs], b as [other_cls other_attrs].
  unfold obj_eq, obj. cbn [cls attrs]. rewrite py_eq_loop.
  destruct (bool_decide_reflect (other_cls = c)) as [->|Hne]; [done|].
  destruct (issubclass other_cls c) eqn:Hsub; [|done]. cbn [negb andb].
  rewrite eq_unfold. cbn [cls]. by rewrite (issubclass_proper other_cls c).
Qed.

(** Against a value that is no instance, [==] is the [__eq__] of the class. *)
Lemma py_eq_obj_other `{!SetOrder} c self_attrs other :
  (∀ other_cls other_attrs, other ≠ JObj other_cls other_attrs) →
  py_eq (JObj c self_attrs) other = Ok false ∧
  __eq__ py_ne {| cls := c; attrs := self_attrs |} other = Ok false.
Proof.
  intros Hother. destruct other as [| | | | | |other_cls other_attrs]; try done.
  by destruct (Hother other_cls other_attrs).
Qed.

(** Two instances of one class: [==] is the [__eq__] of the class. *)
Lemma py_eq_same_class `{!SetOrder} c self_attrs other_attrs :
  py_eq (JObj c self_attrs) (JObj c other_attrs) =
    __eq__ py_ne {| cls := c; attrs := self_attrs |} (JObj c other_attrs).
Proof.
  rewrite py_eq_loop. by rewrite bool_decide_eq_true_2.
Qed.

(** Two instances of two classes are never [==]. *)
Lemma py_eq_other_class `{!SetOrder} c self_attrs other_cls other_attrs :
  other_cls ≠ c →
  py_eq (JObj c self_attrs) (JObj other_cls other_attrs) = Ok false.
Proof.
  intros Hne. rewrite py_eq_loop, eq_unfold. cbn [cls].
  rewrite bool_decide_eq_false_2 by done. simpl.
  by destruct (issubclass other_cls c).
Qed.

Lemma eq_loop_true ne self_attrs other_attrs names :
  eq_loop ne self_attrs other_attrs names = Ok true ↔
  ∀ attribute, attribute ∈ names →
    ∃ x y, getattr self_attrs attribute = Ok x ∧
           getattr other_attrs attribute = Ok y ∧
           ne x y = Ok false.
Proof.
  induction names as [|a names IH]; simpl.
  - split; [|done]. intros _ attribute Hin. by apply not_elem_of_nil in Hin.
  - split.
    + intros Hloop attribute Hin.
      destruct (getattr self_attrs a) as [x|] eqn:Hx; [|done].
      destruct (getattr other_attrs a) as [y|] eqn:Hy; [|done].
      simpl in Hloop. destruct (ne x y) as [[]|] eqn:Hne; [done| |done].
      simpl in Hloop. apply elem_of_cons in Hin as [->|Hin].
      * by exists x, y.
      * by apply IH.
    + intros Hall. destruct (Hall a) as (x & y & -> & -> & Hne); [left|].
      simpl. rewrite Hne. simpl. apply IH. intros attribute Hin.
      apply Hall. by right.
Qed.

Lemma slots_neb_refl c : slots_neb (__slots__ c) (__slots__ c) = false.
Proof.
  destruct (__slots__ c) as [names|names]; simpl.
  - by rewrite bool_decide_eq_true_2.
  - by rewrite bool_decide_eq_true_2.
Qed.

Lemma py_ne_false `{!SetOrder} x y : py_ne x y = Ok false ↔ py_eq x y = Ok true.
Proof.
  unfold py_ne. destruct (py_eq x y) as [[]|]; simpl; split; congruence.
Qed.





(** ** C9: [JumpStartModelSpecs.from_json] without training support *)

Lemma getattr_setattr self attribute v attribute' :
  getattr (attrs (setattr self attribute v)) attribute' =
    if decide (attribute' = attribute) then Ok v
    else getattr (attrs self) attribute'.
Proof. unfold getattr, setattr. simpl. rewrite get_set. by case_decide. Qed.

(** C9: when [from_json] of [JumpStartModelSpecs] accepts a mapping whose
    [training_supported] entry is false for Python's truth test, the object
    has [training_ecr_specs], [training_artifact_key], [training_script_key]
    and [hyperparameters] set, each to [None], whatever the receiver held
    before and whatever the mapping has under those keys. *)
Theorem model_specs_training_unsupported self json_obj x v :
  JumpStartModelSpecs.from_json self json_obj = Ok x →
  subscript json_obj "training_supported" = Ok v →
  truthy v = false →
  getattr (attrs x) "training_supported" = Ok (JBool false) ∧
  getattr (attrs x) "training_ecr_specs" = Ok JNone ∧
  getattr (attrs x) "training_artifact_key" = Ok JNone ∧
  getattr (attrs x) "training_script_key" = Ok JNone ∧
  getattr (attrs x) "hyperparameters" = Ok JNone.
Proof.
  intros Hfrom Hv Hfalse. unfold JumpStartModelSpecs.from_json in Hfrom.
  rewrite Hv in Hfrom.
  repeat match type of Hfrom with
         | context [subscript json_obj ?k] =>
             destruct (subscript json_obj k);
             cbn [mbind result_bind] in Hfrom; [|done]
         | context [JumpStartECRSpecs.__init__ ?s] =>
             destruct (JumpStartECRSpecs.__init__ s);
             cbn [mbind result_bind] in Hfrom; [|done]
         end.
  rewrite Hfalse in Hfrom. injection Hfrom as <-.
  rewrite !getattr_setattr. split_and!; reflexivity.
Qed.

Lemma model_specs_training_unsupported_witness :
  let ecr :=
    JDict [("framework", JStr "pytorch"); ("framework_version", JStr "1.5.0");
           ("py_version", JStr "py3")] in
  let spec :=
    JDict [("model_id", JStr "m"); ("version", JStr "1.0.0");
           ("min_sdk_version", JStr "2.49.0");
           ("incremental_training_supported", JBool false);
           ("hosting_ecr_specs", ecr); ("hosting_artifact_key", JStr "a");
           ("hosting_script_key", JStr "s"); ("training_supported", JBool false);
           ("training_ecr_specs", ecr); ("training_artifact_key", JStr "ta");
           ("training_script_key", JStr "ts");
           ("hyperparameters", JDict [("epochs", JInt 3)])] in
  ∃ x,
    JumpStartModelSpecs.__init__ spec = Ok x ∧
    getattr (attrs x) "training_supported" = Ok (JBool false) ∧
    getattr (attrs x) "training_ecr_specs" = Ok JNone ∧
    getattr (attrs x) "training_artifact_key" = Ok JNone ∧
    getattr (attrs x) "training_script_key" = Ok JNone ∧
    getattr (attrs x) "hyperparameters" = Ok JNone.
Proof.
  intros ecr spec. eexists. split; [reflexivity|].
  exact (model_specs_training_unsupported (new CJumpStartModelSpecs) spec
           _ (JBool false) eq_refl eq_refl eq_refl).
Defined.

(** ** Attribute names and the dictionaries built from them *)

(** The names a declaration is walked through are the names it is written
    with, whatever the order. *)
Lemma slot_names_elem_of `{!SetOrder} s k : k ∈ slot_names s ↔ k ∈ written s.
Proof. destruct s as [names|names]; [done|]. apply set_order_elem_of. Qed.

(** No class of the module declares a name twice, and a set holds none
    twice. *)
Lemma slot_names_NoDup `{!SetOrder} c :
  in_module c = true → NoDup (slot_names (__slots__ c)).
Proof.
  destruct c; try done; intros _; try apply set_order_NoDup;
    apply (bool_decide_unpack _); vm_compute; reflexivity.
Qed.

(** Go through the names of a list of literals. *)
Ltac each_name Hk tac :=
  repeat (apply elem_of_cons in Hk as [->|Hk]; [tac|]);
  by apply not_elem_of_nil in Hk.

Lemma set_fresh {A} k (v : A) d : k ∉ Dict.keys d → Dict.set k v d = d ++ [(k, v)].
Proof.
  unfold Dict.keys. induction d as [|[k0 v0] d IH]; csimpl; [done|].
  intros [Hne Hk]%not_elem_of_cons. rewrite decide_False by done.
  by rewrite IH.
Qed.

(** The dictionary a comprehension over attribute names builds, when every
    name is an attribute. *)
Lemma dict_comprehension_getattr attrs names acc :
  NoDup (Dict.keys acc ++ names) →
  (∀ k, k ∈ names → is_Some (Dict.get k attrs)) →
  dict_comprehension (getattr attrs) names acc =
    Ok (acc ++ omap (λ k, pair k <$> Dict.get k attrs) names).
Proof.
  revert acc. induction names as [|a names IH]; intros acc Hnodup Hall;
    cbn [dict_comprehension omap list_omap].
  - by rewrite app_nil_r.
  - destruct (Hall a) as [v Hv]; [left|].
    assert (getattr attrs a = Ok v) as -> by (unfold getattr; by rewrite Hv).
    rewrite Hv. cbn [mbind result_bind]. simpl (_ <$> Some _).
    apply NoDup_app in Hnodup as (Hacc & Hdisj & [Ha Hnames]%NoDup_cons).
    rewrite set_fresh by (intros Hin; apply (Hdisj a Hin); left).
    rewrite IH.
    + by rewrite <-app_assoc.
    + unfold Dict.keys. rewrite fmap_app. simpl. rewrite <-app_assoc. simpl.
      apply NoDup_app. split_and!; [done| |by constructor].
      intros k Hk Hin. apply (Hdisj k Hk). done.
    + intros k Hk. apply Hall. by right.
Qed.

Lemma dict_comprehension_missing attrs names acc k :
  k ∈ names → Dict.get k attrs = None →
  dict_comprehension (getattr attrs) names acc = Raise AttributeError.
Proof.
  revert acc. induction names as [|a names IH]; intros acc Hk Hnone.
  - by apply not_elem_of_nil in Hk.
  - cbn [dict_comprehension].
    destruct (Dict.get a attrs) as [v|] eqn:Ha.
    + assert (getattr attrs a = Ok v) as -> by (unfold getattr; by rewrite Ha).
      cbn [mbind result_bind].
      apply elem_of_cons in Hk as [->|Hk]; [congruence|]. by apply IH.
    + assert (getattr attrs a = Raise AttributeError) as ->
        by (unfold getattr; by rewrite Ha).
      done.
Qed.

Lemma get_omap_None (attrs : list (string * jvalue)) names k :
  Dict.get k attrs = None →
  Dict.get k (omap (λ k, pair k <$> Dict.get k attrs) names) = None.
Proof.
  intros Hk. induction names as [|a names IH]; [done|].
  simpl. destruct (Dict.get a attrs) as [v|] eqn:Ha; simpl; [|done].
  case_decide; [congruence|done].
Qed.

Lemma get_omap_names (attrs : list (string * jvalue)) names k :
  k ∈ names →
  Dict.get k (omap (λ k, pair k <$> Dict.get k attrs) names) = Dict.get k attrs.
Proof.
  induction names as [|a names IH]; intros Hk; [by apply not_elem_of_nil in Hk|].
  simpl. destruct (Dict.get a attrs) as [v|] eqn:Ha; simpl.
  - case_decide as Hka; [by subst|].
    apply IH. by apply elem_of_cons in Hk as [->|Hk].
  - apply elem_of_cons in Hk as [->|Hk]; [|by apply IH].
    rewrite Ha. by apply get_omap_None.
Qed.

Lemma keys_omap_names (attrs : list (string * jvalue)) names :
  (∀ k, k ∈ names → is_Some (Dict.get k attrs)) →
  Dict.keys (omap (λ k, pair k <$> Dict.get k attrs) names) = names.
Proof.
  unfold Dict.keys. induction names as [|a names IH]; intros Hall; [done|].
  simpl. destruct (Hall a) as [v ->]; [left|]. csimpl. f_equal.
  apply IH. intros k Hk. apply Hall. by right.
Qed.

Lemma elem_of_omap_names (attrs : list (string * jvalue)) (names : list string) k v :
  (k, v) ∈ omap (λ k, pair k <$> Dict.get k attrs) names → (k, v) ∈ attrs.
Proof.
  induction names as [|a names IH]; [by intros ?%not_elem_of_nil|].
  simpl. destruct (Dict.get a attrs) as [x|] eqn:Ha; simpl; [|done].
  intros [[= -> ->]|Hin]%elem_of_cons; [|by apply IH].
  by apply get_Some_elem_of.
Qed.

(** The [to_json] of a header and of ECR specs on an instance with every
    attribute of its class set, for a declaration that has no name twice:
    the keys come in the order the declaration is walked through. *)
Lemma to_json_run `{!SetOrder} (self : instance) :
  NoDup (slot_names (__slots__ (cls self))) →
  (∀ k, k ∈ slot_names (__slots__ (cls self)) →
        is_Some (Dict.get k (attrs self))) →
  ∃ j, JumpStartModelHeader.to_json self = Ok j ∧
       JumpStartECRSpecs.to_json self = Ok j ∧
       Dict.keys j = slot_names (__slots__ (cls self)) ∧
       (∀ k, k ∈ slot_names (__slots__ (cls self)) →
             Dict.get k j = Dict.get k (attrs self)) ∧
       (∀ k v, (k, v) ∈ j → (k, v) ∈ attrs self).
Proof.
  intros Hnodup Hall. eexists.
  unfold JumpStartModelHeader.to_json, JumpStartECRSpecs.to_json.
  rewrite dict_comprehension_getattr; [|done..].
  split_and!; [done..| | |].
  - by apply keys_omap_names.
  - intros k Hk. by apply get_omap_names.
  - intros k v. apply elem_of_omap_names.
Qed.

Lemma subscript_dict d key : subscript (JDict d) key =
  match Dict.get key d with Some v => Ok v | None => Raise KeyError end.
Proof. done. Qed.

Lemma subscript_not_dict v key :
  (∀ d, v ≠ JDict d) → subscript v key = Raise TypeError.
Proof. intros Hv. destruct v as [| | | | |d|]; try done. by destruct (Hv d). Qed.

(** Decide the lookups of a [from_json] one after the other. *)
Ltac lookups d :=
  repeat match goal with
         | |- context [Dict.get ?k d] =>
             let E := fresh "E" in
             destruct (Dict.get k d) eqn:E; cbn [mbind result_bind is_Ok];
             try done
         end.

Lemma header_init_run d :
  JumpStartModelHeader.__init__ (JDict d) =
    match Dict.get "model_id" d, Dict.get "version" d,
          Dict.get "min_version" d, Dict.get "spec_key" d with
    | Some a, Some b, Some c, Some e =>
        Ok {| cls := CJumpStartModelHeader;
              attrs := [("model_id", a); ("version", b); ("min_version", c);
                        ("spec_key", e)] |}
    | _, _, _, _ => Raise KeyError
    end.
Proof.
  unfold JumpStartModelHeader.__init__, JumpStartModelHeader.from_json.
  rewrite !subscript_dict. by lookups d.
Qed.

Lemma ecr_specs_init_run d :
  JumpStartECRSpecs.__init__ (JDict d) =
    match Dict.get "framework" d, Dict.get "framework_version" d,
          Dict.get "py_version" d with
    | Some a, Some b, Some c =>
        Ok {| cls := CJumpStartECRSpecs;
              attrs := [("framework", a); ("framework_version", b);
                        ("py_version", c)] |}
    | _, _, _ => Raise KeyError
    end.
Proof.
  unfold JumpStartECRSpecs.__init__, JumpStartECRSpecs.from_json.
  rewrite !subscript_dict. by lookups d.
Qed.

(** ECR specs with their three attributes: [to_json] gives a dictionary with
    the three names as keys, in the order of the set, from which [__init__]
    builds the same object. *)
Lemma ecr_specs_to_json_run `{!SetOrder} a b c :
  let x := {| cls := CJumpStartECRSpecs;
              attrs := [("framework", a); ("framework_version", b);
                        ("py_version", c)] |} in
  ∃ j, JumpStartECRSpecs.to_json x = Ok j ∧
       JumpStartECRSpecs.__init__ (JDict j) = Ok x ∧
       Dict.keys j = slot_names (__slots__ CJumpStartECRSpecs) ∧
       (∀ k, k ∈ ["framework"; "framework_version"; "py_version"] →
             Dict.get k j = Dict.get k (attrs x)) ∧
       (∀ k v, (k, v) ∈ j → (k, v) ∈ attrs x).
Proof.
  intros x.
  assert (∀ k, k ∈ slot_names (__slots__ (cls x)) ↔
               k ∈ ["framework"; "framework_version"; "py_version"]) as Hnames
    by (intros k; apply slot_names_elem_of).
  destruct (to_json_run x) as (j & _ & Hto & Hkeys & Hget & Hin).
  { by apply slot_names_NoDup. }
  { intros k Hk%Hnames. each_name Hk ltac:(by eexists). }
  exists j. split_and!; [done| |done| |done].
  - rewrite ecr_specs_init_run.
    rewrite (Hget "framework"), (Hget "framework_version"), (Hget "py_version")
      by (apply Hnames; here).
    reflexivity.
  - intros k Hk. by apply Hget, Hnames.
Qed.

(** ** C10: [to_json] and [from_json] *)

(** Induction over values, with the property at hand for every item of a
    list and every value of a dictionary or instance. *)
Section jvalue_induction.
Variable P : jvalue → Prop.
Hypothesis PNone : P JNone.
Hypothesis PBool : ∀ b, P (JBool b).
Hypothesis PInt : ∀ n, P (JInt n).
Hypothesis PStr : ∀ s, P (JStr s).
Hypothesis PList : ∀ vs, Forall P vs → P (JList vs).
Hypothesis PDict : ∀ d, Forall (λ kv, P kv.2) d → P (JDict d).
Hypothesis PObj : ∀ c attrs, Forall (λ kv, P kv.2) attrs → P (JObj c attrs).

Lemma jvalue_nested_ind (v : jvalue) : P v.
Proof.
  revert v. fix IH 1. intros [| b | n | s | vs | d | c attrs].
  - apply PNone.
  - apply PBool.
  - apply PInt.
  - apply PStr.
  - apply PList. induction vs as [|x vs IHvs]; constructor; [apply IH | apply IHvs].
  - apply PDict.
    induction d as [|[k x] d IHd]; constructor; [apply IH | apply IHd].
  - apply PObj.
    induction attrs as [|[k x] attrs IHattrs]; constructor; [apply IH | apply IHattrs].
Qed.

End jvalue_induction.

Lemma is_json_complete v : is_json v = true → complete v = true.
Proof.
  induction v as [| | | |vs IH|d IH|c attrs IH] using jvalue_nested_ind;
    simpl; try done.
  - rewrite !forallb_forall. intros Hvs x Hx.
    rewrite Forall_forall in IH. apply IH; [by apply list_elem_of_In|by apply Hvs].
  - intros [Hnodup Hd]%andb_prop. rewrite Hnodup. simpl.
    rewrite forallb_forall in Hd. apply forallb_forall. intros kv Hkv.
    rewrite Forall_forall in IH. apply IH; [by apply list_elem_of_In|by apply Hd].
Qed.

Lemma is_json_get d k v :
  is_json (JDict d) = true → Dict.get k d = Some v → is_json v = true.
Proof.
  simpl. intros [_ Hd]%andb_prop Hk%get_Some_elem_of.
  rewrite forallb_forall in Hd. by apply (Hd (k, v)), list_elem_of_In.
Qed.

Lemma py_eq_list `{!SetOrder} xs ys :
  py_eq (JList xs) (JList ys) =
    if negb (length xs =? length ys)%nat then Ok false else list_eq_loop xs ys.
Proof. done. Qed.

Lemma py_eq_dict `{!SetOrder} d1 d2 :
  py_eq (JDict d1) (JDict d2) =
    if negb (length d1 =? length d2)%nat then Ok false else dict_eq_loop d2 d1.
Proof. done. Qed.

(** A complete value equals itself. *)
Lemma py_eq_refl `{!SetOrder} v : complete v = true → py_eq v v = Ok true.
Proof.
  induction v as [|b|n|s|vs IH|d IH|c attrs IH] using jvalue_nested_ind;
    intros Hv.
  - done.
  - simpl. by destruct b.
  - simpl. by rewrite Z.eqb_refl.
  - simpl. by rewrite String.eqb_refl.
  - rewrite py_eq_list, Nat.eqb_refl. simpl in *.
    induction vs as [|x vs IHvs]; [done|].
    apply Forall_cons in IH as [Hx IH]. simpl in Hv.
    apply andb_prop in Hv as [Hcx Hcvs].
    simpl. rewrite Hx by done. simpl. by apply IHvs.
  - rewrite py_eq_dict, Nat.eqb_refl. simpl in *.
    apply andb_prop in Hv as [Hnodup%bool_decide_eq_true Hcd].
    assert (∀ d', d' ⊆ d → dict_eq_loop d d' = Ok true) as Hloop; [|by apply Hloop].
    induction d' as [|[k v] d' IHd']; [done|]. intros Hsub. simpl.
    assert ((k, v) ∈ d) as Hin by (apply Hsub; left).
    rewrite (elem_of_get k v d) by done.
    rewrite Forall_forall in IH. rewrite forallb_forall in Hcd.
    pose proof (IH (k, v) Hin) as Hv. simpl in Hv.
    rewrite Hv by (by apply (Hcd (k, v)), list_elem_of_In).
    simpl. apply IHd'. intros kv Hkv. apply Hsub. by right.
  - rewrite py_eq_same_class, eq_unfold, issubclass_refl, slots_neb_refl.
    simpl in *.
    apply andb_prop in Hv as [Hslots%bool_decide_eq_true Hca].
    apply eq_loop_true. intros attribute Hin%slot_names_elem_of.
    apply Hslots, get_is_Some in Hin as [x Hx].
    exists x, x. unfold getattr. rewrite Hx. split_and!; [done..|].
    apply py_ne_false. apply get_Some_elem_of in Hx.
    rewrite Forall_forall in IH. rewrite forallb_forall in Hca.
    apply (IH (attribute, x)); [done|]. by apply (Hca (attribute, x)), list_elem_of_In.
Qed.

Lemma model_specs_to_json_unfold `{!SetOrder} self :
  JumpStartModelSpecs.to_json self =
    dict_comprehension
      (λ att, cur_val ← getattr (attrs self) att; JumpStartModelSpecs.to_json_value cur_val)
      (slot_names (__slots__ (cls self))) [].
Proof. done. Qed.

Lemma to_json_value_json `{!SetOrder} v :
  is_json v = true → JumpStartModelSpecs.to_json_value v = Ok v.
Proof. by destruct v. Qed.

Lemma bind_Ok {A B} (m : result A) (f : A → result B) y :
  m ≫= f = Ok y → ∃ a, m = Ok a ∧ f a = Ok y.
Proof. destruct m as [a|]; [|done]. intros Hf. by exists a. Qed.

Lemma subscript_Ok json_obj key v :
  subscript json_obj key = Ok v →
  ∃ d, json_obj = JDict d ∧ Dict.get key d = Some v.
Proof.
  destruct json_obj as [| | | | |d|]; try done. simpl.
  destruct (Dict.get key d) as [v'|] eqn:Hget; [|done].
  intros [= <-]. by exists d.
Qed.

Lemma subscript_json json_obj key v :
  is_json json_obj = true → subscript json_obj key = Ok v → is_json v = true.
Proof.
  intros Hjson (d & -> & Hget)%subscript_Ok. by apply (is_json_get d key).
Qed.

Lemma dict_get_json json_obj key v :
  is_json json_obj = true → dict_get json_obj key = Ok v → is_json v = true.
Proof.
  destruct json_obj as [| | | | |d|]; try done. simpl. intros Hjson [= <-].
  destruct (Dict.get key d) as [v|] eqn:Hget; [|done].
  by apply (is_json_get d key).
Qed.

(** One step of a [from_json]: the next subscript succeeded. *)
Ltac from_json_step H :=
  let v := fresh "v" in
  let Hv := fresh "Hv" in
  apply bind_Ok in H as (v & Hv & H); cbn zeta in H.

Lemma header_init_Ok header x :
  JumpStartModelHeader.__init__ header = Ok x →
  ∃ a b c e,
    subscript header "model_id" = Ok a ∧ subscript header "version" = Ok b ∧
    subscript header "min_version" = Ok c ∧ subscript header "spec_key" = Ok e ∧
    x = {| cls := CJumpStartModelHeader;
           attrs := [("model_id", a); ("version", b); ("min_version", c);
                     ("spec_key", e)] |}.
Proof.
  unfold JumpStartModelHeader.__init__, JumpStartModelHeader.from_json.
  intros H. do 4 from_json_step H. injection H as <-.
  by eexists _, _, _, _.
Qed.

Lemma ecr_specs_init_Ok spec x :
  JumpStartECRSpecs.__init__ spec = Ok x →
  ∃ a b c,
    subscript spec "framework" = Ok a ∧
    subscript spec "framework_version" = Ok b ∧
    subscript spec "py_version" = Ok c ∧
    x = {| cls := CJumpStartECRSpecs;
           attrs := [("framework", a); ("framework_version", b);
                     ("py_version", c)] |}.
Proof.
  unfold JumpStartECRSpecs.__init__, JumpStartECRSpecs.from_json.
  intros H. do 3 from_json_step H. injection H as <-.
  by eexists _, _, _.
Qed.

Ltac complete_values :=
  simpl;
  by repeat match goal with
            | H : is_json ?v = true |- context [complete ?v] =>
                rewrite (is_json_complete v H)
            end.

Lemma header_roundtrip `{!SetOrder} header x :
  is_json header = true →
  JumpStartModelHeader.__init__ header = Ok x →
  ∃ j y,
    JumpStartModelHeader.to_json x = Ok j ∧
    JumpStartModelHeader.__init__ (JDict j) = Ok y ∧
    y = x ∧ complete (obj x) = true.
Proof.
  intros Hjson (a & b & c & e & Ha & Hb & Hc & He & ->)%header_init_Ok.
  apply (subscript_json _ _ _ Hjson) in Ha, Hb, Hc, He.
  eexists _, _. split_and!; [reflexivity..|]. complete_values.
Qed.

Lemma ecr_specs_roundtrip `{!SetOrder} spec x :
  is_json spec = true →
  JumpStartECRSpecs.__init__ spec = Ok x →
  ∃ j y,
    JumpStartECRSpecs.to_json x = Ok j ∧
    JumpStartECRSpecs.__init__ (JDict j) = Ok y ∧
    y = x ∧ complete (obj x) = true ∧
    is_json (JDict j) = true.
Proof.
  intros Hjson (a & b & c & Ha & Hb & Hc & ->)%ecr_specs_init_Ok.
  apply (subscript_json _ _ _ Hjson) in Ha, Hb, Hc.
  destruct (ecr_specs_to_json_run a b c) as (j & Hto & Hfrom & Hkeys & _ & Hin).
  exists j. eexists. split_and!; [done..| |].
  - complete_values.
  - cbn [is_json]. apply andb_true_intro. split.
    + apply bool_decide_eq_true. fold (Dict.keys j). rewrite Hkeys.
      by apply slot_names_NoDup.
    + apply forallb_forall. intros [k v] Hkv%list_elem_of_In%Hin.
      cbn [attrs] in Hkv. by each_name Hkv ltac:(done).
Qed.

(** ECR specs with three JSON values: the dictionary of [to_json] is JSON
    data, and [__init__] builds the same object from it. *)
Lemma ecr_specs_json `{!SetOrder} a b c :
  is_json a = true → is_json b = true → is_json c = true →
  ∃ j, JumpStartECRSpecs.to_json
         {| cls := CJumpStartECRSpecs;
            attrs := [("framework", a); ("framework_version", b);
                      ("py_version", c)] |} = Ok j ∧
       JumpStartECRSpecs.__init__ (JDict j) =
         Ok {| cls := CJumpStartECRSpecs;
               attrs := [("framework", a); ("framework_version", b);
                         ("py_version", c)] |} ∧
       is_json (JDict j) = true.
Proof.
  intros Ha Hb Hc.
  destruct (ecr_specs_to_json_run a b c) as (j & Hto & Hfrom & Hkeys & _ & Hin).
  exists j. split_and!; [done..|].
  cbn [is_json]. apply andb_true_intro. split.
  - apply bool_decide_eq_true. fold (Dict.keys j). rewrite Hkeys.
    by apply slot_names_NoDup.
  - apply forallb_forall. intros [k v] Hkv%list_elem_of_In%Hin.
    cbn [attrs] in Hkv. by each_name Hkv ltac:(done).
Qed.

Lemma to_json_value_ecr `{!SetOrder} cur_attrs :
  JumpStartModelSpecs.to_json_value (JObj CJumpStartECRSpecs cur_attrs) =
    d ← JumpStartECRSpecs.to_json
          {| cls := CJumpStartECRSpecs; attrs := cur_attrs |};
    Ok (JDict d).
Proof. done. Qed.

(** The value under test is JSON data, up to the dictionaries of ECR specs,
    which are taken as they are. *)
Ltac json_values :=
  repeat match goal with
         | H : is_json (JDict ?j) = true |- context [JDict ?j] =>
             is_var j; let v := fresh "v" in
             set (v := JDict j) in *; clearbody v
         end;
  simpl;
  by repeat match goal with
            | H : is_json ?v = true |- context [is_json ?v] => rewrite H
            end.

Ltac model_specs_to_json :=
  rewrite model_specs_to_json_unfold; cbv -[JumpStartModelSpecs.to_json_value];
  repeat match goal with
         | Hv : is_json ?v = true |- context [JumpStartModelSpecs.to_json_value ?v] =>
             rewrite (to_json_value_json v Hv)
         end;
  rewrite !to_json_value_ecr;
  repeat match goal with
         | Hto : JumpStartECRSpecs.to_json _ = Ok _ |- _ => rewrite Hto; clear Hto
         end;
  cbv; reflexivity.

Ltac model_specs_from_json :=
  cbv -[JumpStartECRSpecs.__init__];
  repeat match goal with
         | Hfrom : JumpStartECRSpecs.__init__ _ = Ok _ |- _ =>
             rewrite Hfrom; clear Hfrom
         end;
  cbv; reflexivity.

Lemma model_specs_roundtrip `{!SetOrder} spec x :
  is_json spec = true →
  JumpStartModelSpecs.__init__ spec = Ok x →
  ∃ j y,
    JumpStartModelSpecs.to_json x = Ok j ∧
    JumpStartModelSpecs.__init__ (JDict j) = Ok y ∧
    y = x ∧ complete (obj x) = true ∧
    is_json (JDict j) = true ∧
    (∃ e, Dict.get "hosting_ecr_specs" j = Some (JDict e)).
Proof.
  intros Hjson Hinit.
  unfold JumpStartModelSpecs.__init__, JumpStartModelSpecs.from_json in Hinit.
  do 5 from_json_step Hinit.
  apply bind_Ok in Hinit as (hosting & Hhosting & Hinit); cbn zeta in Hinit.
  do 3 from_json_step Hinit.
  repeat match goal with
         | Hv : subscript spec _ = Ok _ |- _ =>
             apply (subscript_json _ _ _ Hjson) in Hv
         end.
  apply ecr_specs_init_Ok in Hhosting as (a & b & c & Ha & Hb & Hc & ->).
  match goal with
  | Hv : is_json ?v = true |- _ =>
      apply (subscript_json v) in Ha, Hb, Hc; [|exact Hv..]
  end.
  destruct (ecr_specs_json a b c Ha Hb Hc) as (jh & Hto_h & Hfrom_h & Hjh).
  destruct (truthy _) eqn:Htruthy in Hinit.
  - from_json_step Hinit.
    apply bind_Ok in Hinit as (training & Htraining & Hinit); cbn zeta in Hinit.
    do 3 from_json_step Hinit. injection Hinit as <-.
    repeat match goal with
           | Hv : subscript spec _ = Ok _ |- _ =>
               apply (subscript_json _ _ _ Hjson) in Hv
           | Hv : dict_get spec _ = Ok _ |- _ =>
               apply (dict_get_json _ _ _ Hjson) in Hv
           end.
    apply ecr_specs_init_Ok in Htraining as (a' & b' & c' & Ha' & Hb' & Hc' & ->).
    match goal with
    | Hv : is_json ?v = true |- _ =>
        apply (subscript_json v) in Ha', Hb', Hc'; [|exact Hv..]
    end.
    destruct (ecr_specs_json a' b' c' Ha' Hb' Hc') as (jt & Hto_t & Hfrom_t & Hjt).
    eexists _, _. split_and!.
    + model_specs_to_json.
    + model_specs_from_json.
    + reflexivity.
    + complete_values.
    + json_values.
    + eexists. reflexivity.
  - injection Hinit as <-.
    eexists _, _. split_and!.
    + model_specs_to_json.
    + model_specs_from_json.
    + reflexivity.
    + complete_values.
    + json_values.
    + eexists. reflexivity.
Qed.

Lemma eq_self `{!SetOrder} x :
  complete (obj x) = true → __eq__ py_ne x (obj x) = Ok true.
Proof.
  intros Hx. destruct x as [c attrs]. unfold obj. simpl cls. simpl JumpStart.attrs.
  rewrite <-py_eq_same_class. by apply py_eq_refl.
Qed.

(** C10: for [JumpStartModelHeader], [JumpStartECRSpecs] and
    [JumpStartModelSpecs], an instance [x] built from JSON data has a
    [to_json], building an instance from that gives an object equal to [x];
    the [to_json] of [JumpStartModelSpecs] holds a mapping under
    [hosting_ecr_specs] and no [JumpStartECRSpecs] instance under any key. *)
Theorem to_json_from_json_roundtrip `{!SetOrder} :
  (∀ header x,
     is_json header = true →
     JumpStartModelHeader.__init__ header = Ok x →
     ∃ j y,
       JumpStartModelHeader.to_json x = Ok j ∧
       JumpStartModelHeader.__init__ (JDict j) = Ok y ∧
       __eq__ py_ne y (obj x) = Ok true) ∧
  (∀ spec x,
     is_json spec = true →
     JumpStartECRSpecs.__init__ spec = Ok x →
     ∃ j y,
       JumpStartECRSpecs.to_json x = Ok j ∧
       JumpStartECRSpecs.__init__ (JDict j) = Ok y ∧
       __eq__ py_ne y (obj x) = Ok true) ∧
  (∀ spec x,
     is_json spec = true →
     JumpStartModelSpecs.__init__ spec = Ok x →
     ∃ j y,
       JumpStartModelSpecs.to_json x = Ok j ∧
       JumpStartModelSpecs.__init__ (JDict j) = Ok y ∧
       __eq__ py_ne y (obj x) = Ok true ∧
       (∃ e, Dict.get "hosting_ecr_specs" j = Some (JDict e)) ∧
       (∀ k v, Dict.get k j = Some v → isinstance v CJumpStartECRSpecs = false)).
Proof.
  split_and!.
  - intros header x Hjson Hinit.
    destruct (header_roundtrip header x Hjson Hinit) as (j & y & Hto & Hfrom & -> & Hx).
    exists j, x. split_and!; [done..|]. by apply eq_self.
  - intros spec x Hjson Hinit.
    destruct (ecr_specs_roundtrip spec x Hjson Hinit)
      as (j & y & Hto & Hfrom & -> & Hx & _).
    exists j, x. split_and!; [done..|]. by apply eq_self.
  - intros spec x Hjson Hinit.
    destruct (model_specs_roundtrip spec x Hjson Hinit)
      as (j & y & Hto & Hfrom & -> & Hx & Hj & He).
    exists j, x. split_and!; [done..|by apply eq_self|done|].
    intros k v Hk. apply (is_json_get _ _ _ Hj) in Hk. by destruct v.
Qed.

Lemma to_json_from_json_roundtrip_witness :
  let order : SetOrder := set_order_written in
  let ecr :=
    JDict [("framework", JStr "pytorch"); ("framework_version", JStr "1.5.0");
           ("py_version", JStr "py3")] in
  let spec :=
    JDict [("model_id", JStr "m"); ("version", JStr "1.0.0");
           ("min_sdk_version", JStr "2.49.0");
           ("incremental_training_supported", JBool false);
           ("hosting_ecr_specs", ecr); ("hosting_artifact_key", JStr "a");
           ("hosting_script_key", JStr "s"); ("training_supported", JBool true);
           ("training_ecr_specs", ecr); ("training_artifact_key", JStr "ta");
           ("training_script_key", JStr "ts");
           ("hyperparameters", JDict [("epochs", JInt 3)])] in
  ∃ x j y,
    JumpStartModelSpecs.__init__ spec = Ok x ∧
    JumpStartModelSpecs.to_json x = Ok j ∧
    JumpStartModelSpecs.__init__ (JDict j) = Ok y ∧
    __eq__ py_ne y (obj x) = Ok true ∧
    Dict.get "training_ecr_specs" j = Some ecr.
Proof.
  intros order ecr spec.
  destruct to_json_from_json_roundtrip as (_ & _ & Hspecs).
  destruct (JumpStartModelSpecs.__init__ spec) as [x|] eqn:Hinit; [|done].
  destruct (Hspecs spec x eq_refl Hinit) as (j & y & Hto & Hfrom & Heq & _).
  exists x, j, y. split_and!; [done..|].
  injection Hinit as <-. by injection Hto as <-.
Defined.

(** ** Building a header or ECR specs from a value *)

Lemma header_init_not_dict v :
  (∀ d, v ≠ JDict d) → JumpStartModelHeader.__init__ v = Raise TypeError.
Proof.
  intros Hv. unfold JumpStartModelHeader.__init__, JumpStartModelHeader.from_json.
  by rewrite (subscript_not_dict v "model_id" Hv).
Qed.

Lemma ecr_specs_init_not_dict v :
  (∀ d, v ≠ JDict d) → JumpStartECRSpecs.__init__ v = Raise TypeError.
Proof.
  intros Hv. unfold JumpStartECRSpecs.__init__, JumpStartECRSpecs.from_json.
  by rewrite (subscript_not_dict v "framework" Hv).
Qed.

(** The four facts about building an object from a dictionary [d], once the
    lookups are decided. *)
Ltac init_from_dict d :=
  split_and!;
  [ split;
    [ first [ done
            | intros _; exists d; split; [done|];
              let k := fresh "k" in let Hk := fresh "Hk" in
              intros k Hk; each_name Hk ltac:(by eexists) ]
    | first [ done
            | let Hd := fresh "Hd" in
              intros (? & [= <-] & Hd);
              match goal with
              | E : Dict.get ?k d = None |- _ =>
                  destruct (Hd k) as [? ?]; [here|congruence]
              end ] ]
  | first [ by intros ? [=]
          | let k := fresh "k" in let Hk := fresh "Hk" in
            intros ? [= <-]; split_and!; [reflexivity..|];
            intros k Hk; rewrite subscript_dict;
            each_name Hk ltac:(unfold getattr;
                               by repeat match goal with
                                         | E : Dict.get _ d = Some _ |- _ =>
                                             rewrite E; clear E
                                         end) ]
  | first [ done
          | let k := fresh "k" in let Hk := fresh "Hk" in
            intros ? k [= <-] Hk ?; each_name Hk ltac:(congruence) ]
  | let Hv := fresh "Hv" in intros Hv; by destruct (Hv d) ].

(** X13: what building a [JumpStartModelHeader] or a [JumpStartECRSpecs]
    from a value does.  It succeeds exactly for a dictionary that has every
    attribute name of the class as a key; the object then has exactly the
    attributes of the class, set in the order the names are written in the
    declaration, each with the value of the dictionary, so other keys are
    ignored.  A dictionary that misses one of the names gives [KeyError], a
    value that is not a dictionary [TypeError]. *)
Theorem init_from_value (c : class) (init : jvalue → result instance) (v : jvalue) :
  (c = CJumpStartModelHeader ∧ init = JumpStartModelHeader.__init__) ∨
  (c = CJumpStartECRSpecs ∧ init = JumpStartECRSpecs.__init__) →
  let names := written (__slots__ c) in
  (is_Ok (init v) = true ↔
   ∃ d, v = JDict d ∧ ∀ k, k ∈ names → is_Some (Dict.get k d)) ∧
  (∀ x, init v = Ok x →
        cls x = c ∧ Dict.keys (attrs x) = names ∧
        ∀ k, k ∈ names → getattr (attrs x) k = subscript v k) ∧
  (∀ d k, v = JDict d → k ∈ names → Dict.get k d = None →
          init v = Raise KeyError) ∧
  ((∀ d, v ≠ JDict d) → init v = Raise TypeError).
Proof.
  intros Hinit names.
  assert ((∃ d, v = JDict d) ∨ (∀ d, v ≠ JDict d)) as [[d ->]|Hv']
    by (destruct v; by eauto).
  - destruct Hinit as [[-> ->]|[-> ->]]; subst names;
      cbn [written __slots__].
    + rewrite header_init_run. lookups d; init_from_dict d.
    + rewrite ecr_specs_init_run. lookups d; init_from_dict d.
  - assert (init v = Raise TypeError) as ->.
    { destruct Hinit as [[-> ->]|[-> ->]];
        [by apply header_init_not_dict|by apply ecr_specs_init_not_dict]. }
    split_and!; [|done| |done].
    + split; [done|]. intros (d & -> & _). by destruct (Hv' d).
    + intros d k ->. by destruct (Hv' d).
Qed.

Lemma init_from_value_witness :
  let header :=
    JDict [("model_id", JStr "m"); ("version", JStr "1.0.0");
           ("min_version", JStr "2.49.0"); ("spec_key", JStr "k.json");
           ("search_keywords", JList [])] in
  (∃ x, JumpStartModelHeader.__init__ header = Ok x ∧
        Dict.keys (attrs x) = ["model_id"; "version"; "min_version"; "spec_key"]) ∧
  JumpStartECRSpecs.__init__ header = Raise KeyError ∧
  JumpStartECRSpecs.__init__ (JStr "pytorch") = Raise TypeError.
Proof.
  intros header. split_and!.
  - destruct (init_from_value CJumpStartModelHeader JumpStartModelHeader.__init__
                header) as (_ & Hx & _); [by left|].
    eexists. split; [reflexivity|]. by apply Hx.
  - destruct (init_from_value CJumpStartECRSpecs JumpStartECRSpecs.__init__
                header) as (_ & _ & Hkey & _); [by right|].
    eapply (Hkey _ "framework");
      [reflexivity|cbn [written __slots__]; here|reflexivity].
  - destruct (init_from_value CJumpStartECRSpecs JumpStartECRSpecs.__init__
                (JStr "pytorch")) as (_ & _ & _ & Htype); [by right|].
    by apply Htype.
Defined.

(** ** [to_json] of a header and of ECR specs *)

(** X14: [to_json] of a [JumpStartModelHeader] or a [JumpStartECRSpecs]
    reads the attributes the class declares, in the order in which
    [__slots__] is walked through: the written order for the list of a
    header, the order of the process for the set of ECR specs.  On an object
    that has them all, and for a declaration without a name twice, as every
    declaration of the module is, it returns a dictionary with those names
    as keys, in that order, and the values of the attributes; on an object
    that misses one it raises [AttributeError]. *)
Theorem to_json_attributes `{!SetOrder} (self : instance)
    (to_json : instance → result (list (string * jvalue))) :
  to_json = JumpStartModelHeader.to_json ∨ to_json = JumpStartECRSpecs.to_json →
  let names := slot_names (__slots__ (cls self)) in
  (NoDup names →
   (∀ k, k ∈ names → is_Some (Dict.get k (attrs self))) →
   ∃ j, to_json self = Ok j ∧ Dict.keys j = names ∧
        ∀ k, k ∈ names → Dict.get k j = Dict.get k (attrs self)) ∧
  (∀ k, k ∈ names → Dict.get k (attrs self) = None →
        to_json self = Raise AttributeError) ∧
  (in_module (cls self) = true → NoDup names) ∧
  (∀ k, k ∈ names ↔ k ∈ written (__slots__ (cls self))).
Proof.
  intros Hto names. split_and!.
  - intros Hnodup Hall.
    destruct (to_json_run self Hnodup Hall) as (j & Hh & He & Hkeys & Hget & _).
    exists j. by destruct Hto as [-> | ->].
  - intros k Hk Hnone.
    destruct Hto as [-> | ->]; by apply (dict_comprehension_missing _ _ _ k).
  - apply slot_names_NoDup.
  - intros k. apply slot_names_elem_of.
Qed.

Lemma to_json_attributes_witness :
  let self :=
    {| cls := CJumpStartECRSpecs;
       attrs := [("py_version", JStr "py3"); ("framework", JStr "pytorch");
                 ("framework_version", JStr "1.5.0")] |} in
  (let order : SetOrder := set_order_written in
   JumpStartECRSpecs.to_json self =
     Ok [("framework", JStr "pytorch"); ("framework_version", JStr "1.5.0");
         ("py_version", JStr "py3")]) ∧
  (let order : SetOrder := set_order_reversed in
   JumpStartECRSpecs.to_json self =
     Ok [("py_version", JStr "py3"); ("framework_version", JStr "1.5.0");
         ("framework", JStr "pytorch")]) ∧
  (let order : SetOrder := set_order_written in
   JumpStartModelHeader.to_json (new CJumpStartModelHeader) =
     Raise AttributeError).
Proof.
  intros self. split_and!; intros order.
  - destruct (to_json_attributes self JumpStartECRSpecs.to_json)
      as (Hok & _ & Hnodup & Hnames); [by right|].
    destruct Hok as (j & Hj & _); [by apply Hnodup| |].
    { intros k Hk%Hnames. cbn [written __slots__ cls self] in Hk.
      each_name Hk ltac:(by eexists). }
    rewrite Hj. f_equal. by injection Hj as <-.
  - destruct (to_json_attributes self JumpStartECRSpecs.to_json)
      as (Hok & _ & Hnodup & Hnames); [by right|].
    destruct Hok as (j & Hj & _); [by apply Hnodup| |].
    { intros k Hk%Hnames. cbn [written __slots__ cls self] in Hk.
      each_name Hk ltac:(by eexists). }
    rewrite Hj. f_equal. by injection Hj as <-.
  - destruct (to_json_attributes (new CJumpStartModelHeader)
                JumpStartModelHeader.to_json) as (_ & Hraise & _); [by left|].
    apply (Hraise "model_id"); [cbn [slot_names __slots__ cls new]; here|done].
Defined.

(** X15: a dictionary that is made into a [JumpStartModelHeader] or a
    [JumpStartECRSpecs] and back comes out cut down to the attribute names of
    the class: [to_json] of the object succeeds, its keys are those names, in
    the order in which [__slots__] is walked through (the written order for
    the list of a header, the order of the process for the set of ECR
    specs), and each has the value it had in the dictionary.  Building an
    object from the result gives the same object again. *)
Theorem to_json_of_init `{!SetOrder} (c : class)
    (init : jvalue → result instance)
    (to_json : instance → result (list (string * jvalue))) (v : jvalue) x :
  (c = CJumpStartModelHeader ∧ init = JumpStartModelHeader.__init__ ∧
   to_json = JumpStartModelHeader.to_json) ∨
  (c = CJumpStartECRSpecs ∧ init = JumpStartECRSpecs.__init__ ∧
   to_json = JumpStartECRSpecs.to_json) →
  init v = Ok x →
  ∃ j, to_json x = Ok j ∧
       Dict.keys j = slot_names (__slots__ c) ∧
       Dict.keys j ≡ₚ written (__slots__ c) ∧
       (∀ k, k ∈ written (__slots__ c) →
             subscript (JDict j) k = subscript v k) ∧
       init (JDict j) = Ok x.
Proof.
  intros Hc Hx.
  destruct v as [| | | | |d|];
    try (destruct Hc as [(-> & -> & ->)|(-> & -> & ->)]; discriminate).
  assert (cls x = c ∧
          (∀ k, k ∈ written (__slots__ c) →
                match Dict.get k d with
                | Some v => Dict.get k (attrs x) = Some v
                | None => False
                end) ∧
          ∀ j, (∀ k, k ∈ written (__slots__ c) →
                     Dict.get k j = Dict.get k (attrs x)) →
               init (JDict j) = Ok x) as (Hcls & Hattrs & Hinit).
  { destruct Hc as [(-> & -> & ->)|(-> & -> & ->)].
    - revert Hx. rewrite header_init_run. lookups d. intros [= <-].
      split_and!; [done| |].
      + intros k Hk. cbn [written __slots__] in Hk.
        each_name Hk ltac:(by repeat match goal with
                                     | E : Dict.get _ d = Some _ |- _ =>
                                         rewrite E; clear E
                                     end).
      + intros json Hj. rewrite header_init_run.
        rewrite (Hj "model_id"), (Hj "version"), (Hj "min_version"),
          (Hj "spec_key") by (cbn [written __slots__]; here).
        reflexivity.
    - revert Hx. rewrite ecr_specs_init_run. lookups d. intros [= <-].
      split_and!; [done| |].
      + intros k Hk. cbn [written __slots__] in Hk.
        each_name Hk ltac:(by repeat match goal with
                                     | E : Dict.get _ d = Some _ |- _ =>
                                         rewrite E; clear E
                                     end).
      + intros json Hj. rewrite ecr_specs_init_run.
        rewrite (Hj "framework"), (Hj "framework_version"), (Hj "py_version")
          by (cbn [written __slots__]; here).
        reflexivity. }
  assert (in_module c = true) as Hmodule
    by (by destruct Hc as [(-> & _)|(-> & _)]).
  subst c.
  destruct (to_json_run x) as (j & Hh & He & Hkeys & Hget & _).
  { by apply slot_names_NoDup. }
  { intros k Hk%slot_names_elem_of. specialize (Hattrs k Hk).
    destruct (Dict.get k d); [by eexists|done]. }
  exists j. split_and!.
  - by destruct Hc as [(_ & _ & ->)|(_ & _ & ->)].
  - done.
  - rewrite Hkeys. apply NoDup_Permutation.
    + by apply slot_names_NoDup.
    + destruct Hc as [(Hc & _)|(Hc & _)]; rewrite Hc;
        apply (bool_decide_unpack _); vm_compute; reflexivity.
    + apply slot_names_elem_of.
  - intros k Hk. rewrite !subscript_dict.
    rewrite Hget by (by apply slot_names_elem_of).
    specialize (Hattrs k Hk). destruct (Dict.get k d); [by rewrite Hattrs|done].
  - apply Hinit. intros k Hk. by apply Hget, slot_names_elem_of.
Qed.

Lemma to_json_of_init_witness :
  let order : SetOrder := set_order_reversed in
  let spec :=
    JDict [("py_version", JStr "py3"); ("framework", JStr "pytorch");
           ("framework_version", JStr "1.5.0"); ("region", JStr "us-west-2")] in
  ∃ x,
    JumpStartECRSpecs.__init__ spec = Ok x ∧
    JumpStartECRSpecs.to_json x =
      Ok [("py_version", JStr "py3"); ("framework_version", JStr "1.5.0");
          ("framework", JStr "pytorch")].
Proof.
  intros order spec. eexists. split; [reflexivity|].
  edestruct (to_json_of_init CJumpStartECRSpecs JumpStartECRSpecs.__init__
               JumpStartECRSpecs.to_json spec) as (j & Hj & _);
    [by right|reflexivity|].
  rewrite Hj. f_equal. by injection Hj as <-.
Defined.

(** ** [from_json] on an object that exists *)

(** [from_json] on any receiver sets what building a new object sets. *)
Lemma header_from_json_new self json_obj :
  JumpStartModelHeader.from_json self json_obj =
    r ← JumpStartModelHeader.__init__ json_obj;
    Ok {| cls := cls self; attrs := Dict.update (attrs self) (attrs r) |}.
Proof.
  unfold JumpStartModelHeader.__init__, JumpStartModelHeader.from_json.
  repeat match goal with
         | |- context [subscript json_obj ?k] =>
             destruct (subscript json_obj k); cbn [mbind result_bind]; [|done]
         end.
  reflexivity.
Qed.

Lemma ecr_specs_from_json_new self json_obj :
  JumpStartECRSpecs.from_json self json_obj =
    r ← JumpStartECRSpecs.__init__ json_obj;
    Ok {| cls := cls self; attrs := Dict.update (attrs self) (attrs r) |}.
Proof.
  unfold JumpStartECRSpecs.__init__, JumpStartECRSpecs.from_json.
  repeat match goal with
         | |- context [subscript json_obj ?k] =>
             destruct (subscript json_obj k); cbn [mbind result_bind]; [|done]
         end.
  reflexivity.
Qed.

Lemma model_specs_from_json_new self json_obj :
  JumpStartModelSpecs.from_json self json_obj =
    r ← JumpStartModelSpecs.__init__ json_obj;
    Ok {| cls := cls self; attrs := Dict.update (attrs self) (attrs r) |}.
Proof.
  unfold JumpStartModelSpecs.__init__, JumpStartModelSpecs.from_json.
  repeat match goal with
         | |- context [subscript json_obj ?k] =>
             destruct (subscript json_obj k); cbn [mbind result_bind]; [|done]
         | |- context [JumpStartECRSpecs.__init__ ?s] =>
             destruct (JumpStartECRSpecs.__init__ s);
             cbn [mbind result_bind]; [|done]
         | |- context [dict_get json_obj ?k] =>
             destruct (dict_get json_obj k); cbn [mbind result_bind]; [|done]
         | |- context [if truthy ?v then _ else _] =>
             destruct (truthy v)
         end; reflexivity.
Qed.

Lemma model_specs_init_keys spec r :
  JumpStartModelSpecs.__init__ spec = Ok r →
  cls r = CJumpStartModelSpecs ∧
  Dict.keys (attrs r) = written (__slots__ CJumpStartModelSpecs).
Proof.
  unfold JumpStartModelSpecs.__init__, JumpStartModelSpecs.from_json. intros H.
  do 5 from_json_step H.
  apply bind_Ok in H as (hosting & Hhosting & H); cbn zeta in H.
  do 3 from_json_step H.
  destruct (truthy _) in H.
  - from_json_step H.
    apply bind_Ok in H as (training & Htraining & H); cbn zeta in H.
    do 3 from_json_step H. by injection H as <-.
  - by injection H as <-.
Qed.

Lemma written_NoDup c : in_module c = true → NoDup (written (__slots__ c)).
Proof.
  destruct c; try done; intros _;
    apply (bool_decide_unpack _); vm_compute; reflexivity.
Qed.

(** The attributes after [from_json], from those of a new object [r] with the
    attribute names [names]. *)
Lemma getattr_update_new (self_attrs new_attrs : list (string * jvalue)) names :
  Dict.keys new_attrs = names → NoDup names →
  (∀ k, k ∈ names →
        getattr (Dict.update self_attrs new_attrs) k = getattr new_attrs k) ∧
  (∀ k, k ∉ names →
        getattr (Dict.update self_attrs new_attrs) k = getattr self_attrs k).
Proof.
  intros <- Hnodup. split; intros k Hk; unfold getattr; rewrite get_update by done.
  - apply get_is_Some in Hk as [v ->]. done.
  - apply get_None in Hk. by rewrite Hk.
Qed.

(** X16: [from_json] on an object that exists does what building a new
    object from the same value does, for each of [JumpStartModelHeader],
    [JumpStartECRSpecs] and [JumpStartModelSpecs]: it raises what the
    constructor raises, and when it returns, every attribute the class
    declares is the one a new object would have, whatever the receiver held,
    and no other attribute of the receiver is touched. *)
Theorem from_json_as_new (c : class) (init : jvalue → result instance)
    (from_json : instance → jvalue → result instance) self json_obj :
  (c = CJumpStartModelHeader ∧ init = JumpStartModelHeader.__init__ ∧
   from_json = JumpStartModelHeader.from_json) ∨
  (c = CJumpStartECRSpecs ∧ init = JumpStartECRSpecs.__init__ ∧
   from_json = JumpStartECRSpecs.from_json) ∨
  (c = CJumpStartModelSpecs ∧ init = JumpStartModelSpecs.__init__ ∧
   from_json = JumpStartModelSpecs.from_json) →
  let names := written (__slots__ c) in
  (∀ e, from_json self json_obj = Raise e ↔ init json_obj = Raise e) ∧
  (∀ x, from_json self json_obj = Ok x →
        ∃ r, init json_obj = Ok r ∧ cls x = cls self ∧
             (∀ k, k ∈ names → getattr (attrs x) k = getattr (attrs r) k) ∧
             (∀ k, k ∉ names → getattr (attrs x) k = getattr (attrs self) k)).
Proof.
  intros Hc names.
  assert (from_json self json_obj =
            r ← init json_obj;
            Ok {| cls := cls self; attrs := Dict.update (attrs self) (attrs r) |})
    as ->.
  { destruct Hc as [(-> & -> & ->)|[(-> & -> & ->)|(-> & -> & ->)]];
      [apply header_from_json_new|apply ecr_specs_from_json_new
      |apply model_specs_from_json_new]. }
  assert (∀ r, init json_obj = Ok r → Dict.keys (attrs r) = names) as Hkeys.
  { intros r Hr. destruct Hc as [(-> & -> & ->)|[(-> & -> & ->)|(-> & -> & ->)]].
    - by apply header_init_Ok in Hr as (? & ? & ? & ? & _ & _ & _ & _ & ->).
    - by apply ecr_specs_init_Ok in Hr as (? & ? & ? & _ & _ & _ & ->).
    - by apply model_specs_init_keys in Hr as [_ ?]. }
  destruct (init json_obj) as [r|e'] eqn:Hinit; cbn [mbind result_bind].
  - split; [done|]. intros x [= <-]. exists r. split_and!; [done..| |].
    + apply (getattr_update_new _ _ names (Hkeys r eq_refl)), written_NoDup.
      by destruct Hc as [(-> & _)|[(-> & _)|(-> & _)]].
    + apply (getattr_update_new _ _ names (Hkeys r eq_refl)), written_NoDup.
      by destruct Hc as [(-> & _)|[(-> & _)|(-> & _)]].
  - split; [done|]. by intros x [=].
Qed.

Lemma from_json_as_new_witness :
  let ecr := JDict [("framework", JStr "pytorch");
                    ("framework_version", JStr "1.5.0");
                    ("py_version", JStr "py3")] in
  let self :=
    {| cls := CJumpStartECRSpecs;
       attrs := [("py_version", JStr "py2"); ("framework", JStr "mxnet");
                 ("framework_version", JStr "1.0.0")] |} in
  ∃ x, JumpStartECRSpecs.from_json self ecr = Ok x ∧
       getattr (attrs x) "framework" = Ok (JStr "pytorch") ∧
       getattr (attrs x) "py_version" = Ok (JStr "py3").
Proof.
  intros ecr self. eexists. split; [reflexivity|].
  edestruct (from_json_as_new CJumpStartECRSpecs JumpStartECRSpecs.__init__
               JumpStartECRSpecs.from_json self ecr) as (_ & Hx); [by right; left|].
  edestruct Hx as (r & Hr & _ & Hnames & _); [reflexivity|].
  injection Hr as <-. split.
  - rewrite (Hnames "framework"); [reflexivity|cbn [written __slots__]; here].
  - rewrite (Hnames "py_version"); [reflexivity|cbn [written __slots__]; here].
Defined.

(** ** What [JumpStartModelSpecs] asks of a dictionary *)

(** X17: which dictionaries [JumpStartModelSpecs] accepts.  The dictionary
    must have the seven keys of the model and its hosting, with ECR specs
    that [JumpStartECRSpecs] accepts under [hosting_ecr_specs], and the key
    [training_supported]; the three training keys are asked for only when
    [training_supported] is true, and [hyperparameters] is never asked for:
    the attribute is [None] when the key is missing. *)
Theorem model_specs_init_accepts (d : list (string * jvalue)) :
  let has k := is_Some (Dict.get k d) in
  let ecr_specs k :=
    ∃ v, Dict.get k d = Some v ∧ is_Ok (JumpStartECRSpecs.__init__ v) = true in
  (is_Ok (JumpStartModelSpecs.__init__ (JDict d)) = true ↔
   has "model_id" ∧ has "version" ∧ has "min_sdk_version" ∧
   has "incremental_training_supported" ∧ ecr_specs "hosting_ecr_specs" ∧
   has "hosting_artifact_key" ∧ has "hosting_script_key" ∧
   ∃ t, Dict.get "training_supported" d = Some t ∧
        (truthy t = true →
         ecr_specs "training_ecr_specs" ∧ has "training_artifact_key" ∧
         has "training_script_key")) ∧
  (∀ x t, JumpStartModelSpecs.__init__ (JDict d) = Ok x →
          Dict.get "training_supported" d = Some t → truthy t = true →
          getattr (attrs x) "hyperparameters" =
            Ok (default JNone (Dict.get "hyperparameters" d))).
Proof.
  intros has ecr_specs. subst has ecr_specs. cbv beta. split.
  - split.
    + destruct (JumpStartModelSpecs.__init__ (JDict d)) as [x|] eqn:H; [intros _|done].
      unfold JumpStartModelSpecs.__init__, JumpStartModelSpecs.from_json in H.
      rewrite !subscript_dict in H.
      destruct (Dict.get "model_id" d); [|done].
      destruct (Dict.get "version" d); [|done].
      destruct (Dict.get "min_sdk_version" d); [|done].
      destruct (Dict.get "incremental_training_supported" d); [|done].
      destruct (Dict.get "hosting_ecr_specs" d) as [hosting|]; [|done].
      cbn [mbind result_bind] in H.
      destruct (JumpStartECRSpecs.__init__ hosting) eqn:Hhosting; [|done].
      destruct (Dict.get "hosting_artifact_key" d); [|done].
      destruct (Dict.get "hosting_script_key" d); [|done].
      destruct (Dict.get "training_supported" d) as [t|]; [|done].
      cbn [mbind result_bind] in H.
      split_and!; try done.
      { exists hosting. by rewrite Hhosting. }
      exists t. split; [done|]. intros Ht. rewrite Ht in H.
      destruct (Dict.get "training_ecr_specs" d) as [training|]; [|done].
      cbn [mbind result_bind] in H.
      destruct (JumpStartECRSpecs.__init__ training) eqn:Htraining; [|done].
      destruct (Dict.get "training_artifact_key" d); [|done].
      destruct (Dict.get "training_script_key" d); [|done].
      split_and!; try done. exists training. by rewrite Htraining.
    + intros ([? E1] & [? E2] & [? E3] & [? E4] & (hosting & E5 & Hhosting) &
              [? E6] & [? E7] & t & E8 & Ht).
      unfold JumpStartModelSpecs.__init__, JumpStartModelSpecs.from_json.
      rewrite !subscript_dict, E1, E2, E3, E4, E5, E6, E7, E8.
      cbn [mbind result_bind].
      destruct (JumpStartECRSpecs.__init__ hosting); [|done].
      cbn [mbind result_bind].
      destruct (truthy t); [|done].
      destruct Ht as ((training & E9 & Htraining) & [? E10] & [? E11]); [done|].
      rewrite E9, E10, E11. cbn [mbind result_bind].
      destruct (JumpStartECRSpecs.__init__ training); [|done]. done.
  - intros x t H Et Ht.
    unfold JumpStartModelSpecs.__init__, JumpStartModelSpecs.from_json in H.
    do 5 from_json_step H.
    apply bind_Ok in H as (hosting & Hhosting & H); cbn zeta in H.
    do 3 from_json_step H.
    match goal with
    | Hv : subscript _ "training_supported" = Ok _ |- _ =>
        rewrite subscript_dict, Et in Hv; injection Hv as <-
    end.
    rewrite Ht in H. from_json_step H.
    apply bind_Ok in H as (training & Htraining & H); cbn zeta in H.
    do 3 from_json_step H. injection H as <-.
    match goal with
    | Hv : dict_get _ "hyperparameters" = Ok _ |- _ => injection Hv as <-
    end.
    by rewrite getattr_setattr.
Qed.

(** ** The classes with two fields *)

(** X18: the four classes whose constructor stores its two arguments,
    [JumpStartLaunchedRegionInfo], [JumpStartVersionedModelId],
    [JumpStartCachedS3ContentKey] and [JumpStartCachedS3ContentValue]: two
    objects of one of them compare by their fields in the order of the
    declaration, the second field only when the first ones are equal, and an
    exception of a field comparison is the exception of the comparison; two
    objects of two of these classes are never equal. *)
Theorem two_field_eq `{!SetOrder} (init init' : jvalue → jvalue → instance)
    a b a' b' :
  init ∈ [JumpStartLaunchedRegionInfo.__init__; JumpStartVersionedModelId.__init__;
          JumpStartCachedS3ContentKey.__init__;
          JumpStartCachedS3ContentValue.__init__] →
  init' ∈ [JumpStartLaunchedRegionInfo.__init__; JumpStartVersionedModelId.__init__;
           JumpStartCachedS3ContentKey.__init__;
           JumpStartCachedS3ContentValue.__init__] →
  __eq__ py_ne (init a b) (obj (init a' b')) =
    (same ← py_eq a a'; if same : bool then py_eq b b' else Ok false) ∧
  (cls (init a b) ≠ cls (init' a' b') →
   __eq__ py_ne (init a b) (obj (init' a' b')) = Ok false).
Proof.
  intros Hinit Hinit'. split.
  - clear Hinit'.
    repeat (apply elem_of_cons in Hinit as [->|Hinit];
            [cbv -[py_eq];
             by destruct (py_eq a a') as [[]|], (py_eq b b') as [[]|]|]).
    by apply not_elem_of_nil in Hinit.
  - repeat (apply elem_of_cons in Hinit as [->|Hinit];
            [repeat (apply elem_of_cons in Hinit' as [->|Hinit'];
                     [by intros ?|]);
             by apply not_elem_of_nil in Hinit'|]).
    by apply not_elem_of_nil in Hinit.
Qed.

Lemma two_field_eq_witness :
  let order : SetOrder := set_order_written in
  __eq__ py_ne
    (JumpStartVersionedModelId.__init__ (JStr "m") (JStr "1.0.0"))
    (obj (JumpStartVersionedModelId.__init__ (JStr "m") (JStr "1.0.0"))) = Ok true ∧
  __eq__ py_ne
    (JumpStartVersionedModelId.__init__ (JStr "m") (JStr "1.0.0"))
    (obj (JumpStartCachedS3ContentKey.__init__ (JStr "m") (JStr "1.0.0"))) = Ok false.
Proof.
  intros order. split.
  - rewrite (proj1 (two_field_eq JumpStartVersionedModelId.__init__
                      JumpStartVersionedModelId.__init__ (JStr "m") (JStr "1.0.0")
                      (JStr "m") (JStr "1.0.0") ltac:(here) ltac:(here))).
    reflexivity.
  - apply (two_field_eq JumpStartVersionedModelId.__init__
             JumpStartCachedS3ContentKey.__init__ (JStr "m") (JStr "1.0.0")
             (JStr "m") (JStr "1.0.0")); [here|here|discriminate].
Defined.

(** ** [==] on complete values *)

Lemma dict_eq_loop_true `{!SetOrder} d2 d :
  dict_eq_loop d2 d = Ok true ↔
  ∀ k v, (k, v) ∈ d → ∃ v2, Dict.get k d2 = Some v2 ∧ py_eq v v2 = Ok true.
Proof.
  induction d as [|[k v] d IH]; simpl.
  - split; [|done]. intros _ k v Hin. by apply not_elem_of_nil in Hin.
  - split.
    + intros Hloop k' v' Hin.
      destruct (Dict.get k d2) as [v2|] eqn:Hk; [|done].
      destruct (py_eq v v2) as [[]|] eqn:Hv; simpl in Hloop; [|done..].
      apply elem_of_cons in Hin as [[= -> ->]|Hin]; [by exists v2|by apply IH].
    + intros Hall. destruct (Hall k v) as (v2 & -> & ->); [left|].
      simpl. apply IH. intros k' v' Hin. apply Hall. by right.
Qed.

Lemma dict_eq_loop_total `{!SetOrder} d2 d :
  (∀ k v v2, (k, v) ∈ d → Dict.get k d2 = Some v2 → ∃ r, py_eq v v2 = Ok r) →
  ∃ r, dict_eq_loop d2 d = Ok r.
Proof.
  induction d as [|[k v] d IH]; intros Hall; simpl; [by eexists|].
  destruct (Dict.get k d2) as [v2|] eqn:Hk; [|by eexists].
  destruct (Hall k v v2) as [[] ->]; [left|done| |]; simpl; [|by eexists].
  apply IH. intros k' v' v2' Hin. apply Hall. by right.
Qed.

Lemma list_eq_loop_sym `{!SetOrder} xs ys :
  length xs = length ys →
  Forall (λ x, ∀ y, y ∈ ys →
               (∃ r, py_eq x y = Ok r) ∧ py_eq x y = py_eq y x) xs →
  (∃ r, list_eq_loop xs ys = Ok r) ∧ list_eq_loop xs ys = list_eq_loop ys xs.
Proof.
  revert ys. induction xs as [|x xs IH]; intros [|y ys] Hlen Hall; simplify_eq/=.
  - split; [by eexists|done].
  - apply Forall_cons in Hall as [Hx Hall].
    destruct (Hx y) as [[r Hr] Hsym]; [left|]. rewrite <-Hsym, Hr. simpl.
    destruct r; [|split; [by eexists|done]].
    apply IH; [done|]. eapply Forall_impl; [exact Hall|].
    intros x' Hx' y' Hy'. apply Hx'. by right.
Qed.

Lemma dict_eq_loop_keys `{!SetOrder} d1 d2 :
  NoDup d1.*1 → length d1 = length d2 →
  dict_eq_loop d2 d1 = Ok true → d1.*1 ≡ₚ d2.*1.
Proof.
  intros Hnodup Hlen Hloop. apply submseteq_length_Permutation.
  - apply NoDup_submseteq; [done|]. intros k Hk.
    apply get_is_Some in Hk as [v Hk]. apply get_Some_elem_of in Hk.
    destruct (proj1 (dict_eq_loop_true d2 d1) Hloop k v Hk) as (v2 & Hv2 & _).
    apply get_is_Some. by eexists.
  - rewrite !length_fmap. lia.
Qed.

(** One direction of the symmetry of [==] on dictionaries. *)
Lemma dict_eq_loop_sym_true `{!SetOrder} d1 d2 :
  NoDup d1.*1 → NoDup d2.*1 → length d1 = length d2 →
  (∀ k v1 v2, (k, v1) ∈ d1 → (k, v2) ∈ d2 → py_eq v1 v2 = py_eq v2 v1) →
  dict_eq_loop d2 d1 = Ok true → dict_eq_loop d1 d2 = Ok true.
Proof.
  intros Hwf1 Hwf2 Hlen Hsym Hloop.
  pose proof (dict_eq_loop_keys d1 d2 Hwf1 Hlen Hloop) as Hkeys.
  apply dict_eq_loop_true. intros k v2 Hin.
  assert (k ∈ d1.*1) as Hk.
  { rewrite Hkeys. apply list_elem_of_fmap. by exists (k, v2). }
  apply get_is_Some in Hk as [v1 Hk]. exists v1. split; [done|].
  pose proof (get_Some_elem_of _ _ _ Hk) as Hin1.
  destruct (proj1 (dict_eq_loop_true d2 d1) Hloop k v1 Hin1) as (v2' & Hv2' & Heq).
  rewrite (elem_of_get k v2 d2) in Hv2' by done. injection Hv2' as <-.
  by rewrite <-(Hsym k v1 v2).
Qed.

Lemma eq_loop_sym `{!SetOrder} self_attrs other_attrs names :
  (∀ n, n ∈ names → is_Some (Dict.get n self_attrs) ∧
                     is_Some (Dict.get n other_attrs)) →
  (∀ n x y, Dict.get n self_attrs = Some x → Dict.get n other_attrs = Some y →
            (∃ r, py_eq x y = Ok r) ∧ py_eq x y = py_eq y x) →
  (∃ r, eq_loop py_ne self_attrs other_attrs names = Ok r) ∧
  eq_loop py_ne self_attrs other_attrs names =
    eq_loop py_ne other_attrs self_attrs names.
Proof.
  intros Hset Hsym. induction names as [|n names IH]; simpl.
  - split; [by eexists|done].
  - destruct (Hset n) as [[x Hx] [y Hy]]; [left|].
    unfold getattr. rewrite Hx, Hy. simpl.
    destruct (Hsym n x y Hx Hy) as [[r Hr] Hxy].
    unfold py_ne. rewrite <-Hxy, Hr. simpl.
    destruct r; simpl; [|split; [by eexists|done]].
    apply IH. intros n' Hn'. apply Hset. by right.
Qed.

Lemma complete_get d k v :
  forallb (λ kv : string * jvalue, complete kv.2) d = true →
  Dict.get k d = Some v → complete v = true.
Proof.
  intros Hd Hk%get_Some_elem_of. rewrite forallb_forall in Hd.
  by apply (Hd (k, v)), list_elem_of_In.
Qed.

(** On complete values [==] returns, and gives the same in both directions. *)
Lemma py_eq_sym `{!SetOrder} a :
  ∀ b, complete a = true → complete b = true →
       (∃ r, py_eq a b = Ok r) ∧ py_eq a b = py_eq b a.
Proof.
  induction a as [|x|m|s|xs IH|d1 IH|c attrs IH] using jvalue_nested_ind;
    intros b Ha Hb.
  - destruct b; simpl; (split; [by eexists|done]).
  - destruct b as [|y|n| | | |]; simpl; (split; [by eexists|]); try done.
    + by destruct x, y.
    + by rewrite Z.eqb_sym.
  - destruct b as [|y|n| | | |]; simpl; (split; [by eexists|]); try done.
    + by rewrite Z.eqb_sym.
    + by rewrite Z.eqb_sym.
  - destruct b as [| | |t| | |]; simpl; (split; [by eexists|]); try done.
    by rewrite String.eqb_sym.
  - destruct b as [| | | |ys| |]; try (split; [by eexists|done]).
    rewrite !py_eq_list, (Nat.eqb_sym (length ys)).
    destruct (length xs =? length ys)%nat eqn:Hlen; simpl;
      [|split; [by eexists|done]].
    apply Nat.eqb_eq in Hlen. apply list_eq_loop_sym; [done|].
    simpl in Ha, Hb. rewrite forallb_forall in Ha, Hb.
    rewrite Forall_forall in IH. apply Forall_forall. intros x Hx y Hy.
    apply IH; [done|by apply Ha, list_elem_of_In|by apply Hb, list_elem_of_In].
  - destruct b as [| | | | |d2|]; try (split; [by eexists|done]).
    rewrite !py_eq_dict, (Nat.eqb_sym (length d2)).
    destruct (length d1 =? length d2)%nat eqn:Hlen; simpl;
      [|split; [by eexists|done]].
    apply Nat.eqb_eq in Hlen. simpl in Ha, Hb.
    apply andb_prop in Ha as [Hwf1%bool_decide_eq_true Ha].
    apply andb_prop in Hb as [Hwf2%bool_decide_eq_true Hb].
    rewrite Forall_forall in IH.
    assert (∀ k v1 v2, (k, v1) ∈ d1 → (k, v2) ∈ d2 →
              (∃ r, py_eq v1 v2 = Ok r) ∧ py_eq v1 v2 = py_eq v2 v1) as Hvalues.
    { intros k v1 v2 Hin1 Hin2. apply (IH (k, v1) Hin1).
      - apply (complete_get d1 k); [done|]. by apply elem_of_get.
      - apply (complete_get d2 k); [done|]. by apply elem_of_get. }
    destruct (dict_eq_loop_total d2 d1) as [r12 H12].
    { intros k v v2 Hin Hk. apply (Hvalues k); [done|by apply get_Some_elem_of]. }
    destruct (dict_eq_loop_total d1 d2) as [r21 H21].
    { intros k v2 v1 Hin Hk.
      destruct (Hvalues k v1 v2) as [Hr Hs]; [by apply get_Some_elem_of|done|].
      by rewrite <-Hs. }
    split; [by eexists|]. rewrite H12, H21. f_equal.
    destruct r12, r21; try done.
    + rewrite (dict_eq_loop_sym_true d1 d2) in H21; try done.
      intros k v1 v2 Hin1 Hin2. by apply (Hvalues k).
    + rewrite (dict_eq_loop_sym_true d2 d1) in H12; try done.
      intros k v2 v1 Hin2 Hin1. symmetry. by apply (Hvalues k).
  - destruct b as [| | | | | |c' attrs']; try (split; [by eexists|done]).
    destruct (decide (c' = c)) as [->|Hne].
    + rewrite !py_eq_same_class, !eq_unfold. cbn [cls JumpStart.attrs].
      rewrite !issubclass_refl, !slots_neb_refl. cbn [negb].
      simpl in Ha, Hb.
      apply andb_prop in Ha as [Hslots%bool_decide_eq_true Ha].
      apply andb_prop in Hb as [Hslots'%bool_decide_eq_true Hb].
      apply eq_loop_sym.
      * intros n Hn%slot_names_elem_of.
        split; apply get_is_Some; [by apply Hslots|by apply Hslots'].
      * intros n x y Hx Hy. rewrite Forall_forall in IH.
        apply (IH (n, x)); [by apply get_Some_elem_of|..].
        -- by apply (complete_get attrs n).
        -- by apply (complete_get attrs' n).
    + rewrite (py_eq_other_class c attrs c' attrs') by done.
      rewrite (py_eq_other_class c' attrs' c attrs) by congruence.
      split; [by eexists|done].
Qed.

Lemma list_eq_loop_true `{!SetOrder} xs ys :
  length xs = length ys →
  list_eq_loop xs ys = Ok true ↔ Forall2 (λ x y, py_eq x y = Ok true) xs ys.
Proof.
  revert ys. induction xs as [|x xs IH]; intros [|y ys] Hlen; simplify_eq/=.
  - split; [constructor|done].
  - split.
    + destruct (py_eq x y) as [[]|] eqn:Hxy; simpl; [|done..].
      intros Hloop. constructor; [done|]. by apply IH.
    + intros [Hxy Hall]%Forall2_cons. rewrite Hxy. simpl. by apply IH.
Qed.

Lemma py_eq_obj_true `{!SetOrder} c self_attrs b :
  py_eq (JObj c self_attrs) b = Ok true →
  ∃ other_attrs,
    b = JObj c other_attrs ∧
    ∀ n, n ∈ slot_names (__slots__ c) →
      ∃ x y, Dict.get n self_attrs = Some x ∧ Dict.get n other_attrs = Some y ∧
             py_eq x y = Ok true.
Proof.
  destruct b as [| | | | | |c' other_attrs]; try done.
  destruct (decide (c' = c)) as [->|Hne]; [|by rewrite py_eq_other_class].
  rewrite py_eq_same_class, eq_unfold. cbn [cls JumpStart.attrs].
  rewrite issubclass_refl, slots_neb_refl. cbn [negb]. rewrite eq_loop_true.
  intros Hall. exists other_attrs. split; [done|]. intros n Hn.
  destruct (Hall n Hn) as (x & y & Hx & Hy & Hxy%py_ne_false).
  unfold getattr in Hx, Hy.
  destruct (Dict.get n self_attrs) as [x'|]; [|done].
  destruct (Dict.get n other_attrs) as [y'|]; [|done].
  simplify_eq. by exists x, y.
Qed.

(** Transitivity of [==] on numbers, booleans and strings. *)
Ltac scalar_trans b c Hab Hbc :=
  destruct b; simpl in Hab; try done; injection Hab as Hab;
  destruct c; simpl in Hbc |- *; try done; injection Hbc as Hbc; f_equal;
  repeat match goal with
         | H : Bool.eqb _ _ = true |- _ => apply Bool.eqb_prop in H
         | H : (_ =? _)%Z = true |- _ => apply Z.eqb_eq in H
         | H : String.eqb _ _ = true |- _ => apply String.eqb_eq in H
         end;
  subst; rewrite ?Z.eqb_refl, ?String.eqb_refl; try done;
  repeat match goal with x : bool |- _ => destruct x end;
  try done; try (apply Z.eqb_eq; simpl in *; lia); simpl in *; lia.

(** On complete values [==] is transitive. *)
Lemma py_eq_trans `{!SetOrder} a :
  ∀ b c, complete a = true → complete b = true → complete c = true →
         py_eq a b = Ok true → py_eq b c = Ok true → py_eq a c = Ok true.
Proof.
  induction a as [|x|m|s|xs IH|d1 IH|cl attrs1 IH] using jvalue_nested_ind;
    intros b c Ha Hb Hc Hab Hbc.
  - destruct b; simplify_eq/=. by destruct c.
  - scalar_trans b c Hab Hbc.
  - scalar_trans b c Hab Hbc.
  - scalar_trans b c Hab Hbc.
  - destruct b as [| | | |ys| |]; try done.
    destruct c as [| | | |zs| |]; try (by destruct ys).
    rewrite py_eq_list in Hab, Hbc |- *.
    destruct (length xs =? length ys)%nat eqn:Hlen1; [|done].
    destruct (length ys =? length zs)%nat eqn:Hlen2; [|done].
    apply Nat.eqb_eq in Hlen1, Hlen2. simpl in Hab, Hbc.
    assert (length xs = length zs) as Hlen by congruence.
    rewrite (proj2 (Nat.eqb_eq _ _) Hlen). simpl.
    apply list_eq_loop_true in Hab, Hbc; try done. apply list_eq_loop_true; [done|].
    simpl in Ha, Hb, Hc. rewrite forallb_forall in Ha, Hb, Hc.
    clear Hlen Hlen1 Hlen2. revert zs Hbc Hc.
    induction Hab as [|x y xs ys Hxy Hab IHab]; intros zs Hbc Hc.
    + by apply Forall2_nil_inv_l in Hbc as ->.
    + apply Forall2_cons_inv_l in Hbc as (z & zs' & Hyz & Hbc & ->).
      apply Forall_cons in IH as [IHx IH].
      constructor.
      * apply (IHx y z); [apply Ha|apply Hb|apply Hc|done..]; left; done.
      * apply IHab; [done|..].
        -- intros v Hv. apply Ha. by right.
        -- intros v Hv. apply Hb. by right.
        -- done.
        -- intros v Hv. apply Hc. by right.
  - destruct b as [| | | | |d2|]; try done.
    destruct c as [| | | | |d3|]; try (by destruct d2).
    rewrite py_eq_dict in Hab, Hbc |- *.
    destruct (length d1 =? length d2)%nat eqn:Hlen1; [|done].
    destruct (length d2 =? length d3)%nat eqn:Hlen2; [|done].
    apply Nat.eqb_eq in Hlen1, Hlen2. simpl in Hab, Hbc.
    assert (length d1 = length d3) as Hlen by congruence.
    rewrite (proj2 (Nat.eqb_eq _ _) Hlen). simpl.
    simpl in Ha, Hb, Hc.
    apply andb_prop in Ha as [_ Ha]. apply andb_prop in Hb as [_ Hb].
    apply andb_prop in Hc as [_ Hc].
    rewrite dict_eq_loop_true in Hab, Hbc |- *. intros k v1 Hin1.
    destruct (Hab k v1 Hin1) as (v2 & Hk2 & H12).
    destruct (Hbc k v2 (get_Some_elem_of _ _ _ Hk2)) as (v3 & Hk3 & H23).
    exists v3. split; [done|]. rewrite Forall_forall in IH.
    apply (IH (k, v1) Hin1 v2 v3);
      [|by apply (complete_get d2 k)|by apply (complete_get d3 k)|done|done].
    rewrite forallb_forall in Ha. by apply (Ha (k, v1)), list_elem_of_In.
  - apply py_eq_obj_true in Hab as (attrs2 & -> & Hab).
    apply py_eq_obj_true in Hbc as (attrs3 & -> & Hbc).
    rewrite py_eq_same_class, eq_unfold. cbn [cls JumpStart.attrs].
    rewrite issubclass_refl, slots_neb_refl. cbn [negb]. apply eq_loop_true.
    intros n Hn.
    destruct (Hab n Hn) as (x & y & Hx & Hy & Hxy).
    destruct (Hbc n Hn) as (y' & z & Hy' & Hz & Hyz). simplify_eq.
    exists x, z. unfold getattr. rewrite Hx, Hz. split_and!; [done..|].
    apply py_ne_false. rewrite Forall_forall in IH.
    simpl in Ha, Hb, Hc.
    apply andb_prop in Ha as [_ Ha]. apply andb_prop in Hb as [_ Hb].
    apply andb_prop in Hc as [_ Hc].
    apply (IH (n, x) (get_Some_elem_of _ _ _ Hx) y z);
      [by apply (complete_get attrs1 n)|by apply (complete_get attrs2 n)
      |by apply (complete_get attrs3 n)|done|done].
Qed.

(** Two declarations that compare equal have the same names. *)
Lemma slots_neb_false s1 s2 k :
  slots_neb s1 s2 = false → k ∈ written s1 ↔ k ∈ written s2.
Proof.
  destruct s1 as [l1|l1], s2 as [l2|l2]; try done; cbn [slots_neb written].
  - by intros ->%negb_false_iff%bool_decide_eq_true.
  - intros [H12%bool_decide_eq_true H21%bool_decide_eq_true]%negb_false_iff%andb_prop.
    split; [apply H12|apply H21].
Qed.

(** On complete objects [__eq__] returns. *)
Lemma eq_total `{!SetOrder} x y :
  complete (obj x) = true → complete (obj y) = true →
  ∃ r, __eq__ py_ne x (obj y) = Ok r.
Proof.
  destruct x as [c attrs1], y as [c' attrs2]. unfold obj.
  cbn [cls attrs complete]. rewrite eq_unfold. cbn [cls attrs].
  intros [Hx Hattrs1]%andb_prop [Hy Hattrs2]%andb_prop.
  apply bool_decide_eq_true in Hx, Hy.
  destruct (negb (issubclass c' c)); [by eexists|].
  destruct (slots_neb (__slots__ c) (__slots__ c')) eqn:Hslots; [by eexists|].
  apply eq_loop_sym.
  - intros n Hn%slot_names_elem_of. split; apply get_is_Some; [by apply Hx|].
    by apply Hy, (slots_neb_false _ _ n Hslots).
  - intros n v1 v2 Hv1 Hv2. apply py_eq_sym.
    + by apply (complete_get attrs1 n).
    + by apply (complete_get attrs2 n).
Qed.

(** X19: on objects that have every attribute of their class set, [==]
    between data holders is an equivalence: it never raises, an object
    equals itself, [x == y] is what [y == x] is, and [x == y] with [y == z]
    gives [x == z].  Here [x == y] is what Python makes of the [__eq__] of
    the two classes: the answer of the [__eq__] of [y] when the class of [y]
    is derived from the class of [x], the answer of the [__eq__] of [x]
    otherwise, and so [x.__eq__(y)] for two instances of one class.
    [__eq__] itself never raises on such objects and answers [True] for the
    object itself. *)
Theorem data_holder_eq_equivalence `{!SetOrder} (x y z : instance) :
  complete (obj x) = true → complete (obj y) = true → complete (obj z) = true →
  (∃ r, py_eq (obj x) (obj y) = Ok r) ∧
  py_eq (obj x) (obj x) = Ok true ∧
  py_eq (obj x) (obj y) = py_eq (obj y) (obj x) ∧
  (py_eq (obj x) (obj y) = Ok true → py_eq (obj y) (obj z) = Ok true →
   py_eq (obj x) (obj z) = Ok true) ∧
  py_eq (obj x) (obj y) = obj_eq (__eq__ py_ne) x y ∧
  (cls y = cls x → py_eq (obj x) (obj y) = __eq__ py_ne x (obj y)) ∧
  (∃ r, __eq__ py_ne x (obj y) = Ok r) ∧
  __eq__ py_ne x (obj x) = Ok true.
Proof.
  intros Hx Hy Hz.
  destruct (py_eq_sym (obj x) (obj y) Hx Hy) as [Htotal Hsym].
  split_and!; [done|by apply py_eq_refl|done| | | | |].
  - by apply py_eq_trans.
  - apply py_eq_obj.
  - intros Hcls. destruct x as [c attrs1], y as [c' attrs2].
    cbn [cls] in Hcls. subst c'. apply py_eq_same_class.
  - by apply eq_total.
  - by apply eq_self.
Qed.

Lemma data_holder_eq_equivalence_witness :
  let order : SetOrder := set_order_written in
  let x := JumpStartVersionedModelId.__init__ (JStr "m") (JInt 1) in
  let y := JumpStartVersionedModelId.__init__ (JStr "m") (JBool true) in
  let z := JumpStartVersionedModelId.__init__ (JStr "m") (JInt 1) in
  py_eq (obj x) (obj y) = Ok true ∧ py_eq (obj y) (obj x) = Ok true ∧
  py_eq (obj x) (obj z) = Ok true ∧ __eq__ py_ne x (obj y) = Ok true.
Proof.
  intros order x y z.
  destruct (data_holder_eq_equivalence x y z eq_refl eq_refl eq_refl)
    as (_ & _ & Hsym & Htrans & _ & Hsame & _).
  split_and!; [reflexivity|by rewrite <-Hsym|by apply Htrans|].
  by rewrite <-Hsame.
Defined.

(** ** [__hash__] *)

Section hash_facts.
Context `{!SetOrder}.
Context (hash_scalar : jvalue → Z) (hash_type : class → Z)
  (hash_tuple : list Z → Z).

Local Abbreviation py_hash := (JumpStart.py_hash hash_scalar hash_type hash_tuple).
Local Abbreviation __hash__ := (JumpStart.__hash__ hash_type hash_tuple).

Lemma mapM_Ok {A B} (f : A → result B) xs ys :
  mapM f xs = Ok ys ↔ Forall2 (λ x y, f x = Ok y) xs ys.
Proof.
  revert ys. induction xs as [|x xs IH]; intros ys; simpl.
  - split; [intros [= <-]; constructor|by intros ->%Forall2_nil_inv_l].
  - split.
    + destruct (f x) as [y|] eqn:Hy; simpl; [|done].
      destruct (mapM f xs) as [ys'|] eqn:Hys; simpl; [|done].
      intros [= <-]. constructor; [done|]. by apply IH.
    + intros (y & ys' & Hy & Hys & ->)%Forall2_cons_inv_l.
      rewrite Hy. simpl. apply IH in Hys. by rewrite Hys.
Qed.

(** The hash of values, at an instance, is the [__hash__] of the class. *)
Lemma py_hash_obj c self_attrs :
  py_hash (JObj c self_attrs) =
    __hash__ py_hash {| cls := c; attrs := self_attrs |}.
Proof.
  unfold JumpStart.__hash__. cbn [cls attrs py_hash].
  destruct (mapM (getattr self_attrs) (slot_names (__slots__ c)))
    as [values|] eqn:Hvalues; [|done].
  cbn [mbind result_bind]. f_equal.
  apply mapM_Ok in Hvalues. revert Hvalues.
  generalize (slot_names (__slots__ c)). intros names Hvalues.
  induction Hvalues as [|n x names values Hx Hvalues IH]; [done|].
  cbn [mapM]. rewrite <-IH. f_equal. clear IH Hvalues.
  unfold getattr in Hx.
  induction self_attrs as [|[k x'] self_attrs IH]; [done|].
  simpl in Hx. case_decide; [by simplify_eq|]. by apply IH.
Qed.

Lemma mapM_is_Ok {A B} (f : A → result B) xs :
  is_Ok (mapM f xs) = true ↔ Forall (λ x, is_Ok (f x) = true) xs.
Proof.
  induction xs as [|x xs IH]; simpl; [done|].
  rewrite Forall_cons, <-IH.
  destruct (f x); simpl; [|naive_solver].
  destruct (mapM f xs); simpl; naive_solver.
Qed.

Lemma mapM_Raise_cases {A B} (f : A → result B) xs e :
  Forall (λ x, is_Ok (f x) = true ∨ f x = Raise e) xs →
  is_Ok (mapM f xs) = true ∨ mapM f xs = Raise e.
Proof.
  induction 1 as [|x xs [Hx|Hx] Hxs [IH|IH]]; simpl; [by left|..].
  - destruct (f x); [|done]. simpl. destruct (mapM f xs); [|done]. by left.
  - destruct (f x); [|done]. simpl. rewrite IH. by right.
  - rewrite Hx. by right.
  - rewrite Hx. by right.
Qed.

Lemma mapM_getattr (self_attrs : list (string * jvalue)) names :
  names ⊆ self_attrs.*1 →
  ∃ values,
    mapM (getattr self_attrs) names = Ok values ∧
    Forall2 (λ n x, Dict.get n self_attrs = Some x) names values.
Proof.
  induction names as [|n names IH]; intros Hsub; simpl.
  - exists []. by split.
  - destruct IH as (values & -> & Hall); [set_solver|].
    assert (n ∈ self_attrs.*1) as [x Hx]%get_is_Some by set_solver.
    unfold getattr. rewrite Hx. simpl. exists (x :: values). split; [done|].
    by constructor.
Qed.

(** The run of [__hash__] on a complete object. *)
Lemma hash_run (hash : jvalue → result Z) c self_attrs :
  written (__slots__ c) ⊆ self_attrs.*1 →
  ∃ values,
    Forall2 (λ n x, Dict.get n self_attrs = Some x)
      (slot_names (__slots__ c)) values ∧
    __hash__ hash {| cls := c; attrs := self_attrs |} =
      hashes ← mapM hash values; Ok (hash_tuple (hash_type c :: hashes)).
Proof.
  intros Hsub.
  destruct (mapM_getattr self_attrs (slot_names (__slots__ c)))
    as (values & Hrun & Hall).
  { intros n Hn%slot_names_elem_of. by apply Hsub. }
  exists values. split; [done|]. unfold JumpStart.__hash__. cbn [cls attrs].
  by rewrite Hrun.
Qed.

Lemma values_of_names (self_attrs : list (string * jvalue)) names values :
  Forall2 (λ n x, Dict.get n self_attrs = Some x) names values →
  Forall (λ x, ∃ n, n ∈ names ∧ Dict.get n self_attrs = Some x) values.
Proof.
  induction 1 as [|n x names values Hx Hall IH]; constructor.
  - exists n. split; [left|done].
  - eapply Forall_impl; [exact IH|]. intros y (m & Hm & Hy).
    exists m. split; [by right|done].
Qed.

(** The hash of a complete value is there, or the value is unhashable. *)
Lemma py_hash_complete v :
  complete v = true → is_Ok (py_hash v) = true ∨ py_hash v = Raise TypeError.
Proof.
  induction v as [| | | |vs IH|d IH|c self_attrs IH] using jvalue_nested_ind;
    intros Hv; try (by left); try (by right).
  rewrite py_hash_obj. simpl in Hv.
  apply andb_prop in Hv as [Hslots%bool_decide_eq_true Hv].
  destruct (hash_run py_hash c self_attrs Hslots) as (values & Hvalues & ->).
  destruct (mapM_Raise_cases py_hash values TypeError) as [Hok|Hraise].
  - eapply Forall_impl; [exact (values_of_names _ _ _ Hvalues)|].
    intros x (n & _ & Hx). rewrite Forall_forall in IH.
    apply (IH (n, x)); [by apply get_Some_elem_of|by apply (complete_get self_attrs n)].
  - left. by destruct (mapM py_hash values).
  - right. by rewrite Hraise.
Qed.

Lemma values_related (attrs1 attrs2 : list (string * jvalue)) names values1 values2
    (P : jvalue → jvalue → Prop) :
  Forall2 (λ n x, Dict.get n attrs1 = Some x) names values1 →
  Forall2 (λ n x, Dict.get n attrs2 = Some x) names values2 →
  (∀ n x y, n ∈ names → Dict.get n attrs1 = Some x → Dict.get n attrs2 = Some y →
            P x y) →
  Forall2 P values1 values2.
Proof.
  intros H1. revert values2.
  induction H1 as [|n x names values1 Hx H1 IH]; intros values2 H2 HP.
  - apply Forall2_nil_inv_l in H2 as ->. constructor.
  - apply Forall2_cons_inv_l in H2 as (y & values2' & Hy & H2 & ->).
    constructor; [apply (HP n); [left|done..]|].
    apply IH; [done|]. intros m x' y' Hm. apply HP. by right.
Qed.

Lemma mapM_ext_Forall2 {A B} (f : A → result B) xs ys :
  Forall2 (λ x y, f x = f y) xs ys → mapM f xs = mapM f ys.
Proof. induction 1 as [|x y xs ys Hxy Hall IH]; simpl; [done|]. by rewrite Hxy, IH. Qed.

Hypothesis hash_scalar_eq :
  ∀ a b, py_eq a b = Ok true → hash_scalar a = hash_scalar b.

(** Equal complete values have the same hash, or are both unhashable. *)
Lemma py_hash_eq a :
  ∀ b, complete a = true → complete b = true → py_eq a b = Ok true →
       py_hash a = py_hash b.
Proof.
  induction a as [|x|m|s|xs IH|d1 IH|c attrs1 IH] using jvalue_nested_ind;
    intros b Ha Hb Hab.
  - destruct b; try done; simpl; f_equal; by apply hash_scalar_eq.
  - destruct b; try done; simpl; f_equal; by apply hash_scalar_eq.
  - destruct b; try done; simpl; f_equal; by apply hash_scalar_eq.
  - destruct b; try done; simpl; f_equal; by apply hash_scalar_eq.
  - destruct b as [| | | |ys| |]; try done.
  - destruct b as [| | | | |d2|]; try done.
  - apply py_eq_obj_true in Hab as (attrs2 & -> & Hab).
    rewrite !py_hash_obj. simpl in Ha, Hb.
    apply andb_prop in Ha as [Hslots1%bool_decide_eq_true Ha].
    apply andb_prop in Hb as [Hslots2%bool_decide_eq_true Hb].
    destruct (hash_run py_hash c attrs1 Hslots1) as (values1 & Hvalues1 & ->).
    destruct (hash_run py_hash c attrs2 Hslots2) as (values2 & Hvalues2 & ->).
    rewrite (mapM_ext_Forall2 py_hash values1 values2); [done|].
    apply (values_related attrs1 attrs2 (slot_names (__slots__ c))); [done..|].
    intros n x y Hn Hx Hy. rewrite Forall_forall in IH.
    destruct (Hab n Hn) as (x' & y' & Hx' & Hy' & Hxy). simplify_eq.
    apply (IH (n, x)); [by apply get_Some_elem_of| | |done].
    + by apply (complete_get attrs1 n).
    + by apply (complete_get attrs2 n).
Qed.

End hash_facts.

Lemma instance_eta x : {| cls := cls x; attrs := attrs x |} = x.
Proof. by destruct x. Qed.

(** X20: [__hash__] agrees with [==]: when Python's hash gives equal
    numbers, booleans and strings the same hash, two objects that have all
    their attributes and are equal for [==] have the same [__hash__], or
    neither has one; so have two instances of one class that are equal for
    [__eq__].  The hash is made from the class of the object, and [==] holds
    between instances of one class only. *)
Theorem data_holder_hash_eq `{!SetOrder} (hash_scalar : jvalue → Z)
    (hash_type : class → Z) (hash_tuple : list Z → Z) (x y : instance) :
  (∀ a b, py_eq a b = Ok true → hash_scalar a = hash_scalar b) →
  complete (obj x) = true → complete (obj y) = true →
  (py_eq (obj x) (obj y) = Ok true →
   cls y = cls x ∧
   __hash__ hash_type hash_tuple (py_hash hash_scalar hash_type hash_tuple) x =
     __hash__ hash_type hash_tuple (py_hash hash_scalar hash_type hash_tuple) y) ∧
  (cls y = cls x → __eq__ py_ne x (obj y) = Ok true →
   __hash__ hash_type hash_tuple (py_hash hash_scalar hash_type hash_tuple) x =
     __hash__ hash_type hash_tuple (py_hash hash_scalar hash_type hash_tuple) y).
Proof.
  intros Hscalar Hx Hy.
  assert (py_eq (obj x) (obj y) = Ok true →
          __hash__ hash_type hash_tuple
            (py_hash hash_scalar hash_type hash_tuple) x =
          __hash__ hash_type hash_tuple
            (py_hash hash_scalar hash_type hash_tuple) y) as Hhash.
  { intros Heq.
    pose proof (py_hash_eq hash_scalar hash_type hash_tuple Hscalar
                  (obj x) (obj y) Hx Hy Heq) as Hhash.
    unfold obj in Hhash. by rewrite !py_hash_obj, !instance_eta in Hhash. }
  split.
  - intros Heq. split; [|by apply Hhash].
    destruct x as [c attrs1], y as [c' attrs2]. unfold obj in Heq.
    cbn [cls attrs] in *.
    by apply py_eq_obj_true in Heq as (attrs2' & [= -> _] & _).
  - intros Hcls Heq. apply Hhash.
    destruct x as [c attrs1], y as [c' attrs2]. cbn [cls] in Hcls. subst c'.
    unfold obj. cbn [cls attrs]. by rewrite py_eq_same_class.
Qed.

Lemma data_holder_hash_eq_witness :
  let order : SetOrder := set_order_written in
  let hash_scalar v :=
    match v with JBool b => Z.b2z b | JInt n => n | _ => 0%Z end in
  let hash_type (c : class) := 7%Z in
  let hash_tuple (hs : list Z) := foldr (λ h acc, (h + 31 * acc)%Z) 1%Z hs in
  let x := JumpStartCachedS3ContentValue.__init__ (JInt 1) (JStr "md5") in
  let y := JumpStartCachedS3ContentValue.__init__ (JBool true) (JStr "md5") in
  py_eq (obj x) (obj y) = Ok true ∧
  __hash__ hash_type hash_tuple (py_hash hash_scalar hash_type hash_tuple) x =
    __hash__ hash_type hash_tuple (py_hash hash_scalar hash_type hash_tuple) y.
Proof.
  intros order hash_scalar hash_type hash_tuple x y. split; [reflexivity|].
  apply (data_holder_hash_eq hash_scalar hash_type hash_tuple x y);
    [|reflexivity..].
  intros a b. destruct a, b; simpl; intros Hab; try done; injection Hab as Hab.
  - apply Bool.eqb_prop in Hab. by subst.
  - by apply Z.eqb_eq in Hab.
  - by apply Z.eqb_eq in Hab.
  - by apply Z.eqb_eq in Hab.
Defined.

Lemma Forall2_elem_of_l {A B} (R : A → B → Prop) xs ys x :
  Forall2 R xs ys → x ∈ xs → ∃ y, y ∈ ys ∧ R x y.
Proof.
  induction 1 as [|x' y' xs ys Hxy Hall IH]; intros Hx.
  - by apply not_elem_of_nil in Hx.
  - apply elem_of_cons in Hx as [->|Hx].
    + exists y'. split; [left|done].
    + destruct (IH Hx) as (y & Hy & HR). exists y. split; [by right|done].
Qed.

(** X21: an object that has all its attributes has a [__hash__] exactly when
    every attribute its class declares has a hash, and [__hash__] raises
    [TypeError] otherwise: an object with a list or a dictionary in an
    attribute cannot be hashed. *)
Theorem data_holder_hashable `{!SetOrder} (hash_scalar : jvalue → Z)
    (hash_type : class → Z) (hash_tuple : list Z → Z) (x : instance) :
  complete (obj x) = true →
  let hash := py_hash hash_scalar hash_type hash_tuple in
  let names := slot_names (__slots__ (cls x)) in
  (is_Ok (__hash__ hash_type hash_tuple hash x) = true ∨
   __hash__ hash_type hash_tuple hash x = Raise TypeError) ∧
  (is_Ok (__hash__ hash_type hash_tuple hash x) = true ↔
   ∀ n v, n ∈ names → Dict.get n (attrs x) = Some v → is_Ok (hash v) = true) ∧
  (∀ n v, n ∈ names → Dict.get n (attrs x) = Some v →
          (∃ vs, v = JList vs) ∨ (∃ d, v = JDict d) →
          __hash__ hash_type hash_tuple hash x = Raise TypeError).
Proof.
  intros Hx hash names.
  assert (is_Ok (__hash__ hash_type hash_tuple hash x) = true ∨
          __hash__ hash_type hash_tuple hash x = Raise TypeError) as Hcases.
  { pose proof (py_hash_complete hash_scalar hash_type hash_tuple (obj x) Hx)
      as Hobj.
    unfold obj in Hobj. by rewrite py_hash_obj, instance_eta in Hobj. }
  assert (is_Ok (__hash__ hash_type hash_tuple hash x) = true ↔
          ∀ n v, n ∈ names → Dict.get n (attrs x) = Some v → is_Ok (hash v) = true)
    as Hiff.
  { destruct x as [c self_attrs]. simpl in Hx. subst names. cbn [cls attrs].
    apply andb_prop in Hx as [Hslots%bool_decide_eq_true _].
    destruct (hash_run hash_type hash_tuple hash c self_attrs Hslots)
      as (values & Hvalues & ->).
    assert (is_Ok (hashes ← mapM hash values;
                   Ok (hash_tuple (hash_type c :: hashes))) =
            is_Ok (mapM hash values)) as -> by (by destruct (mapM hash values)).
    rewrite mapM_is_Ok, Forall_forall. split.
    - intros Hall n v Hn Hv.
      destruct (Forall2_elem_of_l _ _ _ n Hvalues Hn) as (v' & Hin & Hv').
      simplify_eq. by apply Hall.
    - intros Hall v Hin.
      pose proof (values_of_names _ _ _ Hvalues) as Hnames.
      rewrite Forall_forall in Hnames.
      destruct (Hnames v Hin) as (n & Hn & Hv). by apply (Hall n). }
  split_and!; [done..|].
  intros n v Hn Hv Hkind. destruct Hcases as [Hok|]; [|done].
  pose proof (proj1 Hiff Hok n v Hn Hv) as Hhash.
  by destruct Hkind as [[vs ->]|[d ->]].
Qed.

Lemma data_holder_hashable_witness :
  let order : SetOrder := set_order_written in
  let ecr :=
    JDict [("framework", JStr "pytorch"); ("framework_version", JStr "1.5.0");
           ("py_version", JStr "py3")] in
  let spec :=
    JDict [("model_id", JStr "m"); ("version", JStr "1.0.0");
           ("min_sdk_version", JStr "2.49.0");
           ("incremental_training_supported", JBool false);
           ("hosting_ecr_specs", ecr); ("hosting_artifact_key", JStr "a");
           ("hosting_script_key", JStr "s"); ("training_supported", JBool true);
           ("training_ecr_specs", ecr); ("training_artifact_key", JStr "ta");
           ("training_script_key", JStr "ts");
           ("hyperparameters", JDict [("epochs", JInt 3)])] in
  ∃ x,
    JumpStartModelSpecs.__init__ spec = Ok x ∧
    __hash__ (λ _, 0%Z) (λ _, 0%Z) (py_hash (λ _, 0%Z) (λ _, 0%Z) (λ _, 0%Z)) x =
      Raise TypeError.
Proof.
  intros order ecr spec. eexists. split; [reflexivity|].
  match goal with
  | |- __hash__ _ _ _ ?x = _ =>
      destruct (data_holder_hashable (λ _, 0%Z) (λ _, 0%Z) (λ _, 0%Z) x eq_refl)
        as (_ & _ & Hlist)
  end.
  apply (Hlist "hyperparameters" (JDict [("epochs", JInt 3)]));
    [by apply (bool_decide_unpack _); vm_compute|reflexivity|right; by eexists].
Defined.
